(** * The daily racing-data pipeline (25-MLOps/Module03), embedded in Rocq

    The pipeline scrapes race records, validates them, derives features,
    exports the result and monitors what was exported.  Every Python
    function the properties below talk about is transcribed as a Rocq
    function of the same name, module by module:

      - [Py]            the Python built-ins the code relies on
                        ([int], [str.split], [in], [repr], f-strings);
      - [Pl]            the part of Polars the code calls: frames with named
                        columns, [with_columns], [filter], expressions;
      - [Transformers]  src/data/transformers.py;
      - [Validators]    src/data/validators.py;
      - [Exporters]     src/data/exporters.py;
      - [Base], [Tab]   src/scrapers/base.py and tab_scraper.py;
      - [DailyScrape]   src/flows/daily_scrape.py;
      - [Monitoring]    src/flows/monitoring.py.

    Exceptions are values of [result]; objects that the Python code mutates
    (the scraper's counters, the exporter's statistics, the files on disk)
    are threaded explicitly. *)

From Stdlib Require Import ZArith QArith Lia Lqa Ascii String Reals Qreals Lra.
From stdpp Require Import gmap strings list pretty.

Local Open Scope Z_scope.

(** ** Exceptions *)

(** A Python call either returns a value or raises; the exception carries
    its message, which is what [str(e)] and [f"{e}"] show. *)
Inductive result (A : Type) : Type :=
| Ok (a : A)
| Raise (msg : string).
Arguments Ok {A} a.
Arguments Raise {A} msg.

(** Sequencing: the first exception raised ends the computation.  With these
    instances [x ← r; k] reads as the Python statement sequence. *)
#[global] Instance result_bind : MBind result := fun A B k r =>
  match r with
  | Ok a => k a
  | Raise e => Raise e
  end.
#[global] Instance result_ret : MRet result := fun A a => Ok a.
Arguments result_bind {A B} _ !_ /.
Arguments result_ret {A} _ /.

(** [try: body / except: handler] for a handler that ignores the exception. *)
Definition try_except {A} (body : result A) (handler : A) : A :=
  match body with
  | Ok a => a
  | Raise _ => handler
  end.

Definition is_ok {A} (r : result A) : bool :=
  match r with Ok _ => true | Raise _ => false end.

Fixpoint mapM {A B} (f : A -> result B) (l : list A) : result (list B) :=
  match l with
  | [] => Ok []
  | a :: l' => b ← f a; bs ← mapM f l'; Ok (b :: bs)
  end.

(** ** Python built-ins *)

Module Py.

(** Strings are byte strings here; the code points beyond ASCII that Python
    also treats as white space or as decimal digits are outside the model. *)

Definition code (c : ascii) : nat := nat_of_ascii c.

(** [str.isspace] on ASCII: TAB, LF, VT, FF, CR, FS, GS, RS, US and space. *)
Definition is_space (c : ascii) : bool :=
  ((9 <=? code c)%nat && (code c <=? 13)%nat)
  || ((28 <=? code c)%nat && (code c <=? 32)%nat).

Definition digit_val (c : ascii) : option Z :=
  if ((48 <=? code c)%nat && (code c <=? 57)%nat)
  then Some (Z.of_nat (code c - 48))
  else None.

Fixpoint skip_space (s : string) : string :=
  match s with
  | String c r => if is_space c then skip_space r else s
  | EmptyString => s
  end.

(** The digits after the first one: a digit, or one underscore followed by a
    digit.  Returns the number read and what is left. *)
Fixpoint scan_digits (acc : Z) (s : string) {struct s} : Z * string :=
  match s with
  | String c r =>
      match digit_val c with
      | Some d => scan_digits (10 * acc + d) r
      | None =>
          if Ascii.eqb c "_"%char then
            match r with
            | String c' r' =>
                match digit_val c' with
                | Some d => scan_digits (10 * acc + d) r'
                | None => (acc, s)
                end
            | EmptyString => (acc, s)
            end
          else (acc, s)
      end
  | EmptyString => (acc, s)
  end.

(** The white space [int] passes over around the number: TAB, LF, VT, FF, CR
    and space.  Unlike [str.strip], [int] does not take FS, GS, RS and US for
    white space. *)
Definition is_int_space (c : ascii) : bool :=
  ((9 <=? code c)%nat && (code c <=? 13)%nat) || (code c =? 32)%nat.

Fixpoint skip_int_space (s : string) : string :=
  match s with
  | String c r => if is_int_space c then skip_int_space r else s
  | EmptyString => s
  end.

(** The number of decimal digits in a text, and the most of them [int]
    converts: [sys.get_int_max_str_digits()] as it is set by default in the
    interpreters that have the limit. *)
Fixpoint count_digits (s : string) : nat :=
  match s with
  | String c r =>
      match digit_val c with
      | Some _ => S (count_digits r)
      | None => count_digits r
      end
  | EmptyString => O
  end.

Definition int_max_str_digits : nat := 4300.

(** An optional sign in front of the digits. *)
Definition read_sign (s : string) : Z * string :=
  match s with
  | String c r =>
      if Ascii.eqb c "-"%char then (-1, r)
      else if Ascii.eqb c "+"%char then (1, r)
      else (1, s)
  | EmptyString => (1, s)
  end.

(** [int(s)] for a string [s], base 10: white space, an optional sign, digits
    with single underscores between them, white space; anything else is a
    [ValueError], and so is a number of more digits than the limit. *)
Definition int (s : string) : result Z :=
  let invalid := Raise ("invalid literal for int() with base 10: " +:+ s) in
  let '(sign, body) := read_sign (skip_int_space s) in
  match body with
  | String c r =>
      match digit_val c with
      | Some d =>
          let '(n, rest) := scan_digits d r in
          match skip_int_space rest with
          | EmptyString =>
              if (int_max_str_digits <? count_digits body)%nat
              then Raise "Exceeds the limit (4300 digits) for integer string conversion"
              else Ok (sign * n)
          | String _ _ => invalid
          end
      | None => invalid
      end
  | EmptyString => invalid
  end.

(** [c in s] for a one-character [c]. *)
Fixpoint contains_char (c : ascii) (s : string) : bool :=
  match s with
  | String c' r => Ascii.eqb c c' || contains_char c r
  | EmptyString => false
  end.

(** [s.split(c)] for a one-character separator: always at least one part. *)
Fixpoint split (c : ascii) (s : string) : list string :=
  match s with
  | EmptyString => [EmptyString]
  | String c' r =>
      if Ascii.eqb c c' then EmptyString :: split c r
      else match split c r with
           | p :: ps => String c' p :: ps
           | [] => [String c' EmptyString]
           end
  end.

(** [a, b = parts]: unpacking into two names. *)
Definition unpack2 (parts : list string) : result (string * string) :=
  match parts with
  | [a; b] => Ok (a, b)
  | [] | [_] => Raise "not enough values to unpack (expected 2)"
  | _ => Raise "too many values to unpack (expected 2)"
  end.

(** [needle in haystack] on strings. *)
Fixpoint is_prefix (p s : string) : bool :=
  match p, s with
  | EmptyString, _ => true
  | String a p', String b s' => Ascii.eqb a b && is_prefix p' s'
  | String _ _, EmptyString => false
  end.

Fixpoint contains (needle haystack : string) : bool :=
  is_prefix needle haystack
  || match haystack with
     | String _ r => contains needle r
     | EmptyString => false
     end.

(** [str(n)] for integers. *)
Definition str_nat (n : nat) : string := pretty n.
Definition str_Z (z : Z) : string := pretty z.

(** [repr] of a list of plain identifiers: ['a', 'b']. *)
Definition repr_str (s : string) : string := "'" +:+ s +:+ "'".

Fixpoint join (sep : string) (l : list string) : string :=
  match l with
  | [] => ""
  | [x] => x
  | x :: l' => x +:+ sep +:+ join sep l'
  end.

Definition repr_list (l : list string) : string :=
  "[" +:+ join ", " (map repr_str l) +:+ "]".

(** [x in l] on a list of strings. *)
Definition mem (x : string) (l : list string) : bool := bool_decide (x ∈ l).

Definition upper_char (c : ascii) : ascii :=
  if ((97 <=? code c)%nat && (code c <=? 122)%nat)
  then ascii_of_nat (code c - 32) else c.

Definition lower_char (c : ascii) : ascii :=
  if ((65 <=? code c)%nat && (code c <=? 90)%nat)
  then ascii_of_nat (code c + 32) else c.

Fixpoint map_chars (f : ascii -> ascii) (s : string) : string :=
  match s with
  | String c r => String (f c) (map_chars f r)
  | EmptyString => EmptyString
  end.

Definition upper : string -> string := map_chars upper_char.
Definition lower : string -> string := map_chars lower_char.

Fixpoint rev_string (acc s : string) : string :=
  match s with
  | String c r => rev_string (String c acc) r
  | EmptyString => acc
  end.

(** [s.strip()]: white space removed at both ends. *)
Definition strip (s : string) : string :=
  rev_string "" (skip_space (rev_string "" (skip_space s))).

End Py.

(** ** Polars, as far as the pipeline uses it *)

Module Pl.

(** A cell of a frame, or a value of a scraped record.  [VObj] stands for
    anything nested (the list of horses of a race), which the code only
    carries around. *)
Inductive value : Type :=
| VNull
| VBool (b : bool)
| VInt (z : Z)
| VStr (s : string)
| VDate (ordinal : Z)
| VDatetime (stamp : Z)
| VObj (repr : string).

#[global] Instance value_eq_dec : EqDecision value.
Proof. solve_decision. Defined.

(** A scraped record is a Python dict: field names with their values, in
    insertion order. *)
Definition RawRecord : Type := list (string * value).

(** A frame is a list of named columns, in column order; all columns have
    the frame's height. *)
Definition Series : Type := list value.
Definition DataFrame : Type := list (string * Series).

(** [df.columns] *)
Definition columns (df : DataFrame) : list string := map fst df.

(** [len(df)], [df.height] *)
Definition height (df : DataFrame) : nat :=
  match df with
  | [] => 0%nat
  | (_, c) :: _ => length c
  end.

Fixpoint get_column (df : DataFrame) (name : string) : result Series :=
  match df with
  | [] => Raise ("ColumnNotFoundError: " +:+ name)
  | (n, c) :: df' => if String.eqb n name then Ok c else get_column df' name
  end.

(** The value of an expression: a column, or a single value that is repeated
    to the height of the frame it is put in ([pl.lit], [pl.len]). *)
Inductive column : Type :=
| Scalar (v : value)
| Column (c : Series).

Definition broadcast (n : nat) (c : column) : Series :=
  match c with
  | Scalar v => replicate n v
  | Column s => s
  end.

(** What Polars computes inside the kernels that the code calls and that
    are not re-implemented here: date parsing and calendar arithmetic, value
    counts, and building a frame from a list of dicts (its schema inference
    may reject the data). *)
Class Kernels : Type := {
  k_DataFrame : list RawRecord -> result DataFrame;
  k_str_to_date : option string -> Series -> result Series;
  k_str_to_datetime : Series -> result Series;
  k_dt_weekday : Series -> result Series;
  k_dt_month : Series -> result Series;
  k_value_counts : Series -> result Series;
  k_value_counts_field : string -> Series -> result Series;
}.

(** The expressions that occur in the code. *)
Inductive expr : Type :=
| col (name : string)
| lit (v : value)
| len
| str_to_date (fmt : option string) (e : expr)
| str_to_datetime (e : expr)
| str_strip_chars (e : expr)
| str_to_uppercase (e : expr)
| str_to_lowercase (e : expr)
| map_elements (f : value -> value) (e : expr)
| dt_weekday (e : expr)
| dt_month (e : expr)
| floordiv (e : expr) (k : Z)
| value_counts_field (field : string) (e : expr)
| is_null (e : expr)
| lt_int (e : expr) (k : Z)
| gt_int (e : expr) (k : Z)
| gt_date (e : expr) (d : Z)
| eq_str (e : expr) (s : string)
| is_in (e : expr) (l : list value)
| or_ (e1 e2 : expr)
| value_counts (e : expr)
| n_unique (e : expr)
| min (e : expr)
| max (e : expr).

(** Element-wise operations keep nulls and raise on a cell of the wrong
    type. *)
Definition on_str (op : string) (f : string -> value) (v : value) : result value :=
  match v with
  | VNull => Ok VNull
  | VStr s => Ok (f s)
  | _ => Raise ("InvalidOperationError: " +:+ op +:+ " needs a string column")
  end.

Definition on_int (op : string) (f : Z -> value) (v : value) : result value :=
  match v with
  | VNull => Ok VNull
  | VInt z => Ok (f z)
  | _ => Raise ("InvalidOperationError: " +:+ op +:+ " needs an integer column")
  end.

Definition on_date (op : string) (f : Z -> value) (v : value) : result value :=
  match v with
  | VNull => Ok VNull
  | VDate d => Ok (f d)
  | _ => Raise ("InvalidOperationError: " +:+ op +:+ " needs a date column")
  end.

(** [map_elements] calls the Python function on every cell except nulls. *)
Definition on_non_null (f : value -> value) (v : value) : result value :=
  match v with
  | VNull => Ok VNull
  | _ => Ok (f v)
  end.

(** [a | b] on booleans with nulls. *)
Definition or_value (a b : value) : result value :=
  match a, b with
  | VBool true, (VBool _ | VNull) | VNull, VBool true => Ok (VBool true)
  | VBool false, VBool x => Ok (VBool x)
  | VBool false, VNull | VNull, VBool false | VNull, VNull => Ok VNull
  | _, _ => Raise "InvalidOperationError: | needs boolean columns"
  end.

(** A cell of a string column: a string or null. *)
Definition is_text (v : value) : bool :=
  match v with
  | VNull | VStr _ => true
  | _ => false
  end.

(** [min] and [max] of an integer column skip nulls; no value gives null. *)
Fixpoint ints (op : string) (s : Series) : result (list Z) :=
  match s with
  | [] => Ok []
  | VNull :: r => ints op r
  | VInt z :: r => zs ← ints op r; Ok (z :: zs)
  | _ :: _ => Raise ("InvalidOperationError: " +:+ op +:+ " needs an integer column")
  end.

Definition extremum (f : Z -> Z -> Z) (zs : list Z) : value :=
  match zs with
  | [] => VNull
  | z :: r => VInt (foldl f z r)
  end.

(** The distinct values of a column, in order of first appearance. *)
Fixpoint distinct (seen l : list value) : list value :=
  match l with
  | [] => []
  | x :: r =>
      if bool_decide (x ∈ seen) then distinct seen r else x :: distinct (x :: seen) r
  end.

Definition map_column (f : value -> result value) (c : column) : result column :=
  match c with
  | Scalar v => v' ← f v; Ok (Scalar v')
  | Column s => s' ← mapM f s; Ok (Column s')
  end.

Definition on_series (n : nat) (f : Series -> result Series) (c : column) : result column :=
  s ← f (broadcast n c); Ok (Column s).

Fixpoint zip_with_result (f : value -> value -> result value) (a b : Series) : result Series :=
  match a, b with
  | x :: a', y :: b' => v ← f x y; r ← zip_with_result f a' b'; Ok (v :: r)
  | [], [] => Ok []
  | _, _ => Raise "ShapeError: series of different lengths"
  end.

Fixpoint eval `{Kernels} (df : DataFrame) (e : expr) : result column :=
  match e with
  | col name => c ← get_column df name; Ok (Column c)
  | lit v => Ok (Scalar v)
  | len => Ok (Scalar (VInt (Z.of_nat (height df))))
  | str_to_date fmt e => c ← eval df e; on_series (height df) (k_str_to_date fmt) c
  | str_to_datetime e => c ← eval df e; on_series (height df) k_str_to_datetime c
  | str_strip_chars e =>
      c ← eval df e; map_column (on_str "str.strip_chars" (fun s => VStr (Py.strip s))) c
  | str_to_uppercase e =>
      c ← eval df e; map_column (on_str "str.to_uppercase" (fun s => VStr (Py.upper s))) c
  | str_to_lowercase e =>
      c ← eval df e; map_column (on_str "str.to_lowercase" (fun s => VStr (Py.lower s))) c
  | map_elements f e => c ← eval df e; map_column (on_non_null f) c
  | dt_weekday e => c ← eval df e; on_series (height df) k_dt_weekday c
  | dt_month e => c ← eval df e; on_series (height df) k_dt_month c
  | floordiv e k => c ← eval df e; map_column (on_int "floordiv" (fun z => VInt (z / k))) c
  | value_counts_field field e =>
      c ← eval df e; on_series (height df) (k_value_counts_field field) c
  | is_null e =>
      c ← eval df e;
      map_column (fun v => Ok (VBool (bool_decide (v = VNull)))) c
  | lt_int e k => c ← eval df e; map_column (on_int "<" (fun z => VBool (z <? k)%Z)) c
  | gt_int e k => c ← eval df e; map_column (on_int ">" (fun z => VBool (k <? z)%Z)) c
  | gt_date e d => c ← eval df e; map_column (on_date ">" (fun x => VBool (d <? x)%Z)) c
  | eq_str e s => c ← eval df e; map_column (on_str "==" (fun x => VBool (String.eqb x s))) c
  | is_in e l =>
      c ← eval df e;
      map_column (fun v => Ok (if bool_decide (v = VNull) then VNull
                               else VBool (bool_decide (v ∈ l)))) c
  | value_counts e => c ← eval df e; on_series (height df) k_value_counts c
  | n_unique e =>
      c ← eval df e;
      Ok (Scalar (VInt (Z.of_nat (length (distinct [] (broadcast (height df) c))))))
  | min e =>
      c ← eval df e; zs ← ints "min" (broadcast (height df) c);
      Ok (Scalar (extremum Z.min zs))
  | max e =>
      c ← eval df e; zs ← ints "max" (broadcast (height df) c);
      Ok (Scalar (extremum Z.max zs))
  | or_ e1 e2 =>
      c1 ← eval df e1;
      c2 ← eval df e2;
      s ← zip_with_result or_value (broadcast (height df) c1) (broadcast (height df) c2);
      Ok (Column s)
  end.

(** [df.filter(mask).height]: the rows where the mask is true; a null mask
    drops the row. *)
Definition filter_height `{Kernels} (df : DataFrame) (mask : expr) : result nat :=
  c ← eval df mask;
  Ok (length (filter (fun v => v = VBool true) (broadcast (height df) c))).

(** Putting a column into a frame: a column of that name is replaced in
    place, a new name is appended. *)
Fixpoint with_column (df : DataFrame) (name : string) (c : Series) : DataFrame :=
  match df with
  | [] => [(name, c)]
  | (n, c') :: df' =>
      if String.eqb n name then (name, c) :: df'
      else (n, c') :: with_column df' name c
  end.

(** [df.with_columns([e1.alias(n1), ...])]: every expression is evaluated on
    [df] itself, then the columns are put in; a column of another height
    than the frame is rejected. *)
Definition eval_named `{Kernels} (df : DataFrame) (ne : string * expr)
  : result (string * Series) :=
  c ← eval df ne.2;
  let s := broadcast (height df) c in
  if bool_decide (length s = height df) then Ok (ne.1, s)
  else Raise ("ShapeError: unable to add a column of another height: " +:+ ne.1).

Definition with_columns `{Kernels} (df : DataFrame) (exprs : list (string * expr))
  : result DataFrame :=
  cols ← mapM (eval_named df) exprs;
  Ok (foldl (fun d nc => with_column d nc.1 nc.2) df cols).

(** [df.select([e1.alias(n1), ...])]: a new frame of the computed columns;
    single values are repeated to the height of the longest column, and all
    columns must then agree. *)
Definition column_length (c : column) : nat :=
  match c with
  | Scalar _ => 1%nat
  | Column s => length s
  end.

Definition select `{Kernels} (df : DataFrame) (exprs : list (string * expr))
  : result DataFrame :=
  cols ← mapM (fun ne => c ← eval df ne.2; Ok (ne.1, c)) exprs;
  let n := foldr (fun nc m => Nat.max (column_length nc.2) m) 0%nat cols in
  mapM (fun nc : string * column =>
          let s := broadcast n nc.2 in
          if bool_decide (length s = n) then Ok (nc.1, s)
          else Raise ("ShapeError: series of different lengths: " +:+ nc.1))
       cols.

End Pl.

(** ** src/data/transformers.py *)

Module Transformers.
Import Pl.

(** [RaceDataTransformer._parse_race_time]:
<<
    try:
        if ':' in time_str:
            hours, minutes = time_str.split(':')
            return int(hours) * 60 + int(minutes)
        return 0
    except:
        return 0
>> *)
Definition _parse_race_time (time_str : string) : Z :=
  try_except
    (if Py.contains_char ":"%char time_str then
       '(hours, minutes) ← Py.unpack2 (Py.split ":"%char time_str);
       h ← Py.int hours;
       m ← Py.int minutes;
       Ok (h * 60 + m)
     else Ok 0)
    0.

(** The same function as [map_elements] calls it, on a cell: on anything
    that is not a string, [':' in time_str] is false or raises a [TypeError],
    and both ways end in [return 0]. *)
Definition _parse_race_time_cell (v : value) : value :=
  match v with
  | VStr s => VInt (_parse_race_time s)
  | _ => VInt 0
  end.

(** [RaceDataTransformer._get_track_characteristics]:
    [track_info.get(track_name, 'unknown')]. *)
Definition track_info : gmap string string :=
  list_to_map [
    ("ELLERSLIE", "flat_left_2000m");
    ("TRENTHAM", "flat_right_2200m");
    ("RICCARTON", "flat_right_1600m");
    ("TE RAPA", "flat_right_1600m")
  ].

Definition _get_track_characteristics (track_name : string) : string :=
  default "unknown" (track_info !! track_name).

Definition _get_track_characteristics_cell (v : value) : value :=
  match v with
  | VStr s => VStr (_get_track_characteristics s)
  | _ => VStr "unknown"
  end.

(** [RaceDataTransformer.clean_scraped_data]; the [try]/[except] around it
    logs and re-raises. *)
Definition clean_scraped_data `{Kernels} (df : DataFrame) : result DataFrame :=
  with_columns df [
    ("race_date", str_to_date (Some "%Y-%m-%d") (col "date"));
    ("track_clean", str_to_uppercase (str_strip_chars (col "track")));
    ("source", str_to_lowercase (str_strip_chars (col "source")));
    ("race_minutes", map_elements _parse_race_time_cell (col "race_time"))
  ].

(** [RaceDataTransformer.engineer_basic_features]; [now] is what
    [datetime.now().isoformat()] returns at the call. *)
Definition engineer_basic_features `{Kernels} (now : string) (df : DataFrame)
  : result DataFrame :=
  with_columns df [
    ("day_of_week", dt_weekday (col "race_date"));
    ("month", dt_month (col "race_date"));
    ("race_hour", floordiv (col "race_minutes") 60);
    ("track_race_count", value_counts_field "counts" (col "track_clean"));
    ("scraped_timestamp", str_to_datetime (col "scraped_at"));
    ("processed_at", lit (VStr now))
  ].

(** [RaceDataTransformer.create_betting_features] *)
Definition create_betting_features `{Kernels} (df : DataFrame) : result DataFrame :=
  with_columns df [
    ("minutes_to_post", col "race_minutes");
    ("track_type", map_elements _get_track_characteristics_cell (col "track_clean"));
    ("field_size", len)
  ].

(** The three steps as [transform_racing_data] chains them. *)
Definition transform `{Kernels} (now : string) (df : DataFrame) : result DataFrame :=
  cleaned_df ← clean_scraped_data df;
  featured_df ← engineer_basic_features now cleaned_df;
  create_betting_features featured_df.

(** The names of the columns the three steps compute. *)
Definition derived_columns : list string :=
  ["race_date"; "track_clean"; "source"; "race_minutes";
   "day_of_week"; "month"; "race_hour"; "track_race_count";
   "scraped_timestamp"; "processed_at";
   "minutes_to_post"; "track_type"; "field_size"].

End Transformers.

(** ** src/data/validators.py *)

Module Validators.
Import Pl.

(** A value of the [stats] dict: a counter, a time stamp or the score. *)
Inductive stat : Type :=
| SInt (n : Z)
| SStr (s : string)
| SNum (q : Q).

Record ValidationResult : Type := mkValidationResult {
  is_valid : bool;
  errors : list string;
  warnings : list string;
  stats : gmap string stat;
}.

(** [max(0, x)]: the first argument unless the second is larger.  The score
    is a number of sixteenths, which floating point holds exactly. *)
Definition max0 (x : Q) : Q := if Qle_bool x 0 then 0%Q else x.

(** [RaceDataValidator._check_date_validity]; [today] is [date.today()].
    Whatever was appended to [errors] before an exception stays there. *)
Definition _check_date_validity `{Kernels} (today : Z) (df : DataFrame)
  : list string * list string :=
  if negb (Py.mem "date" (columns df)) then (["Date column missing"], [])
  else
    let failed e := "Date validation failed: " +:+ e in
    match eval df (str_to_date None (col "date")) with
    | Raise e => ([failed e], [])
    | Ok date_col =>
        match filter_height df (is_null (col "date")) with
        | Raise e => ([failed e], [])
        | Ok null_dates =>
            let errors :=
              if (0 <? null_dates)%nat
              then [Py.str_nat null_dates +:+ " records have null dates"]
              else [] in
            match filter_height df (gt_date (str_to_date None (col "date")) today) with
            | Raise e => (errors ++ [failed e], [])
            | Ok future_dates =>
                (errors,
                 if (0 <? future_dates)%nat
                 then [Py.str_nat future_dates +:+ " records have future dates"]
                 else [])
            end
        end
    end.

(** [RaceDataValidator._check_race_numbers] *)
Definition _check_race_numbers `{Kernels} (df : DataFrame) : list string * list string :=
  if negb (Py.mem "race_number" (columns df)) then ([], [])
  else
    match filter_height df (or_ (lt_int (col "race_number") 1)
                                (gt_int (col "race_number") 15)) with
    | Raise e => (["Race number validation failed: " +:+ e], [])
    | Ok invalid_races =>
        ([],
         if (0 <? invalid_races)%nat
         then [Py.str_nat invalid_races +:+ " records have unusual race numbers"]
         else [])
    end.

(** [RaceDataValidator._check_track_names] *)
Definition _check_track_names `{Kernels} (df : DataFrame) : list string * list string :=
  if negb (Py.mem "track" (columns df)) then ([], [])
  else
    match filter_height df (or_ (is_null (col "track")) (eq_str (col "track") "")) with
    | Raise e => (["Track validation failed: " +:+ e], [])
    | Ok empty_tracks =>
        (if (0 <? empty_tracks)%nat
         then [Py.str_nat empty_tracks +:+ " records have missing track names"]
         else [],
         [])
    end.

(** [RaceDataValidator._check_horse_data_quality] *)
Definition _check_horse_data_quality (df : DataFrame) : list string * list string :=
  ([],
   if Py.mem "horses" (columns df)
   then ["Horse data validation not yet implemented - TODO for student"]
   else []).

Definition required_fields : list string := ["date"; "race_number"; "track"; "source"].

(** [RaceDataValidator.validate_scraped_data]; [now] is the time stamp
    [datetime.now().isoformat()] put into [stats]. *)
Definition validate_scraped_data `{Kernels} (today : Z) (now : string)
    (raw_data : list RawRecord) : ValidationResult :=
  let stats : gmap string stat :=
    {[ "total_records" := SInt (Z.of_nat (length raw_data));
       "races_processed" := SInt 0;
       "horses_processed" := SInt 0;
       "validation_timestamp" := SStr now ]} in
  match raw_data with
  | [] => mkValidationResult false ["No data provided for validation"] [] stats
  | _ :: _ =>
      match k_DataFrame raw_data with
      | Raise e =>
          mkValidationResult false ["Failed to create DataFrame: " +:+ e] [] stats
      | Ok df =>
          let stats := <["races_processed" := SInt (Z.of_nat (height df))]> stats in
          let missing_fields :=
            filter (fun field => negb (Py.mem field (columns df))) required_fields in
          let errors :=
            match missing_fields with
            | [] => []
            | _ :: _ => ["Missing required fields: " +:+ Py.repr_list missing_fields]
            end in
          let validation_checks :=
            [ _check_date_validity today df;
              _check_race_numbers df;
              _check_track_names df;
              _check_horse_data_quality df ] in
          let errors := errors ++ concat (map fst validation_checks) in
          let warnings := concat (map snd validation_checks) in
          let total_checks := (Z.of_nat (length validation_checks) * 4)%Z in
          let failed_checks := Z.of_nat (length errors) in
          let stats :=
            <["data_quality_score" :=
                SNum (max0 (inject_Z (total_checks - failed_checks) / inject_Z total_checks))]>
              stats in
          mkValidationResult (bool_decide (length errors = 0%nat)) errors warnings stats
      end
  end.

End Validators.

(** ** A reference behaviour for the Polars kernels

    The statements below hold for every instance of [Pl.Kernels].  This
    instance is the one the examples run with: ISO dates, proleptic
    Gregorian ordinals as in [datetime.date.toordinal], Monday = 1. *)

Module Ref.
Import Pl.

Fixpoint first_seen (seen l : list string) : list string :=
  match l with
  | [] => []
  | x :: r => if Py.mem x seen then first_seen seen r else x :: first_seen (x :: seen) r
  end.

Fixpoint field (r : RawRecord) (k : string) : value :=
  match r with
  | [] => VNull
  | (k', v) :: r' => if String.eqb k k' then v else field r' k
  end.

Definition kind (v : value) : nat :=
  match v with
  | VNull => 0 | VBool _ => 1 | VInt _ => 2 | VStr _ => 3
  | VDate _ => 4 | VDatetime _ => 5 | VObj _ => 6
  end%nat.

(** All cells that are not null are of one kind. *)
Definition homogeneous (s : Series) : bool :=
  match filter (fun v => v ≠ VNull) s with
  | [] => true
  | v :: r => forallb (fun w => Nat.eqb (kind w) (kind v)) r
  end.

Definition DataFrame_of (raw : list RawRecord) : result DataFrame :=
  let names := first_seen [] (concat (map (map fst) raw)) in
  mapM (fun name =>
          let s := map (fun r => field r name) raw in
          if homogeneous s then Ok (name, s)
          else Raise ("unexpected value while building Series: " +:+ name))
       names.

Definition is_leap (y : Z) : bool :=
  ((y mod 4 =? 0) && negb (y mod 100 =? 0)) || (y mod 400 =? 0).

Definition days_in_month (y m : Z) : Z :=
  if m =? 2 then (if is_leap y then 29 else 28)
  else if (m =? 4) || (m =? 6) || (m =? 9) || (m =? 11) then 30 else 31.

Fixpoint days_before_month (y : Z) (m : nat) : Z :=
  match m with
  | O | S O => 0
  | S m' => days_before_month y m' + days_in_month y (Z.of_nat m')
  end.

Definition ordinal (y m d : Z) : Z :=
  let y1 := y - 1 in
  y1 * 365 + y1 / 4 - y1 / 100 + y1 / 400 + days_before_month y (Z.to_nat m) + d.

(** Four digits, two digits, two digits, separated by '-'. *)
Definition digits (s : string) : option Z :=
  match s with
  | EmptyString => None
  | String c r =>
      match Py.digit_val c with
      | Some d =>
          match Py.scan_digits d r with
          | (n, EmptyString) => if Py.contains_char "_"%char s then None else Some n
          | _ => None
          end
      | None => None
      end
  end.

Definition parse_date (s : string) : option Z :=
  match Py.split "-"%char s with
  | [ys; ms; ds] =>
      if bool_decide (String.length ys = 4%nat ∧ String.length ms = 2%nat
                      ∧ String.length ds = 2%nat)
      then
        y ← digits ys; m ← digits ms; d ← digits ds;
        if (1 <=? y) && (1 <=? m) && (m <=? 12) && (1 <=? d) && (d <=? days_in_month y m)
        then Some (ordinal y m d) else None
      else None
  | _ => None
  end.

Definition to_date_cell (v : value) : result value :=
  match v with
  | VNull => Ok VNull
  | VStr s =>
      match parse_date s with
      | Some d => Ok (VDate d)
      | None => Raise ("conversion from `str` to `date` failed for " +:+ s)
      end
  | _ => Raise "InvalidOperationError: str.to_date needs a string column"
  end.

(** The date part of an ISO time stamp decides; the time of day is carried
    as seconds when it reads HH:MM:SS. *)
Definition to_datetime_cell (v : value) : result value :=
  match v with
  | VNull => Ok VNull
  | VStr s =>
      match parse_date (substring 0 10 s) with
      | Some d =>
          let secs :=
            match Py.split ":"%char (substring 11 8 s) with
            | [h; m; x] =>
                default 0 (hh ← digits h; mm ← digits m; ss ← digits x;
                           Some (hh * 3600 + mm * 60 + ss))
            | _ => 0
            end in
          Ok (VDatetime (d * 86400 + secs))
      | None => Raise ("conversion from `str` to `datetime` failed for " +:+ s)
      end
  | _ => Raise "InvalidOperationError: str.to_datetime needs a string column"
  end.

Definition weekday_cell (v : value) : result value :=
  on_date "dt.weekday" (fun d => VInt ((d - 1) mod 7 + 1)) v.

(** The month of an ordinal, by the four-century decomposition. *)
Definition month_of_ordinal (n : Z) : Z :=
  let n0 := n - 1 in
  let r400 := n0 mod 146097 in
  let n100 := Z.min (r400 / 36524) 3 in
  let r100 := r400 - n100 * 36524 in
  let r4 := r100 mod 1461 in
  let n1 := Z.min (r4 / 365) 3 in
  let doy := r4 - n1 * 365 in
  let y := (n0 / 146097) * 400 + n100 * 100 + (r100 / 1461) * 4 + n1 + 1 in
  let fix go (m : nat) (fuel : nat) : Z :=
    match fuel with
    | O => 12
    | S fuel' =>
        if doy <? days_before_month y (S m) then Z.of_nat m else go (S m) fuel'
    end in
  go 1%nat 12%nat.

Definition month_cell (v : value) : result value :=
  on_date "dt.month" (fun d => VInt (month_of_ordinal d)) v.

(** One count per distinct value, in order of first appearance. *)
Definition counts (s : Series) : list (value * nat) :=
  map (fun v => (v, length (filter (fun w => w = v) s))) (distinct [] s).

Definition value_counts_field (field : string) (s : Series) : result Series :=
  if String.eqb field "counts"
  then Ok (map (fun vc : value * nat => VInt (Z.of_nat vc.2)) (counts s))
  else Raise ("StructFieldNotFoundError: " +:+ field).

(** The struct cells of [value_counts] are carried as opaque objects. *)
Definition value_counts (s : Series) : result Series :=
  Ok (map (fun vc : value * nat => VObj ("{..," +:+ Py.str_nat vc.2 +:+ "}")) (counts s)).

Definition kernels : Kernels := {|
  k_DataFrame := DataFrame_of;
  k_str_to_date := fun _ => mapM to_date_cell;
  k_str_to_datetime := mapM to_datetime_cell;
  k_dt_weekday := mapM weekday_cell;
  k_dt_month := mapM month_cell;
  k_value_counts := value_counts;
  k_value_counts_field := value_counts_field;
|}.

End Ref.


(** ** src/data/exporters.py *)

Module Exporters.
Import Pl.

(** [self.export_stats] *)
Record ExportStats : Type := mkExportStats {
  total_exports : nat;
  total_records : nat;
  formats_used : gset string;
  last_export : option string;
}.

Record DataExporter : Type := mkDataExporter {
  output_dir : string;
  export_stats : ExportStats;
}.

(** What a written file holds. *)
Inductive file : Type :=
| Parquet (df : DataFrame) (compression : string)
| Csv (df : DataFrame) (include_header : bool)
| Jsonl (df : DataFrame)
| Report (date_str : string) (summary_stats : DataFrame) (generated_at : string).

(** The exporter object together with what its methods touch: the files on
    disk and the clock, which advances at every reading. *)
Record Store : Type := mkStore {
  self : DataExporter;
  disk : gmap string file;
  ticks : nat;
}.

(** The surroundings of an export: [io path] is the error that writing
    [path] raises, if it does; [clock n] is what the [n]-th reading of
    [datetime.now()] returns. *)
Record Env : Type := mkEnv {
  io : string -> option string;
  clock : nat -> string;
}.

(** [DataExporter.__init__] *)
Definition init (output_dir : string) : DataExporter :=
  mkDataExporter output_dir (mkExportStats 0 0 ∅ None).

(** [self.output_dir / name] *)
Definition path_in (s : Store) (name : string) : string :=
  output_dir (self s) +:+ "/" +:+ name.

(** A write either raises and leaves the disk as it was, or replaces what
    is at [path]. *)
Definition write (E : Env) (s : Store) (path : string) (f : file) : result () * Store :=
  match io E path with
  | Some e => (Raise e, s)
  | None => (Ok (), mkStore (self s) (<[path := f]> (disk s)) (ticks s))
  end.

(** [DataExporter._update_stats] *)
Definition _update_stats (E : Env) (s : Store) (record_count : nat) (format_type : string)
  : Store :=
  let st := export_stats (self s) in
  let st' := mkExportStats
               (total_exports st + 1)
               (total_records st + record_count)
               ({[format_type]} ∪ formats_used st)
               (Some (clock E (ticks s))) in
  mkStore (mkDataExporter (output_dir (self s)) st') (disk s) (S (ticks s)).

(** [DataExporter.export_parquet]: both branches on [partition_cols] write
    the same file, so the argument does not appear.  The [except] clause
    logs and re-raises. *)
Definition export_parquet (E : Env) (s : Store) (df : DataFrame) (filename : string)
    (compression : string) : result string * Store :=
  let output_path := path_in s (filename +:+ ".parquet") in
  match write E s output_path (Parquet df compression) with
  | (Raise e, s') => (Raise e, s')
  | (Ok _, s') => (Ok output_path, _update_stats E s' (height df) "parquet")
  end.

(** [DataExporter.export_csv] *)
Definition export_csv (E : Env) (s : Store) (df : DataFrame) (filename : string)
    (include_header : bool) : result string * Store :=
  let output_path := path_in s (filename +:+ ".csv") in
  match write E s output_path (Csv df include_header) with
  | (Raise e, s') => (Raise e, s')
  | (Ok _, s') => (Ok output_path, _update_stats E s' (height df) "csv")
  end.

(** [DataExporter.export_json_lines] *)
Definition export_json_lines (E : Env) (s : Store) (df : DataFrame) (filename : string)
  : result string * Store :=
  let output_path := path_in s (filename +:+ ".jsonl") in
  match write E s output_path (Jsonl df) with
  | (Raise e, s') => (Raise e, s')
  | (Ok _, s') => (Ok output_path, _update_stats E s' (height df) "jsonl")
  end.

(** [DataExporter.export_daily_summary_report]: the summary table goes out
    as Parquet and as CSV, then the text report is written; the Parquet
    path is returned. *)
Definition summary_stats `{Kernels} (df : DataFrame) : result DataFrame :=
  select df [
    ("total_races", len);
    ("unique_tracks", n_unique (col "track_clean"));
    ("first_race", min (col "race_minutes"));
    ("last_race", max (col "race_minutes"));
    ("sources", value_counts (col "source")) ].

Definition export_daily_summary_report `{Kernels} (E : Env) (s : Store)
    (df : DataFrame) (date_str : string) : result string * Store :=
  match summary_stats df with
  | Raise e => (Raise e, s)
  | Ok summary_stats =>
      let base_filename := "daily_summary_" +:+ date_str in
      match export_parquet E s summary_stats base_filename "snappy" with
      | (Raise e, s1) => (Raise e, s1)
      | (Ok parquet_path, s1) =>
          match export_csv E s1 summary_stats base_filename true with
          | (Raise e, s2) => (Raise e, s2)
          | (Ok csv_path, s2) =>
              let report_path := path_in s2 (base_filename +:+ "_report.txt") in
              match write E s2 report_path
                      (Report date_str summary_stats (clock E (ticks s2))) with
              | (Raise e, s3) => (Raise e, s3)
              | (Ok _, s3) =>
                  (Ok parquet_path, mkStore (self s3) (disk s3) (S (ticks s3)))
              end
          end
      end
  end.

(** The export methods under one name.  The flow asks for them as 'parquet',
    'csv' and 'summary', and calls [export_parquet] and [export_csv] with a
    file name and [export_daily_summary_report] with the date;
    [export_json_lines] is the fourth method of the class.  [name] is the
    file name, for the summary the date. *)
Inductive format : Type := parquet | csv | jsonl | summary.

#[global] Instance format_eq_dec : EqDecision format.
Proof. solve_decision. Defined.

Definition format_name (f : format) : string :=
  match f with
  | parquet => "parquet"
  | csv => "csv"
  | jsonl => "jsonl"
  | summary => "summary"
  end.

Definition export `{Kernels} (E : Env) (f : format) (s : Store) (df : DataFrame)
    (name : string) : result string * Store :=
  match f with
  | parquet => export_parquet E s df name "snappy"
  | csv => export_csv E s df name true
  | jsonl => export_json_lines E s df name
  | summary => export_daily_summary_report E s df name
  end.





(** What is at the returned path after the call. *)
Definition file_of (f : format) (table : DataFrame) : file :=
  match f with
  | parquet | summary => Parquet table "snappy"
  | csv => Csv table true
  | jsonl => Jsonl table
  end.


(** The statistics of [s] after one more export of [record_count] records
    in [format_type] at the current reading of the clock. *)
Definition updated (E : Env) (s : Store) (record_count : nat) (format_type : string)
  : ExportStats :=
  let st := export_stats (self s) in
  mkExportStats (total_exports st + 1) (total_records st + record_count)
                ({[format_type]} ∪ formats_used st) (Some (clock E (ticks s))).

End Exporters.

(** ** src/scrapers/base.py *)

Module Base.

(** [ScrapingConfig]; the delays are seconds. *)
Record ScrapingConfig : Type := mkScrapingConfig {
  base_delay : Q;
  max_delay : Q;
  timeout : Z;
  max_retries : nat;
  respect_robots : bool;
  user_agent : string;
}.

(** The defaults of the dataclass. *)
Definition default_config : ScrapingConfig :=
  mkScrapingConfig 1 3 30 3 true
    "Mozilla/5.0 (compatible; HorseRacing-MLOps-Student/1.0)".

Inductive level : Type := INFO | WARNING | ERROR.

#[global] Instance level_eq_dec : EqDecision level.
Proof. solve_decision. Defined.

(** What a scraper does to the outside, in order: log records and sleeps.
    The module sets [logging.basicConfig(level=logging.INFO)], so the
    [logger.debug] calls leave no record.  Records whose text shows a float
    or the configuration keep that value instead of its rendering. *)
Inductive event : Type :=
| Log (lv : level) (msg : string)
| LogInitialized (class_name : string) (cfg : ScrapingConfig)
| LogRetrying (wait_time : Q)
| LogFinalStats (total_requests failed_requests : nat)
| Sleep (seconds : Q)
| SleepRandom (low high : Q).

(** [BaseScraper]: the configuration, the two counters, and the trace of
    what it did, latest event last. *)
Record BaseScraper : Type := mkBaseScraper {
  config : ScrapingConfig;
  request_count : nat;
  failed_requests : nat;
  trace : list event;
}.

Definition emit (ev : event) (s : BaseScraper) : BaseScraper :=
  mkBaseScraper (config s) (request_count s) (failed_requests s) (trace s ++ [ev]).

(** A response as the code looks at it: the status, and what the HTML
    parser makes of the body. *)
Record Response (Body : Type) : Type := mkResponse {
  status_code : Z;
  body : Body;
}.
Arguments mkResponse {Body} _ _.
Arguments status_code {Body} _.
Arguments body {Body} _.

(** What [session.get] does: it raises a [RequestException] (no connection,
    time-out) or returns a response. *)
Inductive get_outcome (Body : Type) : Type :=
| GetRaises (e : string)
| GetReturns (r : Response Body).
Arguments GetRaises {Body} e.
Arguments GetReturns {Body} r.

(** What reading robots.txt gives. *)
Inductive robots_outcome : Type :=
| RobotsAllowed
| RobotsBlocked
| RobotsUnreadable (e : string).

(** The network as one [make_request] call meets it: the answer about
    robots.txt and the outcome of each attempt, counted from 0. *)
Record Net (Body : Type) : Type := mkNet {
  robots : robots_outcome;
  attempts : nat -> get_outcome Body;
}.
Arguments mkNet {Body} _ _.
Arguments robots {Body} _.
Arguments attempts {Body} _ _.

(** [BaseScraper.__init__] *)
Definition init (class_name : string) (cfg : ScrapingConfig) : BaseScraper :=
  mkBaseScraper cfg 0 0 [LogInitialized class_name cfg].

(** [BaseScraper.check_robots_txt] *)
Definition check_robots_txt {Body} (net : Net Body) (self : BaseScraper) (base_url : string)
  : bool * BaseScraper :=
  if negb (respect_robots (config self)) then (true, self)
  else
    match robots net with
    | RobotsAllowed =>
        (true, emit (Log INFO ("Robots.txt check for " +:+ base_url +:+ ": Allowed")) self)
    | RobotsBlocked =>
        (false, emit (Log INFO ("Robots.txt check for " +:+ base_url +:+ ": Blocked")) self)
    | RobotsUnreadable e =>
        (true, emit (Log WARNING ("Could not check robots.txt for " +:+ base_url
                                  +:+ ": " +:+ e)) self)
    end.

(** [BaseScraper._wait_between_requests] *)
Definition _wait_between_requests (self : BaseScraper) : BaseScraper :=
  emit (SleepRandom (base_delay (config self)) (max_delay (config self))) self.

(** [response.raise_for_status()]: an [HTTPError], which is a
    [RequestException], for the 4xx and 5xx codes. *)
Definition raise_for_status {Body} (r : Response Body) : result () :=
  if (400 <=? status_code r) && (status_code r <? 600)
  then Raise (Py.str_Z (status_code r) +:+ " Error")
  else Ok ().

(** The [except requests.exceptions.RequestException] clause of
    [make_request]. *)
Definition on_request_exception (self : BaseScraper) (url : string) (attempt : nat)
    (e : string) : BaseScraper :=
  let cfg := config self in
  let self := mkBaseScraper cfg (request_count self) (failed_requests self + 1)
                            (trace self) in
  let self :=
    emit (Log WARNING ("Request failed (attempt " +:+ Py.str_nat (attempt + 1) +:+ "/"
                       +:+ Py.str_nat (max_retries cfg) +:+ "): " +:+ e)) self in
  if (attempt <? max_retries cfg - 1)%nat then
    let wait_time := (inject_Z (2 ^ Z.of_nat attempt) * base_delay cfg)%Q in
    emit (Sleep wait_time) (emit (LogRetrying wait_time) self)
  else
    emit (Log ERROR ("Failed to fetch " +:+ url +:+ " after "
                     +:+ Py.str_nat (max_retries cfg) +:+ " attempts")) self.

(** The loop [for attempt in range(self.config.max_retries)] of
    [make_request], from [attempt] on with [remaining] iterations to go. *)
Fixpoint request_loop {Body} (net : Net Body) (url : string) (remaining attempt : nat)
    (self : BaseScraper) : option (Response Body) * BaseScraper :=
  match remaining with
  | O => (None, self)
  | S remaining' =>
      let self :=
        if (0 <? request_count self)%nat then _wait_between_requests self else self in
      match attempts net attempt with
      | GetRaises e =>
          request_loop net url remaining' (S attempt)
                       (on_request_exception self url attempt e)
      | GetReturns response =>
          let self := mkBaseScraper (config self) (request_count self + 1)
                                    (failed_requests self) (trace self) in
          match raise_for_status response with
          | Ok _ => (Some response, self)
          | Raise e =>
              request_loop net url remaining' (S attempt)
                           (on_request_exception self url attempt e)
          end
      end
  end.

(** [BaseScraper.make_request] *)
Definition make_request {Body} (net : Net Body) (self : BaseScraper) (url : string)
  : option (Response Body) * BaseScraper :=
  match check_robots_txt net self url with
  | (false, self) =>
      (None, emit (Log ERROR ("Robots.txt disallows scraping " +:+ url)) self)
  | (true, self) =>
      request_loop net url (max_retries (config self)) 0 self
  end.

(** An attempt fails when [session.get] raises or the status is an error:
    the two ways into the [except] clause. *)
Definition attempt_fails {Body} (o : get_outcome Body) : bool :=
  match o with
  | GetRaises _ => true
  | GetReturns r => negb (is_ok (raise_for_status r))
  end.

(** [BaseScraper.__exit__] *)
Definition exit (self : BaseScraper) : BaseScraper :=
  emit (LogFinalStats (request_count self) (failed_requests self)) self.

(** The text of the log records of a level, in order. *)
Definition messages (lv : level) (self : BaseScraper) : list string :=
  omap (fun ev => match ev with
                  | Log lv' msg =>
                      if bool_decide (lv' = lv) then Some msg else None
                  | _ => None
                  end) (trace self).

(** [BaseScraper.get_request_stats]; the two counts are whole numbers, the
    rate is their quotient. *)
Definition get_request_stats (self : BaseScraper) : gmap string Q :=
  {[ "total_requests" := inject_Z (Z.of_nat (request_count self));
     "failed_requests" := inject_Z (Z.of_nat (failed_requests self));
     "success_rate" :=
       (inject_Z (Z.of_nat (request_count self) - Z.of_nat (failed_requests self))
        / inject_Z (Z.of_nat (Nat.max 1 (request_count self))))%Q ]}.

(** The back-off pauses of a trace, in order: the [time.sleep(wait_time)] of
    the [except] clause, not the random pauses between requests. *)
Definition sleeps (t : list event) : list Q :=
  omap (fun ev => match ev with Sleep seconds => Some seconds | _ => None end) t.

(** The pause before the retry that follows attempt [attempt]. *)
Definition backoff (cfg : ScrapingConfig) (attempt : nat) : Q :=
  (inject_Z (2 ^ Z.of_nat attempt) * base_delay cfg)%Q.

End Base.

(** ** src/scrapers/tab_scraper.py *)

Module Tab.
Import Pl.

(** What [BeautifulSoup] finds: for a horse and for a race card the text of
    each [span] looked for, if it is there; for the page its race cards and
    the CSS classes of its first [div]s. *)
Record HorseElement : Type := mkHorseElement {
  horse_name : option string;
  jockey_name : option string;
  barrier : option string;
  odds : option string;
}.

Record RaceCard : Type := mkRaceCard {
  race_time_element : option string;
  race_number_element : option string;
  track_element : option string;
  distance_element : option string;
  horse_elements : list HorseElement;
}.

Record Page : Type := mkPage {
  race_cards : list RaceCard;
  css_classes : list string;
}.

(** [x.text.strip() if x else 'Unknown'] *)
Definition text_or_unknown (x : option string) : string :=
  match x with
  | Some text => Py.strip text
  | None => "Unknown"
  end.

(** The configuration [TABScraper.__init__] builds; [max_retries] keeps
    its default. *)
Definition config : Base.ScrapingConfig :=
  Base.mkScrapingConfig 2 5 30 (Base.max_retries Base.default_config) true
    "Mozilla/5.0 (compatible; HorseRacing-Student-Project/1.0)".

Definition base_url : string := "https://www.tab.co.nz".

(** [TABScraper.__init__] *)
Definition init : Base.BaseScraper := Base.init "TABScraper" config.

(** [TABScraper._parse_horses_in_race]; the list of dicts is a nested value,
    kept as its rendering. *)
Definition _parse_horses_in_race (card : RaceCard) : value :=
  VObj ("[" +:+ Py.join ", "
          (map (fun h =>
                  "{'name': " +:+ Py.repr_str (text_or_unknown (horse_name h))
                  +:+ ", 'jockey': " +:+ Py.repr_str (text_or_unknown (jockey_name h))
                  +:+ ", 'barrier': " +:+ Py.repr_str (text_or_unknown (barrier h))
                  +:+ ", 'odds': " +:+ Py.repr_str (text_or_unknown (odds h)) +:+ "}")
               (horse_elements card)) +:+ "]").

(** [TABScraper._parse_race_card]; [race_date] is [race_date.isoformat()] and
    [now] is [datetime.now().isoformat()]. *)
Definition _parse_race_card (card : RaceCard) (race_date now : string) : RawRecord :=
  [ ("date", VStr race_date);
    ("race_time", VStr (text_or_unknown (race_time_element card)));
    ("race_number", VStr (text_or_unknown (race_number_element card)));
    ("track", VStr (text_or_unknown (track_element card)));
    ("distance", VStr (text_or_unknown (distance_element card)));
    ("horses", _parse_horses_in_race card);
    ("source", VStr "tab_nz");
    ("scraped_at", VStr now) ].

(** [TABScraper.scrape_daily_races] *)
Definition scrape_daily_races (net : Base.Net Page) (self : Base.BaseScraper)
    (target_date now : string) : list RawRecord * Base.BaseScraper :=
  let url := base_url +:+ "/racing/today" in
  let self := Base.emit (Base.Log Base.INFO
                ("Scraping TAB races for " +:+ target_date +:+ " from " +:+ url)) self in
  match Base.make_request net self url with
  | (None, self) =>
      ([], Base.emit (Base.Log Base.ERROR "Failed to fetch TAB racing page") self)
  | (Some response, self) =>
      match race_cards (Base.body response) with
      | [] =>
          let self := Base.emit (Base.Log Base.WARNING
                        "No race cards found - check your CSS selectors!") self in
          let self := Base.emit (Base.Log Base.INFO "Available CSS classes in HTML:") self in
          let self := Base.emit (Base.Log Base.INFO
                        ("Sample CSS classes found: "
                         +:+ Py.repr_list (take 10 (css_classes (Base.body response))))) self in
          ([], self)
      | cards =>
          let races_data := map (fun card => _parse_race_card card target_date now) cards in
          (races_data,
           Base.emit (Base.Log Base.INFO
             ("Successfully scraped " +:+ Py.str_nat (length races_data)
              +:+ " races from TAB")) self)
      end
  end.

End Tab.

(** ** src/flows/daily_scrape.py *)

Module DailyScrape.
Import Pl.

(** What [create_data_quality_metrics] returns.  The null percentages are
    kept exact, before [round(_, 2)]; the table of dtype names is left out. *)
Record Metrics : Type := mkMetrics {
  timestamp : string;
  total_records : nat;
  unique_tracks : nat;
  null_percentages : list (string * Q);
}.

(** A value of the [pipeline_stats] dict. *)
Inductive pyval : Type :=
| PStr (s : string)
| PInt (z : Z)
| PPaths (export_paths : list (string * string))
| PMetrics (quality_metrics : Metrics).

(** The surroundings of one flow run: the network, the outcome of file
    writes in each execution of the export task, the clock, today's date
    (as text and as ordinal) and the run id Prefect assigns. *)
Record World : Type := mkWorld {
  net : Base.Net Tab.Page;
  io_at : nat -> string -> option string;
  clock : nat -> string;
  today_iso : string;
  today_ordinal : Z;
  flow_run_id : string;
}.

(** The disk and the number of clock readings so far. *)
Record State : Type := mkState {
  disk : gmap string Exporters.file;
  ticks : nat;
}.

(** What a run leaves: the [pipeline_stats] dict, the exception it raised if
    any, the scraper as it was closed, and the disk. *)
Record FlowResult : Type := mkFlowResult {
  pipeline_stats : gmap string pyval;
  raised : option string;
  scraper : Base.BaseScraper;
  disk_after : gmap string Exporters.file;
}.

(** A Prefect task with [retries]: the body runs again after an exception,
    [retries] more times at most, and the last exception goes to the caller.
    Results cached from earlier runs are outside the model. *)
Fixpoint run_task {St A} (retries attempt : nat) (body : nat -> St -> result A * St)
    (s : St) : result A * St :=
  match body attempt s with
  | (Ok a, s') => (Ok a, s')
  | (Raise e, s') =>
      match retries with
      | O => (Raise e, s')
      | S retries' => run_task retries' (S attempt) body s'
      end
  end.

(** [scrape_tab_racing_data].  Nothing in [scrape_daily_races] raises here:
    [make_request] catches the request exceptions and the parser is total, so
    the retries of the task never come into play. *)
Definition scrape_tab_racing_data (W : World) (target_date now : string)
  : list RawRecord * Base.BaseScraper :=
  let '(races_data, scraper) := Tab.scrape_daily_races (net W) Tab.init target_date now in
  (races_data, Base.exit scraper).

(** [validate_racing_data]; [validate_scraped_data] catches what its checks
    raise, so this task does not raise either. *)
Definition validate_racing_data `{Kernels} (W : World) (now : string)
    (raw_data : list RawRecord) : bool :=
  Validators.is_valid (Validators.validate_scraped_data (today_ordinal W) now raw_data).

(** [transform_racing_data] *)
Definition transform_racing_data `{Kernels} (now : string) (raw_data : list RawRecord)
  : result DataFrame :=
  df ← k_DataFrame raw_data;
  Transformers.transform now df.

(** One [if 'fmt' in export_formats:] block of [export_processed_data]. *)
Definition export_if (wanted : bool) (name : string)
    (run : Exporters.Store -> result string * Exporters.Store)
    (acc : result (list (string * string)) * Exporters.Store)
  : result (list (string * string)) * Exporters.Store :=
  match acc with
  | (Raise e, s) => (Raise e, s)
  | (Ok export_paths, s) =>
      if wanted then
        match run s with
        | (Ok path, s') => (Ok (export_paths ++ [(name, path)]), s')
        | (Raise e, s') => (Raise e, s')
        end
      else (Ok export_paths, s)
  end.

(** [export_processed_data]: a fresh [DataExporter], then the formats in the
    fixed order parquet, csv, summary; the first exception leaves the
    function. *)
Definition export_processed_data `{Kernels} (E : Exporters.Env) (st : State)
    (df : DataFrame) (date_str : string) (export_formats : list string)
  : result (list (string * string)) * State :=
  let exporter := Exporters.mkStore (Exporters.init "processed_data") (disk st) (ticks st) in
  let base_filename := "racing_data_" +:+ date_str in
  let '(r, s) :=
    export_if (Py.mem "summary" export_formats) "summary"
      (fun s => Exporters.export_daily_summary_report E s df date_str)
      (export_if (Py.mem "csv" export_formats) "csv"
         (fun s => Exporters.export_csv E s df base_filename true)
         (export_if (Py.mem "parquet" export_formats) "parquet"
            (fun s => Exporters.export_parquet E s df base_filename "snappy")
            (Ok [], exporter))) in
  (r, mkState (Exporters.disk s) (Exporters.ticks s)).

(** [create_data_quality_metrics] *)
Definition create_data_quality_metrics (now : string) (df : DataFrame) : result Metrics :=
  tracks ← get_column df "track_clean";
  if bool_decide (height df = 0%nat) then Raise "division by zero"
  else
    Ok (mkMetrics now (height df) (length (distinct [] tracks))
          (map (fun nc : string * Series =>
                  (nc.1,
                   (inject_Z (Z.of_nat (length (filter (fun v => v = VNull) nc.2)))
                    / inject_Z (Z.of_nat (height df)) * 100)%Q))
               df)).

(** Steps 4 and 5 of the flow: the export task with its two retries, then
    the quality metrics. *)
Definition export_and_measure `{Kernels} (W : World) (st : State)
    (processed_df : DataFrame) (date_str : string) (export_formats : list string)
  : result (list (string * string) * Metrics) * State :=
  match run_task 2 0
          (fun attempt s =>
             export_processed_data (Exporters.mkEnv (io_at W attempt) (clock W))
                                   s processed_df date_str export_formats)
          st with
  | (Raise e, s) => (Raise e, s)
  | (Ok export_paths, s) =>
      let s' := mkState (disk s) (S (ticks s)) in
      match create_data_quality_metrics (clock W (ticks s)) processed_df with
      | Raise e => (Raise e, s')
      | Ok quality_metrics => (Ok (export_paths, quality_metrics), s')
      end
  end.

(** The end of the [try] block and its [except] clause: the success update
    of [pipeline_stats], or status 'failed' with the error, after which the
    exception is raised again. *)
Definition conclude (W : World) (pipeline_stats : gmap string pyval)
    (scraper : Base.BaseScraper) (processed_df : DataFrame)
    (r : result (list (string * string) * Metrics) * State) : FlowResult :=
  match r with
  | (Ok (export_paths, quality_metrics), s) =>
      mkFlowResult
        (<["end_time" := PStr (clock W (ticks s))]>
           (<["quality_metrics" := PMetrics quality_metrics]>
              (<["export_paths" := PPaths export_paths]>
                 (<["records_processed" := PInt (Z.of_nat (height processed_df))]>
                    (<["status" := PStr "success"]> pipeline_stats)))))
        None scraper (disk s)
  | (Raise e, s) =>
      mkFlowResult
        (<["end_time" := PStr (clock W (ticks s))]>
           (<["error" := PStr e]>
              (<["status" := PStr "failed"]> pipeline_stats)))
        (Some e) scraper (disk s)
  end.

(** The flow from step 4 on, for a run that has reached the export stage
    with [processed_df]. *)
Definition run_from_export `{Kernels} (W : World) (pipeline_stats : gmap string pyval)
    (scraper : Base.BaseScraper) (st : State) (processed_df : DataFrame)
    (date_str : string) (export_formats : list string) : FlowResult :=
  conclude W pipeline_stats scraper processed_df
    (export_and_measure W st processed_df date_str export_formats).

(** [pipeline_stats] as the flow sets it up. *)
Definition initial_stats (W : World) (date_str : string) : gmap string pyval :=
  {[ "start_time" := PStr (clock W 0);
     "target_date" := PStr date_str;
     "flow_run_id" := PStr (flow_run_id W) ]}.

(** [daily_race_scraping_flow], one execution; [disk0] is the disk the run
    starts on.  The clock is read for the start time, at scraping, at
    validation and at transformation, then by the steps that follow.  The
    flow's own [retries=1] runs the function once more after it has raised. *)
Definition daily_race_scraping_flow `{Kernels} (W : World)
    (disk0 : gmap string Exporters.file) (target_date : option string)
    (export_formats : list string) : FlowResult :=
  let target_date := default (today_iso W) target_date in
  let date_str := target_date in
  let pipeline_stats := initial_stats W date_str in
  let '(raw_data, scraper) := scrape_tab_racing_data W target_date (clock W 1) in
  match raw_data with
  | [] =>
      mkFlowResult
        (<["end_time" := PStr (clock W 2)]> (<["status" := PStr "no_data"]> pipeline_stats))
        None scraper disk0
  | _ :: _ =>
      if negb (validate_racing_data W (clock W 2) raw_data) then
        mkFlowResult
          (<["end_time" := PStr (clock W 3)]>
             (<["status" := PStr "validation_failed"]> pipeline_stats))
          None scraper disk0
      else
        match transform_racing_data (clock W 3) raw_data with
        | Raise e =>
            conclude W pipeline_stats scraper [] (Raise e, mkState disk0 4)
        | Ok processed_df =>
            run_from_export W pipeline_stats scraper (mkState disk0 4)
                            processed_df date_str export_formats
        end
  end.

(** The status a run ends with. *)
Definition status (r : FlowResult) : option pyval := pipeline_stats r !! "status".

(** The run summary of a run that ends with 'no_data'. *)
Definition no_data_summary (W : World) (date_str : string) : gmap string pyval :=
  <["end_time" := PStr (clock W 2)]>
    (<["status" := PStr "no_data"]> (initial_stats W date_str)).

(** The formats [export_processed_data] knows, in the order it goes through
    them, and those of them that a call asks for. *)
Definition known_formats : list string := ["parquet"; "csv"; "summary"].

Definition requested (export_formats : list string) : list string :=
  List.filter (fun fmt => Py.mem fmt export_formats) known_formats.


(** Whether the export of one format goes through in an environment: its
    file, or for the summary the table and its three files, can be
    written. *)
Definition writable (E : Exporters.Env) (path : string) : bool :=
  bool_decide (Exporters.io E path = None).

(** The place of a file in the export directory of the flow. *)
Definition exported_file (name : string) : string := "processed_data" +:+ "/" +:+ name.

Definition format_succeeds `{Kernels} (E : Exporters.Env) (df : DataFrame)
    (date_str : string) (fmt : string) : bool :=
  if String.eqb fmt "parquet" then
    writable E (exported_file (("racing_data_" +:+ date_str) +:+ ".parquet"))
  else if String.eqb fmt "csv" then
    writable E (exported_file (("racing_data_" +:+ date_str) +:+ ".csv"))
  else if String.eqb fmt "summary" then
    is_ok (Exporters.summary_stats df)
    && writable E (exported_file (("daily_summary_" +:+ date_str) +:+ ".parquet"))
    && writable E (exported_file (("daily_summary_" +:+ date_str) +:+ ".csv"))
    && writable E (exported_file (("daily_summary_" +:+ date_str) +:+ "_report.txt"))
  else true.

(** The path [export_paths] records for a format. *)
Definition path_of (date_str fmt : string) : string :=
  if String.eqb fmt "parquet" then
    exported_file (("racing_data_" +:+ date_str) +:+ ".parquet")
  else if String.eqb fmt "csv" then
    exported_file (("racing_data_" +:+ date_str) +:+ ".csv")
  else exported_file (("daily_summary_" +:+ date_str) +:+ ".parquet").

(** What [export_paths] holds when every requested format went through. *)
Definition requested_paths (date_str : string) (export_formats : list string)
  : list (string * string) :=
  map (fun fmt => (fmt, path_of date_str fmt)) (requested export_formats).

(** Every requested format goes through in the [k]-th execution of the
    export task. *)
Definition all_succeed `{Kernels} (W : World) (k : nat) (df : DataFrame)
    (date_str : string) (export_formats : list string) : bool :=
  forallb (format_succeeds (Exporters.mkEnv (io_at W k) (clock W)) df date_str)
          (requested export_formats).

(** The five files a run can write for a date: the two data files and the
    three files of the daily summary. *)
Definition export_files (date_str : string) : list string :=
  [ exported_file (("racing_data_" +:+ date_str) +:+ ".parquet");
    exported_file (("racing_data_" +:+ date_str) +:+ ".csv");
    exported_file (("daily_summary_" +:+ date_str) +:+ ".parquet");
    exported_file (("daily_summary_" +:+ date_str) +:+ ".csv");
    exported_file (("daily_summary_" +:+ date_str) +:+ "_report.txt") ].

(** [backfill_racing_data_flow].  Dates are ordinals and [isoformat] renders
    one; [call d disk] is what [daily_race_scraping_flow(target_date=d)] does
    as a subflow started on [disk], retries of the subflow included: it
    returns its summary or raises, and leaves a disk.  [max_parallel] is not
    used by the code.  The last date is taken to lie before [date.max], where
    the increment of [current_date] would overflow. *)
Definition subflow : Type :=
  Z -> gmap string Exporters.file
  -> result (gmap string pyval) * gmap string Exporters.file.

(** The dict appended for a date whose subflow raised. *)
Definition backfill_failure (isoformat : Z -> string) (current_date : Z) (e : string)
  : gmap string pyval :=
  {[ "target_date" := PStr (isoformat current_date);
     "status" := PStr "failed";
     "error" := PStr e ]}.

(** The loop [while current_date <= end_date], with [days] rounds to go. *)
Fixpoint backfill_loop (call : subflow) (isoformat : Z -> string) (days : nat)
    (current_date : Z) (disk : gmap string Exporters.file)
  : list (gmap string pyval) * gmap string Exporters.file :=
  match days with
  | O => ([], disk)
  | S days' =>
      let '(r, disk) := call current_date disk in
      let result :=
        match r with
        | Ok result => result
        | Raise e => backfill_failure isoformat current_date e
        end in
      let '(results, disk) := backfill_loop call isoformat days' (current_date + 1) disk in
      (result :: results, disk)
  end.

Definition backfill_racing_data_flow (call : subflow) (isoformat : Z -> string)
    (start_date end_date : Z) (disk : gmap string Exporters.file)
  : list (gmap string pyval) * gmap string Exporters.file :=
  backfill_loop call isoformat (Z.to_nat (end_date - start_date + 1)) start_date disk.

(** The daily flow as the subflow of a backfill, in one execution per date:
    [worlds d] is what the run for date [d] meets. *)
Definition daily_subflow `{Kernels} (worlds : Z -> World) (isoformat : Z -> string)
  : subflow :=
  fun current_date disk =>
    let r := daily_race_scraping_flow (worlds current_date) disk
               (Some (isoformat current_date)) ["parquet"; "csv"; "summary"] in
    (match raised r with
     | None => Ok (pipeline_stats r)
     | Some e => Raise e
     end,
     disk_after r).


End DailyScrape.

(** ** src/flows/monitoring.py, anomaly detection *)

Module Monitoring.
Import Pl.

(** Polars computes the statistics in floating point; here they are exact
    rationals.  The standard deviation [std] is the square root of the
    sample variance (one degree of freedom less, as [Expr.std] defaults to),
    so [std > 0] is [var > 0], and [count < avg - 2 * std] is
    [count < avg] together with [4 * var < (avg - count)^2]. *)
Definition Qlt_bool (a b : Q) : bool := negb (Qle_bool b a).

Definition sum (l : list Q) : Q := foldr Qplus 0%Q l.

Definition of_nat (n : nat) : Q := inject_Z (Z.of_nat n).

Definition mean (l : list Q) : Q := (sum l / of_nat (length l))%Q.

(** [None] for fewer than two values, where [std] gives null. *)
Definition variance (l : list Q) : option Q :=
  if (length l <? 2)%nat then None
  else
    let m := mean l in
    Some (sum (map (fun x => (x - m) * (x - m)) l) / of_nat (length l - 1))%Q.

(** [count < avg - 2 * std], for [std] the root of [var]. *)
Definition below_threshold (count avg var : Q) : bool :=
  Qlt_bool count avg && Qlt_bool (4 * var) ((avg - count) * (avg - count)).

(** [df.group_by('race_date').agg(pl.len())]: the dates with their number
    of rows.  Polars leaves the order of the groups open; here it is the
    order of first appearance. *)
Definition daily_counts (dates : Series) : list (value * nat) :=
  map (fun d => (d, length (filter (fun v => v = d) dates))) (distinct [] dates).

(** An entry of the [anomalies] list.  The low-volume entry carries the mean
    and the variance that determine its ['threshold'], the data-quality
    entry its percentage. *)
Inductive anomaly : Type :=
| low_volume (description : string) (avg_races var_races : Q) (affected_dates : list value)
| missing_track (description : string) (track : string)
| data_quality (percentage : Q).

Record AnomalyResult : Type := mkAnomalyResult {
  status : string;
  anomalies : list anomaly;
  error : option string;
}.

Definition expected_major_tracks : list string := ["ELLERSLIE"; "TRENTHAM"; "RICCARTON"].

(** The block "Check for unusual daily volumes". *)
Definition low_volume_check (daily_stats : list (value * nat)) : list anomaly :=
  let race_counts := map (fun dc : value * nat => of_nat dc.2) daily_stats in
  let avg_races := mean race_counts in
  match variance race_counts with
  | Some var_races =>
      if Qlt_bool 0 var_races then
        let low_volume_days :=
          filter (fun dc : value * nat =>
                    below_threshold (of_nat dc.2) avg_races var_races = true)
                 daily_stats in
        if (0 <? length low_volume_days)%nat then
          [low_volume ("Found " +:+ Py.str_nat (length low_volume_days)
                       +:+ " days with unusually low race counts")
                      avg_races var_races (map fst low_volume_days)]
        else []
      else []
  | None => []
  end.

(** One round of the loop "Check for missing expected tracks": the rows of
    the track are counted, and none gives an anomaly. *)
Definition missing_track_check `{Kernels} (df : DataFrame) (track : string)
  : result (list anomaly) :=
  appearances ← filter_height df (eq_str (col "track_clean") track);
  Ok (if (appearances =? 0)%nat
      then [missing_track ("Major track " +:+ track +:+ " not found in recent data") track]
      else []).

(** [detect_data_anomalies]; any exception ends in status 'error'. *)
Definition detect_data_anomalies `{Kernels} (df : DataFrame) : AnomalyResult :=
  if bool_decide (height df = 0%nat) then mkAnomalyResult "no_data" [] None
  else
    match
      dates ← get_column df "race_date";
      tracks ← get_column df "track_clean";
      let volume := low_volume_check (daily_counts dates) in
      missing ← mapM (missing_track_check df) expected_major_tracks;
      unknown_tracks ← filter_height df (is_in (col "track_clean")
                                               [VStr "UNKNOWN"; VStr ""; VNull]);
      let unknown_pct := (of_nat unknown_tracks / of_nat (height df) * 100)%Q in
      let quality :=
        if (0 <? unknown_tracks)%nat && Qlt_bool 5 unknown_pct
        then [data_quality unknown_pct] else [] in
      Ok (volume ++ concat missing ++ quality)
    with
    | Ok anomalies => mkAnomalyResult "success" anomalies None
    | Raise e => mkAnomalyResult "error" [] (Some e)
    end.

(** The dates flagged as low volume in a result. *)
Definition low_volume_dates (r : AnomalyResult) : list value :=
  concat (map (fun a => match a with
                        | low_volume _ _ _ dates => dates
                        | _ => []
                        end) (anomalies r)).

(** The wording of the specification for one day: its count is more than
    two standard deviations below the mean of the other days' counts. *)
Definition below_mean_of_others (count : nat) (others : list nat) : bool :=
  let qs := map of_nat others in
  match variance qs with
  | Some var => below_threshold (of_nat count) (mean qs) var
  | None => false
  end.

(** What [generate_monitoring_report] reads of the freshness result:
    [freshness_metrics.get('status')] and
    [freshness_metrics.get('metrics', {}).get('data_freshness_status')],
    each absent or a text. *)
Record FreshnessResult : Type := mkFreshnessResult {
  freshness_status : option string;
  data_freshness_status : option string;
}.

(** What [calculate_data_freshness_metrics] returns for an empty frame:
    [{'status': 'no_data', 'metrics': {}}]. *)
Definition freshness_no_data : FreshnessResult := mkFreshnessResult (Some "no_data") None.

(** The report; ['issues'] is a key only when there are issues. *)
Record MonitoringReport : Type := mkMonitoringReport {
  timestamp : string;
  overall_status : string;
  freshness : FreshnessResult;
  anomalies_checked : AnomalyResult;
  issues : option (list string);
  recommendations : list string;
}.

(** [generate_monitoring_report]; [now] is [datetime.now().isoformat()]. *)
Definition generate_monitoring_report (now : string) (freshness_metrics : FreshnessResult)
    (anomaly_results : AnomalyResult) : MonitoringReport :=
  let issues : list string :=
    (if bool_decide (freshness_status freshness_metrics = Some "error")
     then ["freshness_check_failed"]
     else if bool_decide (data_freshness_status freshness_metrics = Some "stale")
          then ["stale_data"] else [])
    ++ (if String.eqb (status anomaly_results) "error"
        then ["anomaly_detection_failed"]
        else if (0 <? length (anomalies anomaly_results))%nat
             then ["anomalies_detected"] else []) in
  let overall_status :=
    match issues with
    | [] => "healthy"
    | _ :: _ => if (length issues =? 1)%nat then "warning" else "critical"
    end in
  let recommendations : list string :=
    (if Py.mem "stale_data" issues
     then ["Data is stale - check scraping pipeline status"] else [])
    ++ (if Py.mem "anomalies_detected" issues
        then ["Anomalies detected - review data quality and source systems"] else [])
    ++ (match issues with
        | [] => ["All systems healthy - no action required"]
        | _ :: _ => []
        end) in
  mkMonitoringReport now overall_status freshness_metrics anomaly_results
    (match issues with [] => None | _ :: _ => Some issues end)
    recommendations.

(** [send_alert_notification]: whether an alert goes out. *)
Definition send_alert_notification (report : MonitoringReport) : bool :=
  negb (String.eqb (overall_status report) "healthy").


End Monitoring.

(** ** Concrete data the examples run on *)

Module Examples.
Import Pl.

(** The two samples at the end of validators.py. *)
Definition good_data : list RawRecord :=
  [[("date", VStr "2024-01-15"); ("race_time", VStr "14:30"); ("race_number", VInt 1);
    ("track", VStr "Ellerslie"); ("distance", VInt 1200); ("source", VStr "tab_nz");
    ("scraped_at", VStr "2024-01-15T09:00:00")]].

Definition bad_data : list RawRecord :=
  [[("date", VNull); ("race_number", VInt (-1)); ("track", VStr "");
    ("source", VStr "unknown")]].

(** Two records, the second without ['race_number']. *)
Definition one_without_race_number : list RawRecord :=
  [[("date", VStr "2024-01-15"); ("race_number", VInt 1); ("track", VStr "Ellerslie");
    ("source", VStr "tab_nz")];
   [("date", VStr "2024-01-15"); ("track", VStr "Trentham"); ("source", VStr "tab_nz")]].

(** A record without ['source']. *)
Definition no_source : list RawRecord :=
  [[("date", VStr "2024-01-15"); ("race_number", VInt 1); ("track", VStr "Ellerslie")]].



(** 15 January 2024 as an ordinal. *)
Definition today : Z := 738900.

Definition good_frame : DataFrame :=
  match Ref.DataFrame_of good_data with
  | Ok df => df
  | Raise _ => []
  end.

(** [good_data] after the three transformation steps. *)
Definition processed_frame : DataFrame :=
  match Transformers.transform (H := Ref.kernels) "2024-01-15T10:00:00" good_frame with
  | Ok df => df
  | Raise _ => []
  end.

Definition clock (n : nat) : string := "2024-01-15T10:00:" +:+ pretty n.

(** A network on which every request is refused, the one for robots.txt
    included. *)
Definition refused : Base.Net Tab.Page :=
  Base.mkNet (Base.RobotsUnreadable "Connection refused")
             (fun _ => Base.GetRaises "Connection refused").

(** A network that answers with a page without race cards. *)
Definition empty_page : Base.Net Tab.Page :=
  Base.mkNet Base.RobotsAllowed
    (fun _ => Base.GetReturns (Base.mkResponse 200 (Tab.mkPage [] []))).

Definition world (net : Base.Net Tab.Page) (io_at : nat -> string -> option string)
  : DailyScrape.World :=
  DailyScrape.mkWorld net io_at clock "2024-01-15" today "run-1".

(** A disk on which every write goes through, and one that is full for the
    CSV file of the day. *)
Definition io_fine : nat -> string -> option string := fun _ _ => None.

Definition io_csv_fails : nat -> string -> option string :=
  fun _ path =>
    if String.eqb path "processed_data/racing_data_2024-01-15.csv"
    then Some "No space left on device" else None.

(** A week of rows, a count per day; day 5 has 9 rows, the others 10 or 11. *)
Definition rows_of (days : list (nat * nat)) : DataFrame :=
  let dates :=
    concat (map (fun dc : nat * nat => replicate dc.2 (VDate (today + Z.of_nat dc.1))) days) in
  [("race_date", dates); ("track_clean", replicate (length dates) (VStr "ELLERSLIE"))].

Definition week : DataFrame :=
  rows_of [(1, 10); (2, 10); (3, 10); (4, 10); (5, 9); (6, 10); (7, 11)]%nat.

(** A week in which day 5 has 2 rows and every other day 10. *)
Definition week_with_drop : DataFrame :=
  rows_of [(1, 10); (2, 10); (3, 10); (4, 10); (5, 2); (6, 10); (7, 10)]%nat.

Definition store0 : Exporters.Store :=
  Exporters.mkStore (Exporters.init "processed_data") ∅ 0.

Definition env_fine : Exporters.Env := Exporters.mkEnv (fun _ => None) clock.

(** A race card with every field, and one that only names its track. *)
Definition full_card : Tab.RaceCard :=
  Tab.mkRaceCard (Some "14:30") (Some " 3 ") (Some "Ellerslie") (Some "1200m")
    [Tab.mkHorseElement (Some "Fast Horse") (Some "J. Smith") (Some "4") None].

Definition bare_card : Tab.RaceCard :=
  Tab.mkRaceCard None None (Some "Trentham") None [].

Definition racing_page : Tab.Page := Tab.mkPage [full_card; bare_card] ["race-card"].

(** A server that is unavailable at the first attempt and answers the
    second. *)
Definition flaky : Base.Net Tab.Page :=
  Base.mkNet Base.RobotsAllowed
    (fun attempt =>
       match attempt with
       | O => Base.GetReturns (Base.mkResponse 503 (Tab.mkPage [] []))
       | _ => Base.GetReturns (Base.mkResponse 200 racing_page)
       end).

(** A site whose robots.txt disallows the scraper, and one that always
    answers 503. *)
Definition blocked : Base.Net Tab.Page :=
  Base.mkNet Base.RobotsBlocked
    (fun _ => Base.GetReturns (Base.mkResponse 200 racing_page)).

Definition unavailable : Base.Net Tab.Page :=
  Base.mkNet Base.RobotsAllowed
    (fun _ => Base.GetReturns (Base.mkResponse 503 (Tab.mkPage [] []))).


(** [isoformat] on the days of January 2024. *)
Definition january (d : Z) : string :=
  "2024-01-" +:+ (if (d - 738885 <? 10)%Z then "0" else "") +:+ pretty (d - 738885)%Z.


End Examples.

(** * Properties *)

(** ** Exceptions *)

Section ResultFacts.

Lemma bind_Ok_inv {A B} (r : result A) (k : A -> result B) b :
  r ≫= k = Ok b -> exists a, r = Ok a /\ k a = Ok b.
Proof. destruct r as [a|e]; simpl; [|done]. intros H. by exists a. Qed.

Lemma mapM_cons_inv {A B} (f : A -> result B) a l bs :
  mapM f (a :: l) = Ok bs ->
  exists b bs', f a = Ok b /\ mapM f l = Ok bs' /\ bs = b :: bs'.
Proof.
  simpl. intros (b & Hb & (bs' & Hbs & [= <-])%bind_Ok_inv)%bind_Ok_inv.
  by exists b, bs'.
Qed.

(** A function that never raises maps over a whole list. *)
Lemma mapM_total {A B} (f : A -> result B) (g : A -> B) l :
  (forall a, f a = Ok (g a)) -> mapM f l = Ok (map g l).
Proof.
  intros Hf. induction l as [|a l IH]; simpl; [done|]. by rewrite Hf, IH.
Qed.

End ResultFacts.

(** ** Strings *)

Section StringFacts.










End StringFacts.

(** ** The time parser *)

Section TimeParser.
Import Transformers.

(** Text without a colon parses to 0, the empty string included. *)
Lemma parse_race_time_no_colon s :
  Py.contains_char ":"%char s = false -> _parse_race_time s = 0.
Proof. intros H. unfold _parse_race_time. by rewrite H. Qed.

Example parse_race_time_empty : _parse_race_time "" = 0.
Proof. reflexivity. Qed.

Example parse_race_time_words : _parse_race_time "Unknown" = 0.
Proof. reflexivity. Qed.

Example parse_race_time_two_colons : _parse_race_time "14:30:00" = 0.
Proof. reflexivity. Qed.

Example parse_race_time_afternoon : _parse_race_time "14:30" = 870.
Proof. reflexivity. Qed.

(** [int] reads around blanks and line ends but not around the separator
    characters that [str.strip] removes: a field that starts with one is not
    a number, and the time is 0. *)
Example int_rejects_separators :
  Py.int " 12 " = Ok 12
  /\ is_ok (Py.int (String (ascii_of_nat 28) "12")) = false
  /\ Py.strip (String (ascii_of_nat 28) "12") = "12"
  /\ _parse_race_time ("12:" +:+ String (ascii_of_nat 28) "30") = 0.
Proof. repeat split; reflexivity. Qed.

(** A number of more than 4300 digits is not converted. *)
Example int_digit_limit :
  let digits (n : nat) := String.concat "" (replicate n "1") in
  is_ok (Py.int (digits 4300%nat)) = true /\ is_ok (Py.int (digits 4301%nat)) = false.
Proof. split; by vm_compute. Qed.

(** Without a minus sign in the string the result is a number of minutes
    that is not negative. *)
Lemma digit_val_nonneg c d : Py.digit_val c = Some d -> 0 <= d.
Proof. unfold Py.digit_val. destruct (_ && _); [|done]. intros [= <-]. lia. Qed.

Lemma scan_digits_nonneg (n : nat) :
  forall s acc, (String.length s <= n)%nat -> 0 <= acc -> 0 <= (Py.scan_digits acc s).1.
Proof.
  induction n as [|n IH]; intros [|c r] acc Hlen Hacc; simpl in *; try done; [lia|].
  destruct (Py.digit_val c) as [d|] eqn:Hd.
  - apply IH; [lia|]. apply digit_val_nonneg in Hd. lia.
  - destruct (Ascii.eqb c "_"); [|done].
    destruct r as [|c' r']; [done|].
    destruct (Py.digit_val c') as [d|] eqn:Hd'; [|done].
    destruct n; [simpl in Hlen; lia|].
    apply IH; [simpl in *; lia|]. apply digit_val_nonneg in Hd'. lia.
Qed.

Lemma contains_char_skip_space c s :
  Py.contains_char c (Py.skip_int_space s) = true -> Py.contains_char c s = true.
Proof.
  induction s as [|c' r IH]; simpl; [done|].
  destruct (Py.is_int_space c'); [|done].
  intros H. rewrite (IH H). apply orb_true_r.
Qed.

Lemma int_nonneg s z :
  Py.contains_char "-" s = false -> Py.int s = Ok z -> 0 <= z.
Proof.
  intros Hminus. unfold Py.int.
  destruct (Py.read_sign (Py.skip_int_space s)) as [sign body] eqn:Hsign.
  assert (sign = 1) as ->.
  { unfold Py.read_sign in Hsign.
    destruct (Py.skip_int_space s) as [|c r] eqn:Hskip; [by injection Hsign as <-|].
    destruct (Ascii.eqb c "-") eqn:Hc.
    - apply Ascii.eqb_eq in Hc as ->.
      pose proof (contains_char_skip_space "-" s) as H. rewrite Hskip in H.
      simpl in H. rewrite H in Hminus; done.
    - destruct (Ascii.eqb c "+"); by injection Hsign as <-. }
  destruct body as [|c r]; [done|].
  destruct (Py.digit_val c) as [d|] eqn:Hd; [|done].
  pose proof (scan_digits_nonneg (String.length r) r d ltac:(lia)
                (digit_val_nonneg _ _ Hd)) as Hn.
  destruct (Py.scan_digits d r) as [n rest]. simpl in Hn.
  destruct (Py.skip_int_space rest); [|done].
  destruct (_ <? _)%nat; [done|]. intros [= <-]. lia.
Qed.

Lemma contains_char_split sep x s p :
  p ∈ Py.split sep s -> Py.contains_char x p = true -> Py.contains_char x s = true.
Proof.
  revert p. induction s as [|c r IH]; intros p; simpl.
  - intros ->%list_elem_of_singleton. done.
  - destruct (Ascii.eqb sep c).
    + intros [->|Hp]%elem_of_cons; [done|].
      intros H. rewrite (IH p Hp H). apply orb_true_r.
    + destruct (Py.split sep r) as [|q qs].
      { intros ->%list_elem_of_singleton. simpl. by intros [->|?]%orb_true_iff. }
      intros [->|Hp]%elem_of_cons; simpl.
      * intros [->|H]%orb_true_iff; [done|].
        rewrite (IH q (list_elem_of_here _ _) H). apply orb_true_r.
      * intros H. rewrite (IH p (list_elem_of_further _ _ _ Hp) H). apply orb_true_r.
Qed.

Lemma parse_race_time_nonneg s :
  Py.contains_char "-" s = false -> 0 <= _parse_race_time s.
Proof.
  intros Hminus. unfold _parse_race_time.
  destruct (Py.contains_char ":" s); [|done].
  destruct (Py.split ":" s) as [|hours [|minutes [|? ?]]] eqn:Hsplit; simpl; try done.
  assert (forall p, p ∈ [hours; minutes] -> Py.contains_char "-" p = false) as Hparts.
  { intros p Hp. destruct (Py.contains_char "-" p) eqn:Hc; [|done].
    rewrite <- Hsplit in Hp. by rewrite (contains_char_split _ _ _ _ Hp Hc) in Hminus. }
  destruct (Py.int hours) as [h|] eqn:Hh; simpl; [|done].
  destruct (Py.int minutes) as [m|] eqn:Hm; simpl; [|done].
  apply int_nonneg in Hh, Hm.
  - lia.
  - apply Hparts. apply list_elem_of_further, list_elem_of_here.
  - apply Hparts. apply list_elem_of_here.
Qed.

(** C3.  The parser returns for every string, but not always a number of
    minutes since midnight: [int] accepts a sign, so a time string with a
    minus sign in front of its hours parses to a negative number instead of
    the 0 that malformed input is meant to give.  Short of that the
    description holds: without a minus sign the result is not negative, and
    without a colon it is 0. *)
Theorem parse_race_time_minus_sign :
  _parse_race_time "-1:30" = -30
  /\ (forall s, Py.contains_char "-" s = false -> 0 <= _parse_race_time s)
  /\ (forall s, Py.contains_char ":" s = false -> _parse_race_time s = 0).
Proof.
  split; [reflexivity|]. split.
  - apply parse_race_time_nonneg.
  - apply parse_race_time_no_colon.
Qed.

End TimeParser.

(** ** Validation *)

Section Validation.
Import Pl Validators.
Context `{K : Kernels}.
Variables (today : Z) (now : string).

(** On every return path [is_valid] is the test [len(errors) == 0]. *)
Lemma is_valid_spec (raw_data : list RawRecord) :
  let r := validate_scraped_data today now raw_data in
  is_valid r = bool_decide (length (errors r) = 0%nat).
Proof.
  unfold validate_scraped_data.
  destruct raw_data as [|rec raw]; [done|].
  by destruct (k_DataFrame (rec :: raw)) as [df|e].
Qed.

(** C4.  The verdict is valid exactly when its list of errors is empty,
    whatever the warnings are. *)
Theorem is_valid_iff_no_errors (raw_data : list RawRecord) :
  let r := validate_scraped_data today now raw_data in
  is_valid r = true <-> errors r = [].
Proof.
  cbn zeta. rewrite is_valid_spec, bool_decide_eq_true. apply length_zero_iff_nil.
Qed.

(** C10.  The empty batch is rejected with the one diagnostic
    "No data provided for validation" and a record count of 0. *)
Theorem empty_batch_verdict :
  let r := validate_scraped_data today now [] in
  is_valid r = false
  /\ errors r = ["No data provided for validation"]
  /\ warnings r = []
  /\ stats r !! "total_records" = Some (SInt 0).
Proof. done. Qed.



(** The score of a number of failed checks out of 16. *)
Lemma score_bounds (n : nat) :
  let q := max0 (inject_Z (16 - Z.of_nat n) / inject_Z 16) in
  (0 <= q)%Q /\ (q <= 1)%Q.
Proof.
  cbn zeta. unfold max0.
  destruct (Qle_bool _ 0) eqn:Hle.
  - split; [apply Qle_refl | by unfold Qle].
  - split.
    + apply Qnot_lt_le. intros Hlt. apply Qlt_le_weak in Hlt.
      apply Qle_bool_iff in Hlt. congruence.
    + unfold Qle, Qdiv, Qmult, Qinv, inject_Z. simpl. lia.
Qed.

(** C6, as the code has it.  A batch that is not empty and that becomes a
    frame gets the score max(0, (16 - failed) / 16), where [failed] is the
    number of errors and 16 is four checks times four; the score lies
    between 0 and 1. *)
Theorem quality_score_formula (raw_data : list RawRecord) (df : DataFrame) :
  raw_data <> [] ->
  k_DataFrame raw_data = Ok df ->
  let r := validate_scraped_data today now raw_data in
  let failed_checks := Z.of_nat (length (errors r)) in
  exists q,
    stats r !! "data_quality_score" = Some (SNum q)
    /\ q = max0 (inject_Z (16 - failed_checks) / inject_Z 16)
    /\ (0 <= q)%Q /\ (q <= 1)%Q.
Proof.
  intros Hne Hdf. unfold validate_scraped_data.
  destruct raw_data as [|rec raw]; [done|]. rewrite Hdf.
  cbn -[_check_date_validity _check_race_numbers _check_track_names
        _check_horse_data_quality filter required_fields max0 inject_Z Qdiv Z.sub].
  eexists. split; [apply lookup_insert_eq|]. split; [reflexivity|].
  apply score_bounds.
Qed.

(** Without a frame there is no score: the two early returns leave [stats]
    as it was set up. *)
Lemma no_score_without_frame (raw_data : list RawRecord) :
  raw_data = [] \/ (exists e, k_DataFrame raw_data = Raise e) ->
  stats (validate_scraped_data today now raw_data) !! "data_quality_score" = None.
Proof.
  intros [->|[e He]]; [done|]. unfold validate_scraped_data.
  destruct raw_data; [done|]. by rewrite He.
Qed.

End Validation.

Section ValidationExamples.
Import Pl Validators Examples.

Lemma first_seen_spec (l seen : list string) x :
  x ∈ Ref.first_seen seen l <-> x ∈ l /\ x ∉ seen.
Proof.
  revert seen. induction l as [|y l IH]; intros seen; simpl.
  - rewrite elem_of_nil. tauto.
  - unfold Py.mem. case_bool_decide as Hy.
    + rewrite IH, elem_of_cons. split; [tauto|].
      intros [[->|?] ?]; [done|tauto].
    + rewrite !elem_of_cons, IH, elem_of_cons.
      destruct (decide (x = y)) as [->|]; tauto.
Qed.

(** Under the reference kernels a frame has the fields of the records as its
    columns: a field is missing from the frame exactly when no record of the
    batch has it. *)
Lemma ref_columns_are_fields (raw_data : list RawRecord) (df : DataFrame) field :
  Ref.DataFrame_of raw_data = Ok df ->
  field ∈ columns df <-> exists rec, rec ∈ raw_data /\ field ∈ map fst rec.
Proof.
  unfold Ref.DataFrame_of. intros H.
  assert (columns df = Ref.first_seen [] (concat (map (map fst) raw_data))) as ->.
  { revert df H. generalize (Ref.first_seen [] (concat (map (map fst) raw_data))).
    intros names. induction names as [|n names IH]; intros df.
    - by intros [= <-].
    - intros (nc & cs & Hnc & Hcs & ->)%mapM_cons_inv. simpl.
      rewrite (IH _ Hcs). destruct (Ref.homogeneous _); [|done].
      by injection Hnc as <-. }
  rewrite first_seen_spec, list_elem_of_In, in_concat. split.
  - intros [(l & (rec & <- & Hrec)%in_map_iff & Hx) _].
    exists rec. by rewrite !list_elem_of_In.
  - intros (rec & Hrec%list_elem_of_In & Hx%list_elem_of_In).
    split; [|apply not_elem_of_nil].
    exists (map fst rec). split; [|done]. apply in_map_iff. by exists rec.
Qed.

Example good_data_valid :
  let r := validate_scraped_data (H := Ref.kernels) today "2024-01-15T10:00:00" good_data in
  is_valid r = true /\ errors r = [] /\ warnings r = []
  /\ exists q, stats r !! "data_quality_score" = Some (SNum q) /\ (q == 1)%Q.
Proof. repeat split. eexists. split; [reflexivity|]. reflexivity. Qed.

Example bad_data_invalid :
  let r := validate_scraped_data (H := Ref.kernels) today "2024-01-15T10:00:00" bad_data in
  is_valid r = false
  /\ errors r = ["1 records have null dates"; "1 records have missing track names"]
  /\ warnings r = ["1 records have unusual race numbers"].
Proof. repeat split. Qed.



(** The batch without a source: the error as it reads. *)
Example no_source_errors :
  let r := validate_scraped_data (H := Ref.kernels) today "2024-01-15T10:00:00" no_source in
  is_valid r = false /\ errors r = ["Missing required fields: ['source']"].
Proof. by vm_compute. Qed.

Lemma quality_score_formula_witness :
  let r := validate_scraped_data (H := Ref.kernels) today "2024-01-15T10:00:00" bad_data in
  exists q,
    stats r !! "data_quality_score" = Some (SNum q)
    /\ q = max0 (inject_Z (16 - Z.of_nat (length (errors r))) / inject_Z 16)
    /\ (0 <= q)%Q /\ (q <= 1)%Q.
Proof.
  eapply (quality_score_formula (K := Ref.kernels)).
  - discriminate.
  - reflexivity.
Defined.

(** C6, against the specification as it is worded for every batch: the
    verdict on the empty batch has no score at all. *)
Lemma empty_batch_has_no_score :
  stats (validate_scraped_data (H := Ref.kernels) today "2024-01-15T10:00:00" [])
    !! "data_quality_score" = None.
Proof. reflexivity. Qed.

End ValidationExamples.

(** ** Transformation *)

Section Transformation.
Import Pl Transformers.
Context `{K : Kernels}.

Lemma columns_with_column (df : DataFrame) name c x :
  x ∈ columns (with_column df name c) <-> x ∈ columns df \/ x = name.
Proof.
  induction df as [|[n c'] df IH]; simpl.
  - rewrite elem_of_cons, elem_of_nil. tauto.
  - destruct (String.eqb n name) eqn:Heq; simpl.
    + apply String.eqb_eq in Heq as ->. rewrite !elem_of_cons. tauto.
    + rewrite !elem_of_cons, IH. tauto.
Qed.

Lemma columns_put_all (cols : list (string * Series)) (df : DataFrame) x :
  x ∈ columns (foldl (fun d nc => with_column d nc.1 nc.2) df cols)
  <-> x ∈ columns df \/ x ∈ map fst cols.
Proof.
  revert df. induction cols as [|[n c] cols IH]; intros df; simpl.
  - rewrite elem_of_nil. tauto.
  - rewrite IH, columns_with_column, elem_of_cons. tauto.
Qed.

Lemma eval_named_name (df : DataFrame) ne nc :
  eval_named df ne = Ok nc -> nc.1 = ne.1.
Proof.
  unfold eval_named. intros (c & _ & H)%bind_Ok_inv.
  case_bool_decide; [|done]. by injection H as <-.
Qed.

Lemma mapM_eval_named_names (df : DataFrame) exprs cols :
  mapM (eval_named df) exprs = Ok cols -> map fst cols = map fst exprs.
Proof.
  revert cols. induction exprs as [|ne exprs IH]; intros cols.
  - by intros [= <-].
  - intros (nc & cs & Hnc & Hcs & ->)%mapM_cons_inv. simpl.
    by rewrite (eval_named_name _ _ _ Hnc), (IH _ Hcs).
Qed.

(** [with_columns] keeps every column and adds the names it is given. *)
Lemma columns_with_columns (df out : DataFrame) exprs x :
  with_columns df exprs = Ok out ->
  x ∈ columns out <-> x ∈ columns df \/ x ∈ map fst exprs.
Proof.
  unfold with_columns.
  destruct (mapM (eval_named df) exprs) as [cols|] eqn:Hcols; simpl; [|done].
  intros [= <-]. rewrite columns_put_all.
  by rewrite (mapM_eval_named_names _ _ _ Hcols).
Qed.

Lemma clean_keeps_columns (df out : DataFrame) :
  clean_scraped_data df = Ok out -> columns df ⊆ columns out.
Proof.
  intros H x Hx. apply (columns_with_columns _ _ _ x) in H. apply H. by left.
Qed.

(** The three steps together: the columns of the result are those of the
    input and the derived ones. *)
Lemma transform_columns (now : string) (df out : DataFrame) x :
  transform now df = Ok out ->
  x ∈ columns out <-> x ∈ columns df \/ x ∈ derived_columns.
Proof.
  unfold transform.
  destruct (clean_scraped_data df) as [d1|] eqn:H1; simpl; [|done].
  destruct (engineer_basic_features now d1) as [d2|] eqn:H2; simpl; [|done].
  intros H3.
  apply (columns_with_columns _ _ _ x) in H1, H2, H3.
  rewrite H3, H2, H1. unfold derived_columns. simpl.
  rewrite !elem_of_cons, !elem_of_nil. tauto.
Qed.

(** C8.  When [transform_racing_data] returns, the frame built from the raw
    records lost no column: the columns of the result are those of that
    frame together with the derived feature columns. *)
Theorem transform_keeps_columns (now : string) (raw_data : list RawRecord) (out : DataFrame) :
  DailyScrape.transform_racing_data now raw_data = Ok out ->
  exists df,
    k_DataFrame raw_data = Ok df
    /\ columns df ⊆ columns out
    /\ forall c, c ∈ columns out <-> c ∈ columns df \/ c ∈ derived_columns.
Proof.
  unfold DailyScrape.transform_racing_data.
  destruct (k_DataFrame raw_data) as [df|] eqn:Hdf; simpl; [|done].
  intros H. exists df. split; [done|]. split.
  - intros c Hc. apply (transform_columns now df out c H). by left.
  - intros c. by apply (transform_columns now).
Qed.

End Transformation.

Section TransformationExamples.
Import Pl Transformers Examples.

Example transform_good_data_columns :
  columns processed_frame
  = ["date"; "race_time"; "race_number"; "track"; "distance"; "source"; "scraped_at";
     "race_date"; "track_clean"; "race_minutes"; "day_of_week"; "month"; "race_hour";
     "track_race_count"; "scraped_timestamp"; "processed_at";
     "minutes_to_post"; "track_type"; "field_size"].
Proof. reflexivity. Qed.

Example transform_good_data_track :
  get_column processed_frame "track_clean" = Ok [VStr "ELLERSLIE"]
  /\ get_column processed_frame "race_minutes" = Ok [VInt 870]
  /\ get_column processed_frame "day_of_week" = Ok [VInt 1].
Proof. done. Qed.

Lemma transform_keeps_columns_witness :
  exists df,
    Ref.DataFrame_of good_data = Ok df
    /\ columns df ⊆ columns processed_frame
    /\ forall c, c ∈ columns processed_frame <-> c ∈ columns df \/ c ∈ derived_columns.
Proof.
  apply (transform_keeps_columns (K := Ref.kernels) "2024-01-15T10:00:00" good_data).
  reflexivity.
Defined.

End TransformationExamples.

(** ** Export statistics *)

Section ExportStatistics.
Import Pl Exporters.
Context `{K : Kernels}.
Variable E : Env.

Lemma update_stats_spec (s : Store) n fmt :
  export_stats (self (_update_stats E s n fmt)) = updated E s n fmt
  /\ disk (_update_stats E s n fmt) = disk s
  /\ output_dir (self (_update_stats E s n fmt)) = output_dir (self s).
Proof. done. Qed.



(** A call of one of the three exporters of one file either raises and
    leaves the exporter and the disk as they were, or writes its file and
    updates the statistics once. *)
Lemma export_outcome (f : format) (s : Store) (df : DataFrame) (filename : string) :
  f <> summary ->
  let path := path_in s (filename +:+ "." +:+ format_name f) in
  match export E f s df filename with
  | (Ok p, s') =>
      io E path = None /\ p = path
      /\ export_stats (self s') = updated E s (height df) (format_name f)
      /\ output_dir (self s') = output_dir (self s)
      /\ ticks s' = S (ticks s)
      /\ disk s' = <[path := file_of f df]> (disk s)
  | (Raise e, s') => io E path = Some e /\ s' = s
  end.
Proof.
  intros Hf.
  destruct f; [| | |done]; simpl;
    unfold export_parquet, export_csv, export_json_lines, write;
    (destruct (io E _) as [e|] eqn:Hio; simpl; [done|]);
    repeat split; eauto.
Qed.






(** The second write replaces the first: after two successful exports under
    one name the path holds the file of the second call, and no other path
    has changed. *)
Lemma export_overwrites (f : format) (s : Store) (df1 df2 : DataFrame) filename p1 s1 p2 s2 :
  f <> summary ->
  export E f s df1 filename = (Ok p1, s1) ->
  export E f s1 df2 filename = (Ok p2, s2) ->
  p2 = p1
  /\ disk s2 !! p2 = Some (file_of f df2)
  /\ forall q, q <> p2 -> disk s2 !! q = disk s !! q.
Proof.
  intros Hf H1 H2.
  pose proof (export_outcome f s df1 filename Hf) as O1. cbn zeta in O1. rewrite H1 in O1.
  pose proof (export_outcome f s1 df2 filename Hf) as O2. cbn zeta in O2. rewrite H2 in O2.
  destruct O1 as (Hio & -> & _ & Hdir & _ & Hd1).
  destruct O2 as (_ & -> & _ & _ & _ & Hd2).
  unfold path_in in *. rewrite Hdir in *.
  split; [done|]. split.
  - by rewrite Hd2, lookup_insert_eq.
  - intros q Hq. rewrite Hd2, Hd1. by rewrite !lookup_insert_ne.
Qed.

(** The daily summary is a Parquet export and a CSV export of one table: it
    counts as two exports, both under their own format names. *)
Lemma summary_report_counts_twice (s : Store) (df : DataFrame) date_str path s' :
  export_daily_summary_report E s df date_str = (Ok path, s') ->
  exists summary,
    summary_stats df = Ok summary
    /\ total_exports (export_stats (self s')) = (total_exports (export_stats (self s)) + 2)%nat
    /\ total_records (export_stats (self s'))
       = (total_records (export_stats (self s)) + 2 * height summary)%nat
    /\ formats_used (export_stats (self s'))
       = {["csv"]} ∪ ({["parquet"]} ∪ formats_used (export_stats (self s))).
Proof.
  unfold export_daily_summary_report.
  destruct (summary_stats df) as [summary|]; [|done].
  unfold export_parquet, export_csv, write, path_in. simpl.
  destruct (io E _); [done|]. simpl.
  destruct (io E _); [done|]. simpl.
  destruct (io E _); [done|]. simpl.
  intros [= <- <-]. exists summary. simpl. repeat split; try lia.
Qed.



End ExportStatistics.

Section ExportExamples.
Import Pl Exporters Examples.

Example export_twice :
  let r1 := export (H := Ref.kernels) env_fine parquet store0 processed_frame
              "racing_data_2024-01-15" in
  let r2 := export (H := Ref.kernels) env_fine parquet r1.2 processed_frame
              "racing_data_2024-01-15" in
  r1.1 = Ok "processed_data/racing_data_2024-01-15.parquet"
  /\ r2.1 = r1.1
  /\ total_exports (export_stats (self r2.2)) = 2%nat
  /\ total_records (export_stats (self r2.2)) = 2%nat
  /\ last_export (export_stats (self r2.2)) = Some "2024-01-15T10:00:1"
  /\ size (disk r2.2) = 1%nat.
Proof. vm_compute. done. Qed.



End ExportExamples.

(** ** Fetching *)

Section Fetch.
Import Base.
Context {Body : Type}.
Variables (net : Net Body) (url : string).

Lemma on_request_exception_spec (self : BaseScraper) attempt e :
  let self' := on_request_exception self url attempt e in
  config self' = config self
  /\ failed_requests self' = (failed_requests self + 1)%nat
  /\ request_count self' = request_count self
  /\ ((max_retries (config self) - 1 <= attempt)%nat ->
      exists t, trace self'
                = t ++ [Log ERROR ("Failed to fetch " +:+ url +:+ " after "
                                   +:+ Py.str_nat (max_retries (config self))
                                   +:+ " attempts")]).
Proof.
  unfold on_request_exception. cbn zeta.
  destruct (attempt <? max_retries (config self) - 1)%nat eqn:Hlt; simpl;
    repeat split; try done.
  - apply Nat.ltb_lt in Hlt. lia.
  - intros _. eauto.
Qed.

(** When every attempt that is left fails, the loop runs to its end: no
    response, one more failed request per attempt, and the last thing in the
    trace is the error record "Failed to fetch ... after N attempts". *)
Lemma request_loop_all_fail (remaining : nat) :
  forall (attempt : nat) (self : BaseScraper),
    (forall k, (attempt <= k < attempt + remaining)%nat ->
               attempt_fails (attempts net k) = true) ->
    (attempt + remaining)%nat = max_retries (config self) ->
    (0 < remaining)%nat ->
    exists self' t,
      request_loop net url remaining attempt self = (None, self')
      /\ config self' = config self
      /\ failed_requests self' = (failed_requests self + remaining)%nat
      /\ trace self'
         = t ++ [Log ERROR ("Failed to fetch " +:+ url +:+ " after "
                            +:+ Py.str_nat (max_retries (config self)) +:+ " attempts")].
Proof.
  induction remaining as [|remaining IH]; intros attempt self Hfail Hmax Hpos; [lia|].
  simpl.
  set (self1 := if (0 <? request_count self)%nat then _ else _).
  assert (config self1 = config self /\ failed_requests self1 = failed_requests self)
    as [Hc1 Hf1] by (subst self1; by destruct (0 <? _)%nat).
  assert (exists e self2,
             match attempts net attempt with
             | GetRaises e => request_loop net url remaining (S attempt)
                                (on_request_exception self1 url attempt e)
             | GetReturns response =>
                 match raise_for_status response with
                 | Ok _ =>
                     (Some response,
                      mkBaseScraper (config self1) (request_count self1 + 1)
                                    (failed_requests self1) (trace self1))
                 | Raise e =>
                     request_loop net url remaining (S attempt)
                       (on_request_exception
                          (mkBaseScraper (config self1) (request_count self1 + 1)
                                         (failed_requests self1) (trace self1))
                          url attempt e)
                 end
             end = request_loop net url remaining (S attempt)
                     (on_request_exception self2 url attempt e)
             /\ config self2 = config self
             /\ failed_requests self2 = failed_requests self) as (e & self2 & -> & Hc2 & Hf2).
  { pose proof (Hfail attempt ltac:(lia)) as Hk.
    destruct (attempts net attempt) as [e|response]; simpl in Hk.
    - by exists e, self1.
    - destruct (raise_for_status response) as [|e]; [done|].
      eexists e, _. split; [reflexivity|]. by simpl. }
  destruct (on_request_exception_spec self2 attempt e) as (Hc3 & Hf3 & _ & Hlast).
  destruct remaining as [|remaining].
  - destruct Hlast as [t Ht]; [rewrite Hc2; lia|].
    simpl. exists (on_request_exception self2 url attempt e), t.
    split; [done|]. split; [congruence|]. split; [lia|].
    by rewrite Ht, Hc2.
  - destruct (IH (S attempt) (on_request_exception self2 url attempt e))
      as (self' & t & Hloop & Hc & Hf & Ht).
    + intros k Hk. apply Hfail. lia.
    + rewrite Hc3, Hc2. lia.
    + lia.
    + exists self', t. split; [done|]. split; [congruence|]. split; [lia|].
      rewrite Ht, Hc3, Hc2. reflexivity.
Qed.

(** [make_request] when robots.txt does not block and every attempt fails:
    it returns [None], the counter of failed requests has gone up by
    [max_retries], and the error record is the last in the trace. *)
Lemma make_request_all_fail (self : BaseScraper) :
  robots net <> RobotsBlocked ->
  (0 < max_retries (config self))%nat ->
  (forall k, (k < max_retries (config self))%nat -> attempt_fails (attempts net k) = true) ->
  exists self' t,
    make_request net self url = (None, self')
    /\ config self' = config self
    /\ failed_requests self' = (failed_requests self + max_retries (config self))%nat
    /\ trace self'
       = t ++ [Log ERROR ("Failed to fetch " +:+ url +:+ " after "
                          +:+ Py.str_nat (max_retries (config self)) +:+ " attempts")].
Proof.
  intros Hrobots Hpos Hfail. unfold make_request.
  assert (exists self1, check_robots_txt net self url = (true, self1)
                        /\ config self1 = config self
                        /\ failed_requests self1 = failed_requests self)
    as (self1 & -> & Hc & Hf).
  { unfold check_robots_txt.
    destruct (respect_robots (config self)); simpl; [|by eexists].
    destruct (robots net); [by eexists|done|by eexists]. }
  destruct (request_loop_all_fail (max_retries (config self1)) 0 self1)
    as (self' & t & Hloop & Hc' & Hf' & Ht).
  - intros k Hk. apply Hfail. rewrite <- Hc. lia.
  - done.
  - by rewrite Hc.
  - exists self', t. rewrite Hloop. split; [done|]. split; [congruence|].
    split; [rewrite Hf', Hf, Hc; done|]. by rewrite Ht, Hc.
Qed.

Lemma messages_emit (self : BaseScraper) ev lv msg :
  msg ∈ messages lv self -> msg ∈ messages lv (emit ev self).
Proof.
  unfold messages, emit. simpl. rewrite omap_app, elem_of_app. by left.
Qed.

Lemma messages_last (self : BaseScraper) t lv msg :
  trace self = t ++ [Log lv msg] -> msg ∈ messages lv self.
Proof.
  unfold messages. intros ->. rewrite omap_app, elem_of_app. right.
  simpl. rewrite bool_decide_eq_true_2 by done. apply list_elem_of_here.
Qed.

End Fetch.

(** ** The flow when the source cannot be fetched *)

Section FlowFetch.
Import Pl Base DailyScrape.
Context `{K : Kernels}.
Variables (disk0 : gmap string Exporters.file) (target_date : option string)
          (export_formats : list string).

(** A page without race cards: the run ends as 'no_data' with no failed
    request. *)
Lemma no_cards_ends_as_no_data (W : World) response :
  robots (net W) <> RobotsBlocked ->
  attempts (net W) 0 = GetReturns response ->
  raise_for_status response = Ok () ->
  Tab.race_cards (body response) = [] ->
  let r := daily_race_scraping_flow W disk0 target_date export_formats in
  pipeline_stats r = no_data_summary W (default (today_iso W) target_date)
  /\ raised r = None
  /\ failed_requests (scraper r) = 0%nat.
Proof.
  intros Hrobots Hget Hstatus Hcards.
  unfold daily_race_scraping_flow, scrape_tab_racing_data, Tab.scrape_daily_races,
    make_request, check_robots_txt.
  simpl. destruct (robots (net W)); [|done|];
    simpl; rewrite Hget; rewrite Hstatus; rewrite Hcards; done.
Qed.

(** C1, as the code has it.  When the request for the racing page fails on
    each of the three attempts, [make_request] counts three failed requests
    and logs "Failed to fetch ... after 3 attempts", and the run ends with
    status 'no_data' and without an exception: its summary is the one of a
    run whose page had no race cards. *)
Theorem fetch_failure_ends_as_no_data (W : World) :
  robots (net W) <> RobotsBlocked ->
  (forall k, (k < 3)%nat -> attempt_fails (attempts (net W) k) = true) ->
  let r := daily_race_scraping_flow W disk0 target_date export_formats in
  status r = Some (PStr "no_data")
  /\ raised r = None
  /\ pipeline_stats r = no_data_summary W (default (today_iso W) target_date)
  /\ failed_requests (scraper r) = 3%nat
  /\ (exists msg, msg ∈ messages ERROR (scraper r)
                  /\ msg = "Failed to fetch https://www.tab.co.nz/racing/today after 3 attempts"
                  /\ Py.contains "after 3 attempts" msg = true)
  /\ (forall W' response,
        clock W' = clock W -> flow_run_id W' = flow_run_id W ->
        today_iso W' = today_iso W ->
        robots (net W') <> RobotsBlocked ->
        attempts (net W') 0 = GetReturns response ->
        raise_for_status response = Ok () ->
        Tab.race_cards (body response) = [] ->
        pipeline_stats (daily_race_scraping_flow W' disk0 target_date export_formats)
        = pipeline_stats r).
Proof.
  intros Hrobots Hfail r.
  set (url := Tab.base_url +:+ "/racing/today").
  set (date_str := default (today_iso W) target_date).
  set (self0 := emit (Log INFO ("Scraping TAB races for " +:+ date_str +:+ " from " +:+ url))
                     Tab.init).
  destruct (make_request_all_fail (net W) url self0 Hrobots ltac:(simpl; lia) Hfail)
    as (self' & t & Hmr & Hc & Hf & Ht).
  assert (pipeline_stats r = no_data_summary W date_str
          /\ raised r = None
          /\ scraper r = exit (emit (Log ERROR "Failed to fetch TAB racing page") self'))
    as (Hstats & Hraised & Hscraper).
  { subst r. unfold daily_race_scraping_flow, scrape_tab_racing_data, Tab.scrape_daily_races.
    fold date_str url self0. rewrite Hmr. done. }
  split; [unfold status; by rewrite Hstats|].
  split; [done|]. split; [done|].
  split; [rewrite Hscraper; simpl; by rewrite Hf|].
  split.
  - eexists. split; [|split; [reflexivity|reflexivity]].
    rewrite Hscraper. unfold exit. do 2 apply messages_emit.
    by apply (messages_last _ t).
  - intros W' response Hclock Hid Htoday Hrobots' Hget Hstatus Hcards.
    destruct (no_cards_ends_as_no_data W' response Hrobots' Hget Hstatus Hcards)
      as (-> & _).
    rewrite Hstats. unfold no_data_summary, initial_stats, date_str.
    by rewrite Hclock, Hid, Htoday.
Qed.

End FlowFetch.

Section FlowFetchExamples.
Import Pl Base DailyScrape Examples.

(** C1, against the specification: with every request refused the run does not end
    with status 'failed'; it ends as 'no_data' and returns normally, although
    three requests failed. *)
Lemma fetch_failure_is_not_failed :
  let W := world refused io_fine in
  let r := daily_race_scraping_flow (H := Ref.kernels) W ∅ None
             ["parquet"; "csv"; "summary"] in
  (forall k, attempt_fails (attempts (net W) k) = true)
  /\ failed_requests (scraper r) = 3%nat
  /\ status r = Some (PStr "no_data")
  /\ status r <> Some (PStr "failed")
  /\ raised r = None.
Proof. repeat split. by vm_compute. Qed.

Lemma fetch_failure_ends_as_no_data_witness :
  let W := world refused io_fine in
  let r := daily_race_scraping_flow (H := Ref.kernels) W ∅ None
             ["parquet"; "csv"; "summary"] in
  status r = Some (PStr "no_data")
  /\ raised r = None
  /\ pipeline_stats r = no_data_summary W (default (today_iso W) None)
  /\ failed_requests (scraper r) = 3%nat
  /\ (exists msg, msg ∈ messages ERROR (scraper r)
                  /\ msg = "Failed to fetch https://www.tab.co.nz/racing/today after 3 attempts"
                  /\ Py.contains "after 3 attempts" msg = true)
  /\ (forall W' response,
        DailyScrape.clock W' = DailyScrape.clock W -> flow_run_id W' = flow_run_id W ->
        today_iso W' = today_iso W ->
        robots (net W') <> RobotsBlocked ->
        attempts (net W') 0 = GetReturns response ->
        raise_for_status response = Ok () ->
        Tab.race_cards (body response) = [] ->
        pipeline_stats (daily_race_scraping_flow (H := Ref.kernels) W' ∅ None
                          ["parquet"; "csv"; "summary"])
        = pipeline_stats r).
Proof.
  apply (fetch_failure_ends_as_no_data (K := Ref.kernels) ∅ None
           ["parquet"; "csv"; "summary"] (world refused io_fine)).
  - discriminate.
  - reflexivity.
Defined.

(** The page without race cards, run. *)
Example empty_page_is_no_data :
  let r := daily_race_scraping_flow (H := Ref.kernels) (world empty_page io_fine) ∅ None
             ["parquet"; "csv"; "summary"] in
  status r = Some (PStr "no_data") /\ failed_requests (scraper r) = 0%nat.
Proof. by vm_compute. Qed.

End FlowFetchExamples.

(** ** The flow from the export stage on *)

Section FlowExport.
Import Pl DailyScrape.
Context `{K : Kernels}.

(** One execution of the export task returns the paths of all requested
    formats when each of them goes through, and raises otherwise: the first
    format that fails ends the function. *)
Lemma export_processed_data_outcome (E : Exporters.Env) (st : State) (df : DataFrame)
    (date_str : string) (export_formats : list string) :
  let r := export_processed_data E st df date_str export_formats in
  if forallb (format_succeeds E df date_str) (requested export_formats)
  then r.1 = Ok (requested_paths date_str export_formats)
  else exists e, r.1 = Raise e.
Proof.
  unfold export_processed_data, requested_paths, requested, known_formats, export_if,
    format_succeeds, path_of, exported_file, writable,
    Exporters.export_daily_summary_report,
    Exporters.export_parquet, Exporters.export_csv, Exporters.write, Exporters.path_in.
  cbn [List.filter].
  destruct (Py.mem "parquet" export_formats), (Py.mem "csv" export_formats),
    (Py.mem "summary" export_formats); simpl;
    repeat match goal with
      | |- context [Exporters.io E ?p] =>
          let H := fresh "Hio" in destruct (Exporters.io E p) eqn:H; simpl
      | |- context [Exporters.summary_stats df] =>
          destruct (Exporters.summary_stats df); simpl
      end; eauto.
Qed.

Lemma metrics_ok_any_time (now1 now2 : string) (df : DataFrame) :
  is_ok (create_data_quality_metrics now1 df) = is_ok (create_data_quality_metrics now2 df).
Proof.
  unfold create_data_quality_metrics.
  destruct (get_column df "track_clean"); simpl; [|done]. by case_bool_decide.
Qed.

Variables (W : World) (df : DataFrame) (date_str : string) (export_formats : list string).

(** The export task with its two retries: it returns as soon as one of the
    three executions has every requested format go through, and raises when
    none has. *)
Lemma export_task_outcome (st : State) :
  let r := run_task 2 0
             (fun attempt s =>
                export_processed_data (Exporters.mkEnv (io_at W attempt) (clock W))
                                      s df date_str export_formats) st in
  if all_succeed W 0 df date_str export_formats
     || all_succeed W 1 df date_str export_formats
     || all_succeed W 2 df date_str export_formats
  then r.1 = Ok (requested_paths date_str export_formats)
  else exists e, r.1 = Raise e.
Proof.
  cbn zeta.
  assert (forall k s,
             if all_succeed W k df date_str export_formats
             then (export_processed_data (Exporters.mkEnv (io_at W k) (clock W))
                     s df date_str export_formats).1
                  = Ok (requested_paths date_str export_formats)
             else exists e,
                 (export_processed_data (Exporters.mkEnv (io_at W k) (clock W))
                    s df date_str export_formats).1 = Raise e) as Hout.
  { intros k s. apply export_processed_data_outcome. }
  simpl.
  pose proof (Hout 0%nat st) as H0.
  destruct (export_processed_data _ st _ _ _) as [[p0|e0] s0]; simpl in H0.
  { destruct (all_succeed W 0 _ _ _); [done|]. by destruct H0. }
  destruct (all_succeed W 0 _ _ _); [done|]. clear H0.
  pose proof (Hout 1%nat s0) as H1.
  destruct (export_processed_data _ s0 _ _ _) as [[p1|e1] s1]; simpl in H1.
  { destruct (all_succeed W 1 _ _ _); [done|]. by destruct H1. }
  destruct (all_succeed W 1 _ _ _); [done|]. clear H1.
  pose proof (Hout 2%nat s1) as H2.
  destruct (export_processed_data _ s1 _ _ _) as [[p2|e2] s2]; simpl in H2.
  { destruct (all_succeed W 2 _ _ _); [done|]. by destruct H2. }
  destruct (all_succeed W 2 _ _ _); [done|]. simpl. eauto.
Qed.

Lemma some_execution_succeeds :
  (exists k, (k <= 2)%nat /\ all_succeed W k df date_str export_formats = true)
  <-> all_succeed W 0 df date_str export_formats
      || all_succeed W 1 df date_str export_formats
      || all_succeed W 2 df date_str export_formats = true.
Proof.
  rewrite !orb_true_iff. split.
  - intros (k & Hk & H). destruct k as [|[|[|k]]]; [tauto..|lia].
  - intros [[H|H]|H]; [exists 0%nat|exists 1%nat|exists 2%nat]; split; (lia || done).
Qed.

(** The outcome of the flow from the export stage on. *)
Lemma run_from_export_outcome (scraper : Base.BaseScraper) (st : State) :
  let r := run_from_export W (initial_stats W date_str) scraper st df date_str
                           export_formats in
  let exported :=
    exists k, (k <= 2)%nat /\ all_succeed W k df date_str export_formats = true in
  let measured := forall now, is_ok (create_data_quality_metrics now df) = true in
  (status r = Some (PStr "success") \/ status r = Some (PStr "failed"))
  /\ (status r = Some (PStr "success") <-> exported /\ measured)
  /\ (status r = Some (PStr "success") ->
      raised r = None
      /\ pipeline_stats r !! "export_paths"
         = Some (PPaths (requested_paths date_str export_formats)))
  /\ (status r = Some (PStr "failed") ->
      (exists e, raised r = Some e /\ pipeline_stats r !! "error" = Some (PStr e))
      /\ pipeline_stats r !! "export_paths" = None).
Proof.
  cbn zeta. rewrite some_execution_succeeds.
  unfold run_from_export, export_and_measure.
  pose proof (export_task_outcome st) as Htask. cbn zeta in Htask.
  destruct (run_task 2 0 _ st) as [[paths|e] s] eqn:Hrun; simpl in Htask.
  - destruct (_ || _ || _); [|by destruct Htask]. injection Htask as ->.
    destruct (create_data_quality_metrics (clock W (ticks s)) df) as [m|e] eqn:Hm.
    + unfold status. simpl. rewrite !lookup_insert_ne by done. rewrite lookup_insert_eq.
      repeat split; try done; try (by left).
      intros now. by rewrite (metrics_ok_any_time now (clock W (ticks s))), Hm.
    + unfold status. simpl. rewrite !lookup_insert_ne by done. rewrite lookup_insert_eq.
      repeat split; try done; try (by right); try (by eexists).
      intros [_ Hall]. specialize (Hall (clock W (ticks s))). by rewrite Hm in Hall.
  - destruct (_ || _ || _); [done|].
    unfold status. simpl. rewrite !lookup_insert_ne by done. rewrite lookup_insert_eq.
    repeat split; try done; try (by right); try (by eexists).
    by intros [? _].
Qed.

(** C2, as the code has it.  A run that has reached the export stage ends
    with status 'success' or 'failed'.  It is 'success' exactly when, in one
    of the three executions of the export task, every requested format was
    written, and the quality metrics could be computed; the summary then
    lists the paths of all requested formats.  Otherwise the exception goes
    on to the caller, the status is 'failed' with the error recorded, and the
    summary has no export paths, whichever formats were written before the
    failing one.  So one requested format that cannot be written in any of
    the three executions is enough for the run to end as 'failed'. *)
Theorem export_failure_fails_the_run (scraper : Base.BaseScraper) (st : State) :
  let r := run_from_export W (initial_stats W date_str) scraper st df date_str
                           export_formats in
  let exported :=
    exists k, (k <= 2)%nat /\ all_succeed W k df date_str export_formats = true in
  let measured := forall now, is_ok (create_data_quality_metrics now df) = true in
  (status r = Some (PStr "success") \/ status r = Some (PStr "failed"))
  /\ (status r = Some (PStr "success") <-> exported /\ measured)
  /\ (status r = Some (PStr "success") ->
      raised r = None
      /\ pipeline_stats r !! "export_paths"
         = Some (PPaths (requested_paths date_str export_formats)))
  /\ (status r = Some (PStr "failed") ->
      (exists e, raised r = Some e /\ pipeline_stats r !! "error" = Some (PStr e))
      /\ pipeline_stats r !! "export_paths" = None)
  /\ (forall fmt,
        fmt ∈ requested export_formats ->
        (forall k, (k <= 2)%nat ->
                   format_succeeds (Exporters.mkEnv (io_at W k) (clock W)) df date_str fmt
                   = false) ->
        status r = Some (PStr "failed")).
Proof.
  cbn zeta.
  destruct (run_from_export_outcome scraper st) as (Hcases & Hiff & Hok & Hfailed).
  repeat split; try done; try apply Hiff; try apply Hok; try apply Hfailed; try done.
  intros fmt Hfmt Hfail. destruct Hcases as [Hs|Hf]; [|done].
  apply Hiff in Hs as [(k & Hk & Hall) _].
  unfold all_succeed in Hall. rewrite forallb_forall in Hall.
  apply list_elem_of_In in Hfmt. specialize (Hall _ Hfmt).
  rewrite (Hfail k Hk) in Hall. done.
Qed.

End FlowExport.

Section FlowExportExamples.
Import Pl Base DailyScrape Examples.

(** How the tail sits in the flow: a run whose records validate and
    transform goes on exactly as [run_from_export] says. *)
Lemma flow_reaches_export `{K : Kernels} (W : World) disk0 target_date export_formats
    raw_data scraper processed_df :
  let date_str := default (today_iso W) target_date in
  scrape_tab_racing_data W date_str (DailyScrape.clock W 1) = (raw_data, scraper) ->
  raw_data <> [] ->
  validate_racing_data W (DailyScrape.clock W 2) raw_data = true ->
  transform_racing_data (DailyScrape.clock W 3) raw_data = Ok processed_df ->
  daily_race_scraping_flow W disk0 target_date export_formats
  = run_from_export W (initial_stats W date_str) scraper (mkState disk0 4)
                    processed_df date_str export_formats.
Proof.
  intros date_str Hscrape Hne Hvalid Htransform. unfold daily_race_scraping_flow.
  fold date_str. rewrite Hscrape. destruct raw_data; [done|].
  by rewrite Hvalid, Htransform.
Qed.

(** C2, against the specification: both formats are requested, the Parquet file is
    written and the CSV file cannot be; the run ends with status 'failed',
    the exception goes to the caller, and the summary lists no format. *)
Lemma partial_export_failure_is_failed :
  let W := world refused io_csv_fails in
  let E := Exporters.mkEnv (io_at W 0) (DailyScrape.clock W) in
  let r := run_from_export (H := Ref.kernels) W (initial_stats W "2024-01-15") Tab.init
             (mkState ∅ 4) processed_frame "2024-01-15" ["parquet"; "csv"] in
  format_succeeds (H := Ref.kernels) E processed_frame "2024-01-15" "parquet" = true
  /\ format_succeeds (H := Ref.kernels) E processed_frame "2024-01-15" "csv" = false
  /\ is_Some (disk_after r !! "processed_data/racing_data_2024-01-15.parquet")
  /\ status r = Some (PStr "failed")
  /\ status r <> Some (PStr "success")
  /\ raised r = Some "No space left on device"
  /\ pipeline_stats r !! "export_paths" = None.
Proof.
  split; [by vm_compute|]. split; [by vm_compute|].
  split; [eexists; by vm_compute|].
  repeat split; by vm_compute.
Qed.

Lemma export_failure_fails_the_run_witness :
  let W := world refused io_fine in
  let df := processed_frame in
  let date_str := "2024-01-15" in
  let export_formats := ["parquet"; "csv"; "summary"] in
  let r := run_from_export (H := Ref.kernels) W (initial_stats W date_str) Tab.init
             (mkState ∅ 4) df date_str export_formats in
  let exported :=
    exists k, (k <= 2)%nat
              /\ all_succeed (H := Ref.kernels) W k df date_str export_formats = true in
  let measured := forall now, is_ok (create_data_quality_metrics now df) = true in
  (status r = Some (PStr "success") \/ status r = Some (PStr "failed"))
  /\ (status r = Some (PStr "success") <-> exported /\ measured)
  /\ (status r = Some (PStr "success") ->
      raised r = None
      /\ pipeline_stats r !! "export_paths"
         = Some (PPaths (requested_paths date_str export_formats)))
  /\ (status r = Some (PStr "failed") ->
      (exists e, raised r = Some e /\ pipeline_stats r !! "error" = Some (PStr e))
      /\ pipeline_stats r !! "export_paths" = None)
  /\ (forall fmt,
        fmt ∈ requested export_formats ->
        (forall k, (k <= 2)%nat ->
                   format_succeeds (H := Ref.kernels)
                     (Exporters.mkEnv (io_at W k) (DailyScrape.clock W)) df date_str fmt
                   = false) ->
        status r = Some (PStr "failed")).
Proof.
  apply (export_failure_fails_the_run (K := Ref.kernels) (world refused io_fine)
           processed_frame "2024-01-15" ["parquet"; "csv"; "summary"] Tab.init
           (mkState ∅ 4)).
Defined.

(** With every write going through, the same run succeeds and lists the
    three formats. *)
Example full_export_succeeds :
  let W := world refused io_fine in
  let r := run_from_export (H := Ref.kernels) W (initial_stats W "2024-01-15") Tab.init
             (mkState ∅ 4) processed_frame "2024-01-15" ["parquet"; "csv"; "summary"] in
  status r = Some (PStr "success")
  /\ raised r = None
  /\ pipeline_stats r !! "export_paths"
     = Some (PPaths [("parquet", "processed_data/racing_data_2024-01-15.parquet");
                     ("csv", "processed_data/racing_data_2024-01-15.csv");
                     ("summary", "processed_data/daily_summary_2024-01-15.parquet")])
  /\ pipeline_stats r !! "records_processed" = Some (PInt 1)
  /\ size (disk_after r) = 5%nat.
Proof. repeat split; by vm_compute. Qed.

(** What the TAB scraper returns has its race numbers as text, which the
    race-number check cannot compare with 1 and 15: under the reference
    kernels such a run ends at validation. *)
Example scraped_race_numbers_are_text :
  let card := Tab.mkRaceCard (Some " 14:30 ") (Some "1") (Some "Ellerslie")
                             (Some "1200m") [] in
  let page := Base.mkNet RobotsAllowed
                (fun _ => GetReturns (mkResponse 200 (Tab.mkPage [card] []))) in
  let r := daily_race_scraping_flow (H := Ref.kernels) (world page io_fine) ∅ None
             ["parquet"; "csv"; "summary"] in
  status r = Some (PStr "validation_failed") /\ raised r = None.
Proof. by vm_compute. Qed.

End FlowExportExamples.

(** ** Low-volume days *)

Section Anomalies.
Import Pl Monitoring.

Lemma Qlt_bool_iff (a b : Q) : Qlt_bool a b = true <-> (a < b)%Q.
Proof.
  unfold Qlt_bool. rewrite negb_true_iff. split.
  - intros H. apply Qnot_le_lt. intros Hle%Qle_bool_iff. congruence.
  - intros H. destruct (Qle_bool b a) eqn:Hle; [|done].
    apply Qle_bool_iff in Hle. by apply Qlt_not_le in H.
Qed.

(** The test the model makes on rationals is the comparison the code makes
    with the standard deviation, the square root of the variance. *)
Lemma below_threshold_sqrt (count avg var : Q) :
  (0 <= var)%Q ->
  below_threshold count avg var = true
  <-> (Q2R count < Q2R avg - 2 * sqrt (Q2R var))%R.
Proof.
  intros Hvar. unfold below_threshold.
  rewrite andb_true_iff, !Qlt_bool_iff.
  assert (0 <= Q2R var)%R as Hv by (replace 0%R with (Q2R 0) by lra; by apply Qle_Rle).
  pose proof (sqrt_pos (Q2R var)) as Hs.
  pose proof (sqrt_sqrt (Q2R var) Hv) as Hss.
  set (s := sqrt (Q2R var)) in *.
  split.
  - intros [H1%Qlt_Rlt H2%Qlt_Rlt].
    rewrite !Q2R_mult, !Q2R_minus in H2.
    replace (Q2R 4) with 4%R in H2 by (unfold Q2R; simpl; lra).
    nra.
  - intros H. split; apply Rlt_Qlt.
    + nra.
    + rewrite !Q2R_mult, !Q2R_minus.
      replace (Q2R 4) with 4%R by (unfold Q2R; simpl; lra).
      nra.
Qed.

(** The dates a list of anomalies flags as low volume. *)
Lemma low_volume_dates_app (a b : list anomaly) :
  low_volume_dates (mkAnomalyResult "success" (a ++ b) None)
  = low_volume_dates (mkAnomalyResult "success" a None)
    ++ low_volume_dates (mkAnomalyResult "success" b None).
Proof. unfold low_volume_dates. simpl. by rewrite map_app, concat_app. Qed.

(** The volume check flags the days below the threshold, all of them and
    no others, and flags nothing unless the variance is positive. *)
Lemma low_volume_check_dates (daily_stats : list (value * nat)) d :
  let race_counts := map (fun dc : value * nat => of_nat dc.2) daily_stats in
  d ∈ low_volume_dates (mkAnomalyResult "success" (low_volume_check daily_stats) None)
  <-> exists c var,
        (d, c) ∈ daily_stats
        /\ variance race_counts = Some var
        /\ (0 < var)%Q
        /\ below_threshold (of_nat c) (mean race_counts) var = true.
Proof.
  cbn zeta. unfold low_volume_check, low_volume_dates.
  destruct (variance _) as [var|] eqn:Hvar; simpl.
  2: { rewrite elem_of_nil. split; [done|]. by intros (? & ? & _ & ? & _). }
  destruct (Qlt_bool 0 var) eqn:Hpos; simpl.
  2: { rewrite elem_of_nil. split; [done|]. intros (c & v & _ & [= <-] & Hv & _).
       apply Qlt_bool_iff in Hv. congruence. }
  apply Qlt_bool_iff in Hpos.
  set (low := filter _ daily_stats).
  assert (d ∈ map fst low
          <-> exists c, (d, c) ∈ daily_stats
                        /\ below_threshold (of_nat c) (mean (map (fun dc : value * nat =>
                                                                    of_nat dc.2) daily_stats))
                                           var = true) as Hlow.
  { subst low. rewrite list_elem_of_fmap. split.
    - intros ([d' c] & -> & [Hb Hin]%list_elem_of_filter). by exists c.
    - intros (c & Hin & Hb). exists (d, c). split; [done|].
      by apply list_elem_of_filter. }
  destruct (0 <? length low)%nat eqn:Hlen; simpl.
  - rewrite app_nil_r, Hlow. split.
    + intros (c & Hin & Hb). by exists c, var.
    + intros (c & v & Hin & [= <-] & _ & Hb). by exists c.
  - apply Nat.ltb_ge in Hlen. destruct low; [|simpl in Hlen; lia].
    simpl in Hlow. rewrite elem_of_nil in *. split; [done|].
    intros (c & v & Hin & [= <-] & _ & Hb). apply Hlow. by exists c.
Qed.

Context `{K : Kernels}.

(** On a string column a comparison with a string does not raise. *)
Lemma mapM_on_str op f (s : Series) :
  forallb is_text s = true ->
  mapM (on_str op f) s
  = Ok (map (fun v => match v with VStr x => f x | _ => VNull end) s).
Proof.
  induction s as [|v s IH]; simpl; [done|].
  intros [Hv Hs]%andb_true_iff. rewrite (IH Hs). by destruct v.
Qed.

Lemma missing_track_check_text (df : DataFrame) (tracks : Series) track :
  get_column df "track_clean" = Ok tracks ->
  forallb is_text tracks = true ->
  exists l, missing_track_check df track = Ok l
            /\ low_volume_dates (mkAnomalyResult "success" l None) = [].
Proof.
  intros Htracks Htext. unfold missing_track_check, filter_height. simpl.
  rewrite Htracks. simpl. rewrite (mapM_on_str _ _ _ Htext). simpl.
  eexists. split; [reflexivity|]. by destruct (_ =? 0)%nat.
Qed.

(** C7, as the code has it.  In a window that is not empty and has a date
    column and a column of track names, a day is flagged as low volume exactly when its count
    lies below [avg - 2 * std], with the mean and the sample standard
    deviation taken over the counts of all days of the window, the day
    itself included; with a standard deviation that is zero or undefined no
    day is flagged. *)
Theorem low_volume_days_flagged (df : DataFrame) (dates tracks : Series) :
  height df <> 0%nat ->
  get_column df "race_date" = Ok dates ->
  get_column df "track_clean" = Ok tracks ->
  forallb is_text tracks = true ->
  let r := detect_data_anomalies df in
  let race_counts := map (fun dc : value * nat => of_nat dc.2) (daily_counts dates) in
  status r = "success"
  /\ (forall d,
        d ∈ low_volume_dates r
        <-> exists c var,
              (d, c) ∈ daily_counts dates
              /\ variance race_counts = Some var
              /\ (0 < var)%Q
              /\ (Q2R (of_nat c) < Q2R (mean race_counts) - 2 * sqrt (Q2R var))%R)
  /\ ((forall var, variance race_counts = Some var -> (var <= 0)%Q) ->
      low_volume_dates r = []).
Proof.
  intros Hheight Hdates Htracks Htext. cbn zeta.
  assert (exists missing quality,
             detect_data_anomalies df
             = mkAnomalyResult "success"
                 (low_volume_check (daily_counts dates) ++ missing ++ quality) None
             /\ low_volume_dates (mkAnomalyResult "success" (missing ++ quality) None) = [])
    as (missing & quality & -> & Hother).
  { unfold detect_data_anomalies. rewrite bool_decide_eq_false_2 by done.
    rewrite Hdates, Htracks. simpl.
    destruct (missing_track_check_text df tracks "ELLERSLIE" Htracks Htext)
      as (m1 & -> & H1).
    destruct (missing_track_check_text df tracks "TRENTHAM" Htracks Htext)
      as (m2 & -> & H2).
    destruct (missing_track_check_text df tracks "RICCARTON" Htracks Htext)
      as (m3 & -> & H3).
    simpl. unfold filter_height. simpl. rewrite Htracks. simpl.
    rewrite (mapM_total _ (fun v => if bool_decide (v = VNull) then VNull
                                    else VBool (bool_decide
                                                  (v ∈ [VStr "UNKNOWN"; VStr ""; VNull]))))
      by done.
    simpl. eexists _, _. split; [reflexivity|].
    rewrite app_nil_r, !low_volume_dates_app, H1, H2, H3. simpl.
    by destruct (_ && _). }
  split; [done|].
  assert (forall d,
             d ∈ low_volume_dates
                   (mkAnomalyResult "success"
                      (low_volume_check (daily_counts dates) ++ missing ++ quality) None)
             <-> d ∈ low_volume_dates
                       (mkAnomalyResult "success" (low_volume_check (daily_counts dates))
                                        None)) as Hsame.
  { intros d. by rewrite low_volume_dates_app, Hother, app_nil_r. }
  split.
  - intros d. rewrite Hsame, low_volume_check_dates. cbn zeta.
    split; intros (c & var & Hin & Hv & Hpos & Hb); exists c, var;
      (repeat split; [done..|]);
      by apply (below_threshold_sqrt _ _ _ (Qlt_le_weak _ _ Hpos)).
  - intros Hvar. apply elem_of_nil_inv. intros d Hd.
    apply Hsame, low_volume_check_dates in Hd as (c & var & _ & Hv & Hpos & _).
    specialize (Hvar var Hv). by apply Qlt_not_le in Hpos.
Qed.

End Anomalies.

Section AnomalyExamples.
Import Pl Monitoring Examples.

(** C7, against the specification: in this week day 5 has 9 rows and the other six
    days have 10, 10, 10, 10, 10 and 11.  Its count is more than two standard
    deviations below the mean of the other six, and the standard deviation of
    the week is not zero, yet no day is flagged: against the mean and the
    deviation of all seven days, 9 is not below the threshold. *)
Lemma day_below_others_is_not_flagged :
  let r := detect_data_anomalies (H := Ref.kernels) week in
  let day5 := VDate (today + 5) in
  (exists dates,
      get_column week "race_date" = Ok dates
      /\ daily_counts dates
         = [(VDate (today + 1), 10); (VDate (today + 2), 10); (VDate (today + 3), 10);
            (VDate (today + 4), 10); (day5, 9); (VDate (today + 6), 10);
            (VDate (today + 7), 11)]%nat)
  /\ below_mean_of_others 9 [10; 10; 10; 10; 10; 11]%nat = true
  /\ (exists var, variance (map of_nat [10; 10; 10; 10; 9; 10; 11]%nat) = Some var
                  /\ (0 < var)%Q)
  /\ status r = "success"
  /\ (day5 ∉ low_volume_dates r)
  /\ low_volume_dates r = [].
Proof.
  split; [eexists; split; by vm_compute|].
  split; [by vm_compute|].
  split; [eexists; split; [by vm_compute|by vm_compute]|].
  split; [by vm_compute|].
  assert (low_volume_dates (detect_data_anomalies (H := Ref.kernels) week) = []) as ->
    by by vm_compute.
  split; [apply not_elem_of_nil|done].
Qed.

(** A week in which day 5 drops from 10 rows to 2: that day is flagged. *)
Example drop_is_flagged :
  low_volume_dates (detect_data_anomalies (H := Ref.kernels) week_with_drop)
  = [VDate (today + 5)].
Proof. by vm_compute. Qed.

Lemma low_volume_days_flagged_witness :
  let df := week_with_drop in
  let dates := default [] (match get_column df "race_date" with Ok c => Some c | _ => None end) in
  let r := detect_data_anomalies (H := Ref.kernels) df in
  let race_counts := map (fun dc : value * nat => of_nat dc.2) (daily_counts dates) in
  status r = "success"
  /\ (forall d,
        d ∈ low_volume_dates r
        <-> exists c var,
              (d, c) ∈ daily_counts dates
              /\ variance race_counts = Some var
              /\ (0 < var)%Q
              /\ (Q2R (of_nat c) < Q2R (mean race_counts) - 2 * sqrt (Q2R var))%R)
  /\ ((forall var, variance race_counts = Some var -> (var <= 0)%Q) ->
      low_volume_dates r = []).
Proof.
  eapply (low_volume_days_flagged (K := Ref.kernels) week_with_drop).
  - by vm_compute.
  - reflexivity.
  - reflexivity.
  - by vm_compute.
Defined.

End AnomalyExamples.

(** * Further properties of the code *)

(** ** Requests: retries, back-off, robots.txt, statistics *)

Section Requests.
Import Base.
Context {Body : Type}.
Variables (net : Net Body) (url : string).

Lemma on_request_exception_counts (self : BaseScraper) attempt e :
  let self' := on_request_exception self url attempt e in
  config self' = config self
  /\ failed_requests self' = (failed_requests self + 1)%nat
  /\ request_count self' = request_count self
  /\ sleeps (trace self')
     = sleeps (trace self)
       ++ (if (attempt <? max_retries (config self) - 1)%nat
           then [backoff (config self) attempt] else []).
Proof.
  unfold on_request_exception, backoff, sleeps. cbn zeta.
  destruct (attempt <? max_retries (config self) - 1)%nat; simpl;
    repeat split; rewrite ?omap_app; simpl; by rewrite ?app_nil_r.
Qed.

(** One round of the loop, when the attempt fails: the scraper goes into the
    [except] clause, with or without a counted request. *)
Lemma failed_attempt_step (remaining attempt : nat) (self : BaseScraper) :
  attempt_fails (attempts net attempt) = true ->
  exists e self1,
    request_loop net url (S remaining) attempt self
    = request_loop net url remaining (S attempt) (on_request_exception self1 url attempt e)
    /\ config self1 = config self
    /\ failed_requests self1 = failed_requests self
    /\ (request_count self <= request_count self1 <= request_count self + 1)%nat
    /\ ((exists r, attempts net attempt = GetReturns r) ->
        request_count self1 = (request_count self + 1)%nat)
    /\ ((exists e', attempts net attempt = GetRaises e') ->
        request_count self1 = request_count self)
    /\ sleeps (trace self1) = sleeps (trace self).
Proof.
  intros Hfail. simpl.
  set (self0 := if (0 <? request_count self)%nat then _ else _).
  assert (config self0 = config self /\ failed_requests self0 = failed_requests self
          /\ request_count self0 = request_count self
          /\ sleeps (trace self0) = sleeps (trace self)) as (Hc & Hf & Hr & Hs).
  { subst self0. destruct (0 <? _)%nat; [|done].
    unfold _wait_between_requests, emit, sleeps. simpl.
    rewrite omap_app. simpl. by rewrite app_nil_r. }
  destruct (attempts net attempt) as [e|response]; simpl in Hfail.
  - exists e, self0. repeat split; try done; try lia.
    intros [r Hr']. done.
  - destruct (raise_for_status response) as [|e]; [done|].
    eexists e, _. split; [reflexivity|]. simpl.
    repeat split; try done; try lia. intros [e' He']. done.
Qed.

(** The loop returns the first response whose status is no error: the
    attempts before it each count as one failed request. *)
Lemma request_loop_first_success (k : nat) :
  forall (remaining attempt : nat) (self : BaseScraper) response,
    (k < remaining)%nat ->
    (forall j, (attempt <= j < attempt + k)%nat -> attempt_fails (attempts net j) = true) ->
    attempts net (attempt + k) = GetReturns response ->
    raise_for_status response = Ok () ->
    exists self',
      request_loop net url remaining attempt self = (Some response, self')
      /\ config self' = config self
      /\ failed_requests self' = (failed_requests self + k)%nat
      /\ (request_count self < request_count self' <= request_count self + S k)%nat.
Proof.
  induction k as [|k IH]; intros remaining attempt self response Hk Hfail Hget Hok.
  - destruct remaining as [|remaining]; [lia|]. simpl.
    rewrite Nat.add_0_r in Hget. rewrite Hget, Hok.
    eexists. split; [reflexivity|].
    destruct (0 <? request_count self)%nat; simpl; repeat split; lia.
  - destruct remaining as [|remaining]; [lia|].
    destruct (failed_attempt_step remaining attempt self (Hfail attempt ltac:(lia)))
      as (e & self1 & -> & Hc & Hf & Hr & _ & _ & _).
    destruct (on_request_exception_counts self1 attempt e) as (Hc' & Hf' & Hr' & _).
    destruct (IH remaining (S attempt) (on_request_exception self1 url attempt e) response)
      as (self' & Hloop & Hc'' & Hf'' & Hr''); try done; try lia.
    + intros j Hj. apply Hfail. lia.
    + by replace (S attempt + k)%nat with (attempt + S k)%nat by lia.
    + exists self'. split; [done|]. split; [congruence|]. split; lia.
Qed.

Lemma check_robots_txt_passes (self : BaseScraper) :
  robots net <> RobotsBlocked ->
  exists self1,
    check_robots_txt net self url = (true, self1)
    /\ config self1 = config self
    /\ failed_requests self1 = failed_requests self
    /\ request_count self1 = request_count self
    /\ sleeps (trace self1) = sleeps (trace self).
Proof.
  intros Hrobots. unfold check_robots_txt.
  destruct (respect_robots (config self)); simpl; [|by eexists].
  destruct (robots net); [|done|]; eexists; (split; [reflexivity|]);
    unfold emit, sleeps; simpl; rewrite omap_app; simpl; by rewrite app_nil_r.
Qed.

Lemma make_request_first_success (self : BaseScraper) (k : nat) response :
  robots net <> RobotsBlocked ->
  (k < max_retries (config self))%nat ->
  (forall j, (j < k)%nat -> attempt_fails (attempts net j) = true) ->
  attempts net k = GetReturns response ->
  raise_for_status response = Ok () ->
  exists self',
    make_request net self url = (Some response, self')
    /\ config self' = config self
    /\ failed_requests self' = (failed_requests self + k)%nat
    /\ (request_count self < request_count self' <= request_count self + S k)%nat.
Proof.
  intros Hrobots Hk Hfail Hget Hok. unfold make_request.
  destruct (check_robots_txt_passes self Hrobots) as (self1 & -> & Hc & Hf & Hr & _).
  destruct (request_loop_first_success k (max_retries (config self1)) 0 self1 response)
    as (self' & -> & Hc' & Hf' & Hr'); try done.
  - by rewrite Hc.
  - intros j Hj. apply Hfail. lia.
  - exists self'. split; [done|]. split; [congruence|]. split; lia.
Qed.

(** X1.  [make_request] retries until a response without error status arrives:
    when the first [k] attempts fail and attempt [k], still within
    [max_retries], brings such a response, that response is returned and
    exactly [k] failed requests have been counted. *)
Theorem make_request_returns_first_success (self : BaseScraper) (k : nat) response :
  robots net <> RobotsBlocked ->
  (k < max_retries (config self))%nat ->
  (forall j, (j < k)%nat -> attempt_fails (attempts net j) = true) ->
  attempts net k = GetReturns response ->
  raise_for_status response = Ok () ->
  exists self',
    make_request net self url = (Some response, self')
    /\ failed_requests self' = (failed_requests self + k)%nat
    /\ (request_count self < request_count self' <= request_count self + S k)%nat.
Proof.
  intros Hrobots Hk Hfail Hget Hok.
  destruct (make_request_first_success self k response Hrobots Hk Hfail Hget Hok)
    as (self' & Hreq & _ & Hf & Hr).
  by exists self'.
Qed.

(** X2.  A page that robots.txt disallows is never requested: [make_request]
    returns [None] with both counters as they were and without any pause;
    all it leaves are two log records. *)
Theorem make_request_respects_robots (self : BaseScraper) :
  respect_robots (config self) = true ->
  robots net = RobotsBlocked ->
  let r := make_request net self url in
  r.1 = None
  /\ request_count r.2 = request_count self
  /\ failed_requests r.2 = failed_requests self
  /\ trace r.2
     = trace self
       ++ [Log INFO ("Robots.txt check for " +:+ url +:+ ": Blocked");
           Log ERROR ("Robots.txt disallows scraping " +:+ url)].
Proof.
  intros Hrespect Hrobots. unfold make_request, check_robots_txt.
  rewrite Hrespect, Hrobots. simpl. by rewrite <- app_assoc.
Qed.

End Requests.

Section RequestStatistics.
Import Base.
Context {Body : Type}.
Variables (net : Net Body) (url : string).

Lemma request_loop_backoff (remaining : nat) :
  forall (attempt : nat) (self : BaseScraper),
    (forall k, (attempt <= k < attempt + remaining)%nat ->
               attempt_fails (attempts net k) = true) ->
    (attempt + remaining)%nat = max_retries (config self) ->
    sleeps (trace (request_loop net url remaining attempt self).2)
    = sleeps (trace self) ++ map (backoff (config self)) (seq attempt (remaining - 1)).
Proof.
  induction remaining as [|remaining IH]; intros attempt self Hfail Hmax.
  - simpl. by rewrite app_nil_r.
  - destruct (failed_attempt_step net url remaining attempt self (Hfail attempt ltac:(lia)))
      as (e & self1 & -> & Hc & Hf & _ & _ & _ & Hs).
    destruct (on_request_exception_counts url self1 attempt e) as (Hc' & _ & _ & Hs').
    rewrite IH.
    + rewrite Hs', Hs, Hc', Hc. rewrite <- app_assoc. f_equal.
      destruct remaining as [|remaining]; simpl.
      * rewrite (proj2 (Nat.ltb_ge _ _)) by lia. done.
      * rewrite (proj2 (Nat.ltb_lt _ _)) by lia. by rewrite Nat.sub_0_r.
    + intros k Hk. apply Hfail. lia.
    + rewrite Hc', Hc. lia.
Qed.

(** X3.  The back-off of [make_request]: when every attempt fails, the pauses
    before the retries are [base_delay], twice that, four times that and so
    on, one for every attempt but the last; after the last attempt the
    scraper does not wait. *)
Theorem make_request_backoff_schedule (self : BaseScraper) :
  robots net <> RobotsBlocked ->
  (forall k, (k < max_retries (config self))%nat -> attempt_fails (attempts net k) = true) ->
  sleeps (trace (make_request net self url).2)
  = sleeps (trace self)
    ++ map (fun attempt => (inject_Z (2 ^ Z.of_nat attempt) * base_delay (config self))%Q)
           (seq 0 (max_retries (config self) - 1)).
Proof.
  intros Hrobots Hfail. unfold make_request.
  destruct (check_robots_txt_passes net url self Hrobots) as (self1 & -> & Hc & _ & _ & Hs).
  rewrite request_loop_backoff.
  - by rewrite Hs, Hc.
  - intros k Hk. apply Hfail. rewrite <- Hc. lia.
  - done.
Qed.

(** As long as [session.get] returns a response, every failed request is
    also a counted request. *)
Lemma request_loop_responses (remaining : nat) :
  forall (attempt : nat) (self : BaseScraper),
    (forall k, exists r, attempts net k = GetReturns r) ->
    let self' := (request_loop net url remaining attempt self).2 in
    (failed_requests self' + request_count self
     <= request_count self' + failed_requests self)%nat.
Proof.
  induction remaining as [|remaining IH]; intros attempt self Hresp; cbn zeta; [simpl; lia|].
  destruct (attempt_fails (attempts net attempt)) eqn:Hfail.
  - destruct (failed_attempt_step net url remaining attempt self Hfail)
      as (e & self1 & -> & _ & Hf & _ & Hr & _ & _).
    specialize (Hr (Hresp attempt)).
    destruct (on_request_exception_counts url self1 attempt e) as (_ & Hf' & Hr' & _).
    specialize (IH (S attempt) (on_request_exception self1 url attempt e) Hresp).
    cbn zeta in IH. lia.
  - simpl. destruct (attempts net attempt) as [e|response]; [done|].
    simpl in Hfail. destruct (raise_for_status response); [|done].
    destruct (0 <? request_count self)%nat; simpl; lia.
Qed.

Lemma success_rate_lookup (self : BaseScraper) :
  get_request_stats self !! "success_rate"
  = Some (inject_Z (Z.of_nat (request_count self) - Z.of_nat (failed_requests self))
          / inject_Z (Z.of_nat (Nat.max 1 (request_count self))))%Q.
Proof. done. Qed.

Lemma rate_between_0_and_1 (rc f : nat) :
  (f <= rc)%nat ->
  let q := (inject_Z (Z.of_nat rc - Z.of_nat f) / inject_Z (Z.of_nat (Nat.max 1 rc)))%Q in
  (0 <= q)%Q /\ (q <= 1)%Q.
Proof.
  intros Hle. cbn zeta.
  assert (0 < inject_Z (Z.of_nat (Nat.max 1 rc)))%Q as Hpos.
  { replace 0%Q with (inject_Z 0) by done. rewrite <- Zlt_Qlt. lia. }
  split.
  - apply Qle_shift_div_l; [done|]. rewrite Qmult_0_l.
    replace 0%Q with (inject_Z 0) by done. rewrite <- Zle_Qle. lia.
  - apply Qle_shift_div_r; [done|]. rewrite Qmult_1_l. rewrite <- Zle_Qle. lia.
Qed.

(** X4.  The success rate [get_request_stats] reports after a [make_request] in
    which every attempt got a response, good or bad, lies between 0 and 1,
    provided it did before. *)
Theorem success_rate_with_responses (self : BaseScraper) :
  (forall k, exists r, attempts net k = GetReturns r) ->
  (failed_requests self <= request_count self)%nat ->
  let self' := (make_request net self url).2 in
  (failed_requests self' <= request_count self')%nat
  /\ exists q, get_request_stats self' !! "success_rate" = Some q
               /\ (0 <= q)%Q /\ (q <= 1)%Q.
Proof.
  intros Hresp Hle. cbn zeta.
  assert (failed_requests (make_request net self url).2
          <= request_count (make_request net self url).2)%nat as Hle'.
  { unfold make_request, check_robots_txt.
    destruct (respect_robots (config self)); simpl.
    - destruct (robots net); simpl; try done;
        match goal with
        | |- context [request_loop net url ?n 0 ?s] =>
            pose proof (request_loop_responses n 0 s Hresp) as H; cbn zeta in H;
            simpl in H; lia
        end.
    - pose proof (request_loop_responses (max_retries (config self)) 0 self Hresp) as H.
      cbn zeta in H. lia. }
  split; [done|]. eexists. split; [apply success_rate_lookup|].
  by apply rate_between_0_and_1.
Qed.

Lemma request_loop_all_raise (remaining : nat) :
  forall (attempt : nat) (self : BaseScraper),
    (forall k, (attempt <= k < attempt + remaining)%nat ->
               exists e, attempts net k = GetRaises e) ->
    let self' := (request_loop net url remaining attempt self).2 in
    request_count self' = request_count self
    /\ failed_requests self' = (failed_requests self + remaining)%nat.
Proof.
  induction remaining as [|remaining IH]; intros attempt self Hraise; cbn zeta;
    [simpl; lia|].
  pose proof (Hraise attempt ltac:(lia)) as [e0 He0].
  destruct (failed_attempt_step net url remaining attempt self) as
    (e & self1 & -> & _ & Hf & _ & _ & Hr & _); [by rewrite He0|].
  specialize (Hr (ex_intro _ e0 He0)).
  destruct (on_request_exception_counts url self1 attempt e) as (_ & Hf' & Hr' & _).
  destruct (IH (S attempt) (on_request_exception self1 url attempt e)) as [IHr IHf].
  { intros k Hk. apply Hraise. lia. }
  lia.
Qed.

(** X5.  When [session.get] itself raises on every attempt, no request is
    counted but every failure is: a scraper that had made no request before
    then reports a success rate of minus the number of attempts. *)
Theorem success_rate_without_responses (self : BaseScraper) :
  robots net <> RobotsBlocked ->
  (forall k, (k < max_retries (config self))%nat -> exists e, attempts net k = GetRaises e) ->
  request_count self = 0%nat ->
  failed_requests self = 0%nat ->
  let self' := (make_request net self url).2 in
  request_count self' = 0%nat
  /\ failed_requests self' = max_retries (config self)
  /\ exists q, get_request_stats self' !! "success_rate" = Some q
               /\ (q == - inject_Z (Z.of_nat (max_retries (config self))))%Q.
Proof.
  intros Hrobots Hraise Hrc Hf. cbn zeta.
  assert (request_count (make_request net self url).2 = 0%nat
          /\ failed_requests (make_request net self url).2 = max_retries (config self))
    as [Hrc' Hf'].
  { unfold make_request.
    destruct (check_robots_txt_passes net url self Hrobots)
      as (self1 & -> & Hc & Hf1 & Hr1 & _).
    destruct (request_loop_all_raise (max_retries (config self1)) 0 self1) as [H1 H2].
    - intros k Hk. apply Hraise. rewrite <- Hc. lia.
    - rewrite Hc in *. lia. }
  split; [done|]. split; [done|].
  eexists. split; [apply success_rate_lookup|].
  rewrite Hrc', Hf'. simpl. unfold Qeq, Qdiv, Qmult, Qinv, Qopp, inject_Z. simpl. lia.
Qed.

End RequestStatistics.

Section RequestExamples.
Import Base Examples.

Lemma make_request_returns_first_success_witness :
  exists self',
    make_request flaky Tab.init "https://www.tab.co.nz/racing/today"
    = (Some (mkResponse 200 racing_page), self')
    /\ failed_requests self' = (failed_requests Tab.init + 1)%nat
    /\ (request_count Tab.init < request_count self' <= request_count Tab.init + 2)%nat.
Proof.
  apply (make_request_returns_first_success flaky "https://www.tab.co.nz/racing/today"
           Tab.init 1 (mkResponse 200 racing_page)).
  - discriminate.
  - simpl. lia.
  - intros j Hj. assert (j = 0%nat) as -> by lia. reflexivity.
  - reflexivity.
  - reflexivity.
Defined.

Lemma make_request_respects_robots_witness :
  let r := make_request blocked Tab.init "https://www.tab.co.nz/racing/today" in
  r.1 = None /\ request_count r.2 = request_count Tab.init
  /\ failed_requests r.2 = failed_requests Tab.init
  /\ trace r.2
     = trace Tab.init
       ++ [Log INFO ("Robots.txt check for " +:+ "https://www.tab.co.nz/racing/today"
                     +:+ ": Blocked");
           Log ERROR ("Robots.txt disallows scraping "
                      +:+ "https://www.tab.co.nz/racing/today")].
Proof.
  apply (make_request_respects_robots blocked "https://www.tab.co.nz/racing/today" Tab.init).
  - reflexivity.
  - reflexivity.
Defined.

Lemma make_request_backoff_schedule_witness :
  sleeps (trace (make_request unavailable Tab.init "https://www.tab.co.nz/racing/today").2)
  = sleeps (trace Tab.init)
    ++ map (fun attempt => (inject_Z (2 ^ Z.of_nat attempt) * base_delay (config Tab.init))%Q)
           (seq 0 (max_retries (config Tab.init) - 1)).
Proof.
  apply (make_request_backoff_schedule unavailable "https://www.tab.co.nz/racing/today"
           Tab.init).
  - discriminate.
  - intros k _. reflexivity.
Defined.

(** The pauses of the TAB scraper against a server that stays unavailable:
    2 and 4 seconds. *)
Example unavailable_pauses :
  sleeps (trace (make_request unavailable Tab.init "https://www.tab.co.nz/racing/today").2)
  = [(1 # 1) * 2; (2 # 1) * 2]%Q.
Proof. reflexivity. Qed.

Lemma success_rate_with_responses_witness :
  let self' := (make_request unavailable Tab.init "https://www.tab.co.nz/racing/today").2 in
  (failed_requests self' <= request_count self')%nat
  /\ exists q, get_request_stats self' !! "success_rate" = Some q
               /\ (0 <= q)%Q /\ (q <= 1)%Q.
Proof.
  apply (success_rate_with_responses unavailable "https://www.tab.co.nz/racing/today"
           Tab.init).
  - intros k. eexists. reflexivity.
  - simpl. lia.
Defined.

Lemma success_rate_without_responses_witness :
  let self' := (make_request refused Tab.init "https://www.tab.co.nz/racing/today").2 in
  request_count self' = 0%nat
  /\ failed_requests self' = max_retries (config Tab.init)
  /\ exists q, get_request_stats self' !! "success_rate" = Some q
               /\ (q == - inject_Z (Z.of_nat (max_retries (config Tab.init))))%Q.
Proof.
  apply (success_rate_without_responses refused "https://www.tab.co.nz/racing/today"
           Tab.init).
  - discriminate.
  - intros k _. eexists. reflexivity.
  - reflexivity.
  - reflexivity.
Defined.

End RequestExamples.

(** ** The TAB scraper *)

Section Scraping.
Import Pl Tab Base.
Variables (net : Net Page) (target_date now : string).

(** X6.  Whatever the page holds, every record [scrape_daily_races] returns has
    the same eight keys in the same order; the date is the date asked for,
    not one read off the page, the source is 'tab_nz', and the race number,
    like every other field of the card, is a text. *)
Theorem scraped_records_shape (self : BaseScraper) rec :
  rec ∈ (scrape_daily_races net self target_date now).1 ->
  exists race_time race_number track distance horses scraped_at,
    rec = [ ("date", VStr target_date); ("race_time", VStr race_time);
            ("race_number", VStr race_number); ("track", VStr track);
            ("distance", VStr distance); ("horses", VObj horses);
            ("source", VStr "tab_nz"); ("scraped_at", VStr scraped_at) ].
Proof.
  unfold scrape_daily_races. cbn zeta.
  destruct (make_request _ _ _) as [[response|] self']; simpl.
  - destruct (race_cards (body response)) as [|card cards] eqn:Hcards; simpl.
    + by intros ?%elem_of_nil.
    + change (_parse_race_card card target_date now
              :: map (fun card => _parse_race_card card target_date now) cards)
        with (map (fun card => _parse_race_card card target_date now) (card :: cards)).
      intros (c & -> & _)%list_elem_of_fmap.
      unfold _parse_race_card, _parse_horses_in_race. by do 6 eexists.
  - by intros ?%elem_of_nil.
Qed.

(** X7.  A page that arrives after [k] failed attempts is scraped like one that
    arrives at once: one record per race card, in the order of the page, and
    the [k] failures stay in the scraper's counter. *)
Theorem scrape_after_retries (self : BaseScraper) (k : nat) response :
  robots net <> RobotsBlocked ->
  (k < max_retries (config self))%nat ->
  (forall j, (j < k)%nat -> attempt_fails (attempts net j) = true) ->
  attempts net k = GetReturns response ->
  raise_for_status response = Ok () ->
  race_cards (body response) <> [] ->
  let r := scrape_daily_races net self target_date now in
  length r.1 = length (race_cards (body response))
  /\ (forall (i : nat) card,
        race_cards (body response) !! i = Some card ->
        exists scraped_at,
          r.1 !! i
          = Some [ ("date", VStr target_date);
                   ("race_time", VStr (text_or_unknown (race_time_element card)));
                   ("race_number", VStr (text_or_unknown (race_number_element card)));
                   ("track", VStr (text_or_unknown (track_element card)));
                   ("distance", VStr (text_or_unknown (distance_element card)));
                   ("horses", _parse_horses_in_race card);
                   ("source", VStr "tab_nz");
                   ("scraped_at", VStr scraped_at) ])
  /\ failed_requests r.2 = (failed_requests self + k)%nat
  /\ last (messages INFO r.2)
     = Some ("Successfully scraped " +:+ Py.str_nat (length (race_cards (body response)))
             +:+ " races from TAB").
Proof.
  intros Hrobots Hk Hfail Hget Hok Hcards. unfold scrape_daily_races. cbn zeta.
  set (self0 := emit _ self).
  destruct (make_request_first_success net (base_url +:+ "/racing/today") self0 k response)
    as (self' & -> & _ & Hf & _); try done.
  destruct (race_cards (body response)) as [|card cards] eqn:Hpage; [done|].
  cbn [fst snd].
  change (_parse_race_card card target_date now
          :: map (fun card => _parse_race_card card target_date now) cards)
    with (map (fun card => _parse_race_card card target_date now) (card :: cards)).
  rewrite !length_map. split; [done|]. split; [|split; [done|]].
  - intros i c Hc. exists now. rewrite list_lookup_fmap, Hc. done.
  - unfold messages, emit. cbn [trace]. rewrite omap_app. cbn.
    rewrite bool_decide_eq_true_2 by done. by rewrite last_snoc.
Qed.

End Scraping.

Section ScrapingExamples.
Import Pl Tab Base Examples.

Lemma scraped_records_shape_witness :
  exists race_time race_number track distance horses scraped_at,
    Tab._parse_race_card bare_card "2024-01-15" "2024-01-15T10:00:01"
    = [ ("date", VStr "2024-01-15"); ("race_time", VStr race_time);
        ("race_number", VStr race_number); ("track", VStr track);
        ("distance", VStr distance); ("horses", VObj horses);
        ("source", VStr "tab_nz"); ("scraped_at", VStr scraped_at) ].
Proof.
  apply (scraped_records_shape flaky "2024-01-15" "2024-01-15T10:00:01" Tab.init).
  vm_compute. apply list_elem_of_further, list_elem_of_here.
Defined.

Lemma scrape_after_retries_witness :
  let r := scrape_daily_races flaky Tab.init "2024-01-15" "2024-01-15T10:00:01" in
  length r.1 = length (race_cards racing_page)
  /\ (forall (i : nat) card,
        race_cards racing_page !! i = Some card ->
        exists scraped_at,
          r.1 !! i
          = Some [ ("date", VStr "2024-01-15");
                   ("race_time", VStr (text_or_unknown (race_time_element card)));
                   ("race_number", VStr (text_or_unknown (race_number_element card)));
                   ("track", VStr (text_or_unknown (track_element card)));
                   ("distance", VStr (text_or_unknown (distance_element card)));
                   ("horses", _parse_horses_in_race card);
                   ("source", VStr "tab_nz");
                   ("scraped_at", VStr scraped_at) ])
  /\ failed_requests r.2 = (failed_requests Tab.init + 1)%nat
  /\ last (messages INFO r.2)
     = Some ("Successfully scraped " +:+ Py.str_nat (length (race_cards racing_page))
             +:+ " races from TAB").
Proof.
  apply (scrape_after_retries flaky "2024-01-15" "2024-01-15T10:00:01" Tab.init 1
           (mkResponse 200 racing_page)).
  - discriminate.
  - simpl. lia.
  - intros j Hj. assert (j = 0%nat) as -> by lia. reflexivity.
  - reflexivity.
  - reflexivity.
  - discriminate.
Defined.

(** What the scraper makes of the two cards of the example page: a missing
    element becomes 'Unknown', a text is stripped. *)
Example racing_page_scraped :
  (scrape_daily_races flaky Tab.init "2024-01-15" "2024-01-15T10:00:01").1
  = [ [ ("date", VStr "2024-01-15"); ("race_time", VStr "14:30");
        ("race_number", VStr "3"); ("track", VStr "Ellerslie");
        ("distance", VStr "1200m");
        ("horses", VObj "[{'name': 'Fast Horse', 'jockey': 'J. Smith', 'barrier': '4', 'odds': 'Unknown'}]");
        ("source", VStr "tab_nz"); ("scraped_at", VStr "2024-01-15T10:00:01") ];
      [ ("date", VStr "2024-01-15"); ("race_time", VStr "Unknown");
        ("race_number", VStr "Unknown"); ("track", VStr "Trentham");
        ("distance", VStr "Unknown"); ("horses", VObj "[]");
        ("source", VStr "tab_nz"); ("scraped_at", VStr "2024-01-15T10:00:01") ] ].
Proof. by vm_compute. Qed.

End ScrapingExamples.

(** ** The checks of the validator *)

Section Checks.
Import Pl Validators.
Context `{K : Kernels}.

Lemma get_column_mem (df : DataFrame) name c :
  get_column df name = Ok c -> Py.mem name (columns df) = true.
Proof.
  unfold Py.mem. intros Hget. apply bool_decide_eq_true_2.
  induction df as [|[n c'] df IH]; simpl in *; [done|].
  destruct (String.eqb n name) eqn:Hn.
  - apply String.eqb_eq in Hn as ->. apply list_elem_of_here.
  - apply list_elem_of_further, IH, Hget.
Qed.

Lemma mem_get_column (df : DataFrame) name :
  Py.mem name (columns df) = true -> exists c, get_column df name = Ok c.
Proof.
  unfold Py.mem. intros Hmem%bool_decide_eq_true_1.
  induction df as [|[n c'] df IH]; simpl in *; [by apply elem_of_nil in Hmem|].
  destruct (String.eqb n name) eqn:Hn; [by eexists|].
  apply elem_of_cons in Hmem as [->|Hmem]; [|by apply IH].
  by rewrite String.eqb_refl in Hn.
Qed.

Lemma count_true_map (h : value -> value) (P : value -> Prop)
    `{!forall v, Decision (P v)} (l : Series) :
  (forall v, v ∈ l -> h v = VBool true <-> P v) ->
  length (filter (fun v => v = VBool true) (map h l)) = length (filter P l).
Proof.
  induction l as [|v l IH]; intros Hh; [done|].
  pose proof (Hh v (list_elem_of_here _ _)) as Hv.
  assert (length (filter (fun v => v = VBool true) (map h l)) = length (filter P l)) as IH'.
  { apply IH. intros v' Hv'. apply Hh. by apply list_elem_of_further. }
  cbn [map]. destruct (decide (P v)) as [HP|HP].
  - rewrite (filter_cons_True P) by done.
    rewrite (filter_cons_True (fun v => v = VBool true)) by tauto.
    cbn [length]. by rewrite IH'.
  - rewrite (filter_cons_False P) by done.
    rewrite (filter_cons_False (fun v => v = VBool true)) by tauto. done.
Qed.

Lemma mapM_on_str_text op f (s s' : Series) :
  mapM (on_str op f) s = Ok s' -> forallb is_text s = true.
Proof.
  revert s'. induction s as [|v s IH]; intros s'; simpl; [done|].
  intros (v' & Hv & (s'' & Hs & _)%bind_Ok_inv)%bind_Ok_inv.
  rewrite (IH _ Hs), andb_true_r. by destruct v.
Qed.

(** The mask [is_null | == ""] on a column of texts. *)
Lemma track_mask (tracks : Series) :
  forallb is_text tracks = true ->
  zip_with_result or_value
    (map (fun v => VBool (bool_decide (v = VNull))) tracks)
    (map (fun v => match v with VStr x => VBool (String.eqb x "") | _ => VNull end) tracks)
  = Ok (map (fun v => match v with
                      | VStr x => VBool (String.eqb x "")
                      | _ => VBool true
                      end) tracks).
Proof.
  induction tracks as [|v tracks IH]; [done|]. cbn [forallb map zip_with_result].
  intros [Hv Hs]%andb_true_iff. rewrite (IH Hs).
  destruct v as [| | |x| | |]; try done; simpl; by destruct (String.eqb x "").
Qed.

Lemma empty_tracks_count (df : DataFrame) (tracks : Series) :
  get_column df "track" = Ok tracks ->
  filter_height df (or_ (is_null (col "track")) (eq_str (col "track") ""))
  = if forallb is_text tracks
    then Ok (length (filter (fun v => v = VNull \/ v = VStr "") tracks))
    else match filter_height df (or_ (is_null (col "track")) (eq_str (col "track") "")) with
         | Ok n => Raise ""
         | Raise e => Raise e
         end.
Proof.
  intros Hget. destruct (forallb is_text tracks) eqn:Htext.
  - unfold filter_height. simpl. rewrite Hget. simpl.
    rewrite (mapM_total (fun v => Ok (VBool (bool_decide (v = VNull))))
               (fun v => VBool (bool_decide (v = VNull)))) by done. simpl.
    rewrite (mapM_on_str _ _ _ Htext). simpl. rewrite (track_mask _ Htext). simpl.
    f_equal. apply count_true_map. intros v Hv.
    assert (is_text v = true) as Hv'.
    { rewrite forallb_forall in Htext. by apply Htext, list_elem_of_In. }
    destruct v as [| | |x| | |]; try done.
    + split; [by left|done].
    + split.
      * intros [= ->%String.eqb_eq]. by right.
      * intros [?|[= ->]]; [done|]. by rewrite String.eqb_refl.
  - unfold filter_height. simpl. rewrite Hget. simpl.
    rewrite (mapM_total (fun v => Ok (VBool (bool_decide (v = VNull))))
               (fun v => VBool (bool_decide (v = VNull)))) by done. simpl.
    destruct (mapM _ tracks) as [s'|e] eqn:Hs; [|done].
    apply mapM_on_str_text in Hs. congruence.
Qed.

(** X8.  [_check_track_names] on a column of texts: one error with the number of
    records whose track is null or the empty text, nothing when there is no
    such record, and never a warning.  A track of blanks passes. *)
Theorem check_track_names_counts (df : DataFrame) (tracks : Series) :
  get_column df "track" = Ok tracks ->
  forallb is_text tracks = true ->
  let empty_tracks := length (filter (fun v => v = VNull \/ v = VStr "") tracks) in
  _check_track_names df
  = (if (0 <? empty_tracks)%nat
     then [Py.str_nat empty_tracks +:+ " records have missing track names"]
     else [],
     []).
Proof.
  intros Hget Htext. cbn zeta. unfold _check_track_names.
  rewrite (get_column_mem _ _ _ Hget). cbn [negb].
  rewrite (empty_tracks_count _ _ Hget), Htext. done.
Qed.

End Checks.

Section MoreChecks.
Import Pl Validators.
Context `{K : Kernels}.
Variable today : Z.

Lemma mapM_on_int op f (s : Series) :
  forallb (fun v => match v with VNull | VInt _ => true | _ => false end) s = true ->
  mapM (on_int op f) s
  = Ok (map (fun v => match v with VInt z => f z | _ => VNull end) s).
Proof.
  induction s as [|v s IH]; simpl; [done|].
  intros [Hv Hs]%andb_true_iff. rewrite (IH Hs). by destruct v.
Qed.

Lemma mapM_on_date op f (s : Series) :
  forallb (fun v => match v with VNull | VDate _ => true | _ => false end) s = true ->
  mapM (on_date op f) s
  = Ok (map (fun v => match v with VDate d => f d | _ => VNull end) s).
Proof.
  induction s as [|v s IH]; simpl; [done|].
  intros [Hv Hs]%andb_true_iff. rewrite (IH Hs). by destruct v.
Qed.

(** The mask [< 1 | > 15] on a column of integers. *)
Lemma race_mask (numbers : Series) :
  forallb (fun v => match v with VNull | VInt _ => true | _ => false end) numbers = true ->
  zip_with_result or_value
    (map (fun v => match v with VInt z => VBool (z <? 1)%Z | _ => VNull end) numbers)
    (map (fun v => match v with VInt z => VBool (15 <? z)%Z | _ => VNull end) numbers)
  = Ok (map (fun v => match v with
                      | VInt z => VBool ((z <? 1)%Z || (15 <? z)%Z)
                      | _ => VNull
                      end) numbers).
Proof.
  induction numbers as [|v numbers IH]; [done|]. cbn [forallb map zip_with_result].
  intros [Hv Hs]%andb_true_iff. rewrite (IH Hs).
  destruct v as [| |z| | | |]; try done; simpl; by destruct (z <? 1)%Z, (15 <? z)%Z.
Qed.

Lemma invalid_races_count (df : DataFrame) (numbers : Series) :
  get_column df "race_number" = Ok numbers ->
  forallb (fun v => match v with VNull | VInt _ => true | _ => false end) numbers = true ->
  filter_height df (or_ (lt_int (col "race_number") 1) (gt_int (col "race_number") 15))
  = Ok (length (filter (fun v => match v with
                                 | VInt z => (z <? 1)%Z || (15 <? z)%Z
                                 | _ => false
                                 end = true) numbers)).
Proof.
  intros Hget Hint. unfold filter_height. simpl. rewrite Hget. simpl.
  rewrite !(mapM_on_int _ _ _ Hint). simpl. rewrite (race_mask _ Hint). simpl.
  f_equal. apply count_true_map. intros v _.
  destruct v as [| |z| | | |]; try done. split; [by intros [= ->]|by intros ->].
Qed.

(** X9.  [_check_race_numbers] on a column of integers never reports an error:
    race numbers below 1 or above 15 only give one warning with their
    number, and a null race number is not counted. *)
Theorem check_race_numbers_counts (df : DataFrame) (numbers : Series) :
  get_column df "race_number" = Ok numbers ->
  forallb (fun v => match v with VNull | VInt _ => true | _ => false end) numbers = true ->
  let invalid_races :=
    length (filter (fun v => match v with
                             | VInt z => (z <? 1)%Z || (15 <? z)%Z
                             | _ => false
                             end = true) numbers) in
  _check_race_numbers df
  = ([],
     if (0 <? invalid_races)%nat
     then [Py.str_nat invalid_races +:+ " records have unusual race numbers"]
     else []).
Proof.
  intros Hget Hint. cbn zeta. unfold _check_race_numbers.
  rewrite (get_column_mem _ _ _ Hget). cbn [negb].
  by rewrite (invalid_races_count _ _ Hget Hint).
Qed.

Lemma null_count (df : DataFrame) name (c : Series) :
  get_column df name = Ok c ->
  filter_height df (is_null (col name)) = Ok (length (filter (fun v => v = VNull) c)).
Proof.
  intros Hget. unfold filter_height. simpl. rewrite Hget. simpl.
  rewrite (mapM_total (fun v => Ok (VBool (bool_decide (v = VNull))))
             (fun v => VBool (bool_decide (v = VNull)))) by done. simpl.
  f_equal. apply count_true_map. intros v _. split.
  - intros [= H]. by apply bool_decide_eq_true_1 in H.
  - intros H. by rewrite bool_decide_eq_true_2.
Qed.

(** X10.  [_check_date_validity] when the dates parse: null dates are an error,
    dates after today only a warning, each with the number of records; the
    nulls are counted in the column as scraped, the future dates in the
    parsed one, and today's date is not a future date. *)
Theorem check_date_validity_counts (df : DataFrame) (dates parsed : Series) :
  get_column df "date" = Ok dates ->
  k_str_to_date None dates = Ok parsed ->
  forallb (fun v => match v with VNull | VDate _ => true | _ => false end) parsed = true ->
  let null_dates := length (filter (fun v => v = VNull) dates) in
  let future_dates :=
    length (filter (fun v => match v with VDate d => (today <? d)%Z | _ => false end = true)
                   parsed) in
  _check_date_validity today df
  = (if (0 <? null_dates)%nat
     then [Py.str_nat null_dates +:+ " records have null dates"] else [],
     if (0 <? future_dates)%nat
     then [Py.str_nat future_dates +:+ " records have future dates"] else []).
Proof.
  intros Hget Hparse Hdates. cbn zeta. unfold _check_date_validity.
  rewrite (get_column_mem _ _ _ Hget). cbn [negb].
  rewrite (null_count _ _ _ Hget).
  assert (eval df (str_to_date None (col "date")) = Ok (Column parsed)) as Heval.
  { simpl. rewrite Hget. simpl. unfold on_series. simpl. by rewrite Hparse. }
  rewrite Heval.
  unfold filter_height. simpl. rewrite Hget. simpl. unfold on_series. simpl.
  rewrite Hparse. simpl. rewrite (mapM_on_date _ _ _ Hdates). simpl.
  do 2 f_equal.
  rewrite (count_true_map _ (fun v => match v with
                                      | VDate d => (today <? d)%Z
                                      | _ => false
                                      end = true)); [done|].
  intros v _. destruct v as [| | | |d| |]; try done.
  split; [by intros [= ->]|by intros ->].
Qed.

Lemma validate_frame now (raw_data : list RawRecord) (df : DataFrame) :
  raw_data <> [] ->
  k_DataFrame raw_data = Ok df ->
  let r := validate_scraped_data today now raw_data in
  errors r
  = match filter (fun field => negb (Py.mem field (columns df))) required_fields with
    | [] => []
    | missing_fields => ["Missing required fields: " +:+ Py.repr_list missing_fields]
    end
    ++ (_check_date_validity today df).1 ++ (_check_race_numbers df).1
    ++ (_check_track_names df).1
  /\ warnings r
     = (_check_date_validity today df).2 ++ (_check_race_numbers df).2
       ++ (_check_track_names df).2 ++ (_check_horse_data_quality df).2
  /\ stats r !! "data_quality_score"
     = Some (SNum (max0 (inject_Z (16 - Z.of_nat (length (errors r))) / inject_Z 16))).
Proof.
  intros Hne Hdf. unfold validate_scraped_data.
  destruct raw_data as [|rec raw]; [done|]. rewrite Hdf.
  cbn -[_check_date_validity _check_race_numbers _check_track_names
        _check_horse_data_quality filter required_fields max0 inject_Z Qdiv Z.sub].
  split; [|split].
  - f_equal; [by destruct (filter _ required_fields)|]. by rewrite !app_nil_r.
  - by rewrite app_nil_r.
  - apply lookup_insert_eq.
Qed.

Lemma check_date_validity_errors (df : DataFrame) :
  (length (_check_date_validity today df).1 <= 2)%nat.
Proof.
  unfold _check_date_validity.
  destruct (negb _); [simpl; lia|].
  destruct (eval _ _); [|simpl; lia].
  destruct (filter_height df (is_null _)) as [n|]; [|simpl; lia].
  destruct (filter_height _ _); destruct (0 <? n)%nat; simpl; lia.
Qed.

Lemma check_race_numbers_errors (df : DataFrame) :
  (length (_check_race_numbers df).1 <= 1)%nat.
Proof.
  unfold _check_race_numbers.
  destruct (negb _); [simpl; lia|]. destruct (filter_height _ _); simpl; lia.
Qed.

Lemma check_track_names_errors (df : DataFrame) :
  (length (_check_track_names df).1 <= 1)%nat.
Proof.
  unfold _check_track_names.
  destruct (negb _); [simpl; lia|].
  destruct (filter_height _ _) as [n|]; [destruct (0 <? n)%nat|]; simpl; lia.
Qed.

(** X11.  Whatever the batch, validation reports at most five errors: one for
    missing fields, two from the dates, one each from race numbers and
    tracks.  So a batch that gets a score gets (16 - errors) / 16 and never
    less than 11/16: the [max(0, ...)] around the score never takes
    effect. *)
Theorem validation_errors_bounded now (raw_data : list RawRecord) :
  let r := validate_scraped_data today now raw_data in
  (length (errors r) <= 5)%nat
  /\ forall s, stats r !! "data_quality_score" = Some s ->
       exists q, s = SNum q
         /\ (q == inject_Z (16 - Z.of_nat (length (errors r))) / inject_Z 16)%Q
         /\ (11 # 16 <= q)%Q.
Proof.
  cbn zeta.
  destruct raw_data as [|rec raw] eqn:Hraw; [split; [simpl; lia|done]|].
  rewrite <- Hraw. assert (raw_data <> []) as Hne by by subst.
  destruct (k_DataFrame raw_data) as [df|e] eqn:Hdf.
  - destruct (validate_frame now raw_data df Hne Hdf) as (Herr & _ & Hscore).
    assert (length (errors (validate_scraped_data today now raw_data)) <= 5)%nat as Hlen.
    { rewrite Herr, !length_app.
      pose proof (check_date_validity_errors df).
      pose proof (check_race_numbers_errors df).
      pose proof (check_track_names_errors df).
      destruct (filter _ required_fields); simpl; lia. }
    split; [done|]. intros s. rewrite Hscore. intros [= <-].
    eexists. split; [done|].
    set (n := length _) in *. unfold max0.
    assert (Qle_bool (inject_Z (16 - Z.of_nat n) / inject_Z 16) 0 = false) as ->.
    { unfold Qle_bool, Qdiv, Qmult, Qinv, inject_Z. simpl. lia. }
    split; [done|]. unfold Qle, Qdiv, Qmult, Qinv, inject_Z. simpl. lia.
  - subst raw_data. unfold validate_scraped_data. rewrite Hdf. split; [simpl; lia|done].
Qed.

(** X12.  What a valid batch is sure to have: all four required columns, no null
    in the date column, and neither a null nor the empty text in the track
    column. *)
Theorem valid_batch_guarantees now (raw_data : list RawRecord) (df : DataFrame) :
  is_valid (validate_scraped_data today now raw_data) = true ->
  k_DataFrame raw_data = Ok df ->
  (forall field, field ∈ required_fields -> field ∈ columns df)
  /\ (exists dates, get_column df "date" = Ok dates /\ (VNull ∉ dates))
  /\ (exists tracks, get_column df "track" = Ok tracks
                     /\ (VNull ∉ tracks) /\ (VStr "" ∉ tracks)).
Proof.
  intros Hvalid Hdf.
  assert (raw_data <> []) as Hne.
  { intros ->. by vm_compute in Hvalid. }
  destruct (validate_frame now raw_data df Hne Hdf) as (Herr & _ & _).
  rewrite is_valid_spec in Hvalid. apply bool_decide_eq_true_1 in Hvalid.
  apply length_zero_iff_nil in Hvalid. rewrite Hvalid in Herr. symmetry in Herr.
  apply app_eq_nil in Herr as [Hmissing [Hdate [Hrace Htrack]%app_eq_nil]%app_eq_nil].
  assert (forall field, field ∈ required_fields -> field ∈ columns df) as Hfields.
  { intros field Hfield.
    destruct (decide (field ∈ columns df)) as [|Hnot]; [done|].
    assert (field ∈ filter (fun field => negb (Py.mem field (columns df))) required_fields)
      as Hin.
    { apply list_elem_of_filter. split; [|done].
      unfold Py.mem. by rewrite bool_decide_eq_false_2. }
    destruct (filter _ required_fields); [by apply elem_of_nil in Hin|done]. }
  split; [done|].
  destruct (mem_get_column df "date") as [dates Hdates].
  { unfold Py.mem. apply bool_decide_eq_true_2, Hfields.
    apply list_elem_of_here. }
  destruct (mem_get_column df "track") as [tracks Htracks].
  { unfold Py.mem. apply bool_decide_eq_true_2, Hfields.
    do 2 apply list_elem_of_further. apply list_elem_of_here. }
  split.
  - exists dates. split; [done|].
    unfold _check_date_validity in Hdate.
    rewrite (get_column_mem _ _ _ Hdates) in Hdate. cbn [negb] in Hdate.
    destruct (eval _ _); [|done].
    rewrite (null_count _ _ _ Hdates) in Hdate.
    destruct (0 <? length _)%nat eqn:Hn.
    { by destruct (filter_height _ _). }
    apply Nat.ltb_ge in Hn. intros Hnull.
    assert (VNull ∈ filter (fun v => v = VNull) dates) as Hin
      by by apply list_elem_of_filter.
    destruct (filter _ dates); [by apply elem_of_nil in Hin|simpl in Hn; lia].
  - exists tracks. split; [done|].
    unfold _check_track_names in Htrack.
    rewrite (get_column_mem _ _ _ Htracks) in Htrack. cbn [negb] in Htrack.
    rewrite (empty_tracks_count _ _ Htracks) in Htrack.
    destruct (forallb is_text tracks).
    + destruct (0 <? length _)%nat eqn:Hn; [done|].
      apply Nat.ltb_ge in Hn.
      assert (forall v, v = VNull \/ v = VStr "" -> v ∉ tracks) as Hno.
      { intros v Hv Hin.
        assert (v ∈ filter (fun v => v = VNull \/ v = VStr "") tracks) as Hin'
          by by apply list_elem_of_filter.
        destruct (filter _ tracks); [by apply elem_of_nil in Hin'|simpl in Hn; lia]. }
      split; apply Hno; [by left|by right].
    + by destruct (filter_height _ _).
Qed.


End MoreChecks.

Section CheckExamples.
Import Pl Validators Examples.

Lemma check_track_names_counts_witness :
  let df := [("track", [VStr "Ellerslie"; VNull; VStr ""; VStr "  "])] in
  _check_track_names (H := Ref.kernels) df
  = (["2 records have missing track names"], []).
Proof.
  apply (check_track_names_counts (K := Ref.kernels)
           [("track", [VStr "Ellerslie"; VNull; VStr ""; VStr "  "])]
           [VStr "Ellerslie"; VNull; VStr ""; VStr "  "]).
  - reflexivity.
  - reflexivity.
Defined.

Lemma check_race_numbers_counts_witness :
  let df := [("race_number", [VInt 1; VInt 0; VNull; VInt 15; VInt 16; VInt (-3)])] in
  _check_race_numbers (H := Ref.kernels) df
  = ([], ["3 records have unusual race numbers"]).
Proof.
  apply (check_race_numbers_counts (K := Ref.kernels)
           [("race_number", [VInt 1; VInt 0; VNull; VInt 15; VInt 16; VInt (-3)])]
           [VInt 1; VInt 0; VNull; VInt 15; VInt 16; VInt (-3)]).
  - reflexivity.
  - reflexivity.
Defined.

Lemma check_date_validity_counts_witness :
  let df := [("date", [VStr "2024-01-15"; VStr "2024-01-16"; VNull])] in
  _check_date_validity (H := Ref.kernels) today df
  = (["1 records have null dates"], ["1 records have future dates"]).
Proof.
  apply (check_date_validity_counts (K := Ref.kernels) today
           [("date", [VStr "2024-01-15"; VStr "2024-01-16"; VNull])]
           [VStr "2024-01-15"; VStr "2024-01-16"; VNull]
           [VDate today; VDate (today + 1); VNull]).
  - reflexivity.
  - by vm_compute.
  - reflexivity.
Defined.

Lemma valid_batch_guarantees_witness :
  let df := good_frame in
  (forall field, field ∈ required_fields -> field ∈ columns df)
  /\ (exists dates, get_column df "date" = Ok dates /\ (VNull ∉ dates))
  /\ (exists tracks, get_column df "track" = Ok tracks
                     /\ (VNull ∉ tracks) /\ (VStr "" ∉ tracks)).
Proof.
  apply (valid_batch_guarantees (K := Ref.kernels) today "2024-01-15T10:00:00" good_data
           good_frame).
  - by vm_compute.
  - by vm_compute.
Defined.

End CheckExamples.

(** ** The transformation steps, column by column *)

Section Columns.
Import Pl Transformers.
Context `{K : Kernels}.

Lemma get_column_with_column (df : DataFrame) n c x :
  get_column (with_column df n c) x
  = if String.eqb n x then Ok c else get_column df x.
Proof.
  induction df as [|[n' c'] df IH]; simpl; [by destruct (String.eqb n x)|].
  destruct (String.eqb n' n) eqn:Hn; simpl.
  - apply String.eqb_eq in Hn as ->. by destruct (String.eqb n x).
  - rewrite IH. destruct (String.eqb n' x) eqn:Hx; [|done].
    apply String.eqb_eq in Hx as ->. by rewrite String.eqb_sym, Hn.
Qed.

Lemma get_column_put_all (cols : list (string * Series)) (df : DataFrame) x :
  x ∉ map fst cols ->
  get_column (foldl (fun d nc => with_column d nc.1 nc.2) df cols) x = get_column df x.
Proof.
  revert df. induction cols as [|[n c] cols IH]; intros df Hx; simpl; [done|].
  simpl in Hx. apply not_elem_of_cons in Hx as [Hn Hx].
  rewrite (IH _ Hx), get_column_with_column.
  destruct (String.eqb n x) eqn:Heq; [|done]. by apply String.eqb_eq in Heq.
Qed.

Lemma get_column_put_all_in (cols : list (string * Series)) (df : DataFrame) n c :
  NoDup (map fst cols) -> (n, c) ∈ cols ->
  get_column (foldl (fun d nc => with_column d nc.1 nc.2) df cols) n = Ok c.
Proof.
  revert df. induction cols as [|[n' c'] cols IH]; intros df Hnd Hin; simpl.
  - by apply elem_of_nil in Hin.
  - simpl in Hnd. apply NoDup_cons in Hnd as [Hn' Hnd].
    apply elem_of_cons in Hin as [[= -> ->]|Hin].
    + rewrite (get_column_put_all _ _ _ Hn'), get_column_with_column.
      by rewrite String.eqb_refl.
    + by apply IH.
Qed.

(** A column the expressions do not name is left as it is. *)
Lemma with_columns_other (df out : DataFrame) exprs x :
  with_columns df exprs = Ok out ->
  x ∉ map fst exprs ->
  get_column out x = get_column df x.
Proof.
  unfold with_columns.
  destruct (mapM (eval_named df) exprs) as [cols|] eqn:Hcols; simpl; [|done].
  intros [= <-] Hx. apply get_column_put_all.
  by rewrite (mapM_eval_named_names _ _ _ Hcols).
Qed.

Lemma mapM_elem_of {A B} (f : A -> result B) (l : list A) (l' : list B) a :
  mapM f l = Ok l' -> a ∈ l -> exists b, f a = Ok b /\ b ∈ l'.
Proof.
  revert l'. induction l as [|a' l IH]; intros l' Hl Ha.
  - by apply elem_of_nil in Ha.
  - apply mapM_cons_inv in Hl as (b & bs & Hb & Hbs & ->).
    apply elem_of_cons in Ha as [->|Ha].
    + exists b. split; [done|]. apply list_elem_of_here.
    + destruct (IH _ Hbs Ha) as (b' & Hb' & Hin). exists b'. split; [done|].
      by apply list_elem_of_further.
Qed.

(** A column the expressions name holds the value of its expression on the
    frame as it was before the step. *)
Lemma with_columns_named (df out : DataFrame) exprs name e :
  with_columns df exprs = Ok out ->
  NoDup (map fst exprs) ->
  (name, e) ∈ exprs ->
  exists c, eval df e = Ok c
            /\ get_column out name = Ok (broadcast (height df) c)
            /\ length (broadcast (height df) c) = height df.
Proof.
  unfold with_columns.
  destruct (mapM (eval_named df) exprs) as [cols|] eqn:Hcols; simpl; [|done].
  intros [= <-] Hnd Hin.
  destruct (mapM_elem_of _ _ _ _ Hcols Hin) as ([n s] & Hns & Hin').
  unfold eval_named in Hns. simpl in Hns.
  destruct (eval df e) as [c|] eqn:He; simpl in Hns; [|done].
  case_bool_decide as Hlen; [|done]. injection Hns as <- <-.
  exists c. split; [done|]. split; [|done].
  apply get_column_put_all_in; [|done].
  by rewrite (mapM_eval_named_names _ _ _ Hcols).
Qed.

Lemma height_with_column (df : DataFrame) n c :
  length c = height df -> height (with_column df n c) = height df.
Proof.
  destruct df as [|[n' c'] df]; simpl; [done|].
  by destruct (String.eqb n' n).
Qed.

Lemma with_column_lengths (df : DataFrame) n c h :
  Forall (fun nc => length nc.2 = h) df -> length c = h ->
  Forall (fun nc => length nc.2 = h) (with_column df n c).
Proof.
  induction df as [|[n' c'] df IH]; simpl; intros Hdf Hc.
  - by apply Forall_singleton.
  - apply Forall_cons in Hdf as [Hc' Hdf].
    destruct (String.eqb n' n); apply Forall_cons; split; try done. by apply IH.
Qed.

Lemma put_all_height (cols : list (string * Series)) (h : nat) :
  Forall (fun nc : string * Series => length nc.2 = h) cols ->
  forall df : DataFrame,
    height df = h ->
    height (foldl (fun d nc => with_column d nc.1 nc.2) df cols) = h
    /\ (Forall (fun nc => length nc.2 = h) df ->
        Forall (fun nc => length nc.2 = h)
               (foldl (fun d nc => with_column d nc.1 nc.2) df cols)).
Proof.
  induction cols as [|[n s] cols IH]; intros Hlens df Hh; simpl; [done|].
  apply Forall_cons in Hlens as [Hs Hlens]. simpl in Hs.
  destruct (IH Hlens (with_column df n s)) as [IH1 IH2].
  { rewrite height_with_column; congruence. }
  split; [done|]. intros Hdf. apply IH2. by apply with_column_lengths.
Qed.

(** [with_columns] neither adds nor drops a row. *)
Lemma with_columns_height (df out : DataFrame) exprs :
  with_columns df exprs = Ok out ->
  height out = height df
  /\ (Forall (fun nc => length nc.2 = height df) df ->
      Forall (fun nc => length nc.2 = height df) out).
Proof.
  unfold with_columns.
  destruct (mapM (eval_named df) exprs) as [cols|] eqn:Hcols; simpl; [|done].
  intros [= <-].
  assert (Forall (fun nc : string * Series => length nc.2 = height df) cols) as Hlens.
  { apply Forall_forall. intros [n s] Hin.
    clear -Hcols Hin. revert cols Hcols Hin.
    induction exprs as [|ne exprs IH]; intros cols Hcols Hin.
    - injection Hcols as <-. by apply elem_of_nil in Hin.
    - apply mapM_cons_inv in Hcols as (nc & cs & Hnc & Hcs & ->).
      apply elem_of_cons in Hin as [<-|Hin]; [|by apply (IH cs)].
      unfold eval_named in Hnc. destruct (eval df ne.2); simpl in Hnc; [|done].
      case_bool_decide; [|done]. injection Hnc as _ <-. by simpl. }
  by apply put_all_height.
Qed.

End Columns.

Section Pipeline.
Import Pl Transformers.
Context `{K : Kernels}.
Variable now : string.

Ltac in_list := repeat first [apply list_elem_of_here | apply list_elem_of_further].

Lemma transform_steps (df out : DataFrame) :
  transform now df = Ok out ->
  exists cleaned_df featured_df,
    clean_scraped_data df = Ok cleaned_df
    /\ engineer_basic_features now cleaned_df = Ok featured_df
    /\ create_betting_features featured_df = Ok out.
Proof.
  unfold transform.
  destruct (clean_scraped_data df) as [d1|] eqn:H1; simpl; [|done].
  destruct (engineer_basic_features now d1) as [d2|] eqn:H2; simpl; [|done].
  intros H3. by exists d1, d2.
Qed.

(** X13.  The transformation only writes the thirteen columns it derives: any
    other column of the frame comes out with the cells it went in with. *)
Theorem transform_leaves_scraped_columns (df out : DataFrame) name :
  transform now df = Ok out ->
  name ∉ derived_columns ->
  get_column out name = get_column df name.
Proof.
  intros (d1 & d2 & H1 & H2 & H3)%transform_steps Hname.
  unfold derived_columns in Hname. rewrite !not_elem_of_cons in Hname.
  rewrite (with_columns_other _ _ _ name H3), (with_columns_other _ _ _ name H2),
    (with_columns_other _ _ _ name H1); [done|..];
    simpl; rewrite !not_elem_of_cons; intuition (by apply elem_of_nil in H).
Qed.

(** X14.  The transformation neither drops nor adds a record, and every column of
    its result has as many cells as the frame it started from has rows. *)
Theorem transform_keeps_rows (df out : DataFrame) :
  transform now df = Ok out ->
  Forall (fun nc => length nc.2 = height df) df ->
  height out = height df
  /\ Forall (fun nc => length nc.2 = height df) out.
Proof.
  intros (d1 & d2 & H1 & H2 & H3)%transform_steps Hdf.
  apply with_columns_height in H1 as [Hh1 Hl1], H2 as [Hh2 Hl2], H3 as [Hh3 Hl3].
  rewrite Hh2, Hh1 in Hh3, Hl3. rewrite Hh1 in Hl2. split; [done|]. auto.
Qed.

(** X15.  The transformation needs more than validation asks for: besides 'date',
    'track' and 'source' it reads 'race_time' and 'scraped_at', and raises
    when one of the five is not a column of the frame. *)
Theorem transform_needs_columns (df out : DataFrame) name :
  transform now df = Ok out ->
  name ∈ ["date"; "track"; "source"; "race_time"; "scraped_at"] ->
  name ∈ columns df.
Proof.
  intros (d1 & d2 & H1 & H2 & _)%transform_steps Hname.
  assert (forall (d d' : DataFrame) exprs n e,
             with_columns d exprs = Ok d' -> NoDup (map fst exprs) -> (n, e) ∈ exprs ->
             exists c, eval d e = Ok c) as Hev.
  { intros d d' exprs n e Hd Hnd Hin.
    destruct (with_columns_named _ _ _ _ _ Hd Hnd Hin) as (c & Hc & _). by exists c. }
  assert (forall d x c, eval d (col x) = Ok c -> x ∈ columns d) as Hcol.
  { intros d x c Hc. simpl in Hc. destruct (get_column d x) as [s|] eqn:Hget; [|done].
    apply get_column_mem in Hget. by apply bool_decide_eq_true_1 in Hget. }
  assert (NoDup (map fst
            [("race_date", str_to_date (Some "%Y-%m-%d") (col "date"));
             ("track_clean", str_to_uppercase (str_strip_chars (col "track")));
             ("source", str_to_lowercase (str_strip_chars (col "source")));
             ("race_minutes", map_elements _parse_race_time_cell (col "race_time"))]))
    as Hnd1 by (apply (bool_decide_unpack _); by vm_compute).
  repeat (apply elem_of_cons in Hname as [->|Hname]); [..|by apply elem_of_nil in Hname].
  - destruct (Hev _ _ _ "race_date" _ H1 Hnd1 ltac:(in_list)) as [c Hc].
    simpl in Hc. destruct (get_column df "date") as [s|] eqn:Hget; [|done].
    apply get_column_mem in Hget. by apply bool_decide_eq_true_1 in Hget.
  - destruct (Hev _ _ _ "track_clean" _ H1 Hnd1 ltac:(in_list)) as [c Hc].
    simpl in Hc. destruct (get_column df "track") as [s|] eqn:Hget; [|done].
    apply get_column_mem in Hget. by apply bool_decide_eq_true_1 in Hget.
  - destruct (Hev _ _ _ "source" _ H1 Hnd1 ltac:(in_list)) as [c Hc].
    simpl in Hc. destruct (get_column df "source") as [s|] eqn:Hget; [|done].
    apply get_column_mem in Hget. by apply bool_decide_eq_true_1 in Hget.
  - destruct (Hev _ _ _ "race_minutes" _ H1 Hnd1 ltac:(in_list)) as [c Hc].
    simpl in Hc. destruct (get_column df "race_time") as [s|] eqn:Hget; [|done].
    apply get_column_mem in Hget. by apply bool_decide_eq_true_1 in Hget.
  - destruct (Hev _ _ _ "scraped_timestamp" (str_to_datetime (col "scraped_at")) H2)
      as [c Hc]; [apply (bool_decide_unpack _); by vm_compute|in_list|].
    simpl in Hc. destruct (get_column d1 "scraped_at") as [s|] eqn:Hget; [|done].
    rewrite (with_columns_other _ _ _ "scraped_at" H1) in Hget.
    + apply get_column_mem in Hget. by apply bool_decide_eq_true_1 in Hget.
    + apply (bool_decide_unpack _). by vm_compute.
Qed.

Lemma mapM_on_str_map op f (s s' : Series) :
  mapM (on_str op f) s = Ok s' ->
  s' = map (fun v => match v with VStr x => f x | _ => VNull end) s.
Proof.
  intros Hs. pose proof (mapM_on_str_text _ _ _ _ Hs) as Htext.
  rewrite (mapM_on_str _ _ _ Htext) in Hs. by injection Hs.
Qed.

(** X16.  What the pipeline makes of the track names: [track_clean] is the track
    stripped and in upper case, [track_type] is looked up under that name in
    the table of the four known tracks, 'unknown' for every other name, and a
    null track stays null in both.  [field_size] is the number of rows of the
    whole batch, the same in every row. *)
Theorem transform_track_columns (df out : DataFrame) (tracks : Series) :
  transform now df = Ok out ->
  get_column df "track" = Ok tracks ->
  get_column out "track_clean"
  = Ok (map (fun v => match v with
                      | VStr s => VStr (Py.upper (Py.strip s))
                      | _ => VNull
                      end) tracks)
  /\ get_column out "track_type"
     = Ok (map (fun v => match v with
                         | VStr s => VStr (_get_track_characteristics (Py.upper (Py.strip s)))
                         | _ => VNull
                         end) tracks)
  /\ get_column out "field_size"
     = Ok (replicate (height df) (VInt (Z.of_nat (height df)))).
Proof.
  intros (d1 & d2 & H1 & H2 & H3)%transform_steps Htracks.
  assert (get_column d2 "track_clean"
          = Ok (map (fun v => match v with
                              | VStr s => VStr (Py.upper (Py.strip s))
                              | _ => VNull
                              end) tracks)) as Hclean.
  { rewrite (with_columns_other _ _ _ "track_clean" H2);
      [|apply (bool_decide_unpack _); by vm_compute].
    destruct (with_columns_named _ _ _ "track_clean"
                (str_to_uppercase (str_strip_chars (col "track"))) H1)
      as (c & Hc & -> & _); [apply (bool_decide_unpack _); by vm_compute|in_list|].
    simpl in Hc. rewrite Htracks in Hc. simpl in Hc.
    destruct (mapM (on_str "str.strip_chars" _) tracks) as [s1|] eqn:Hs1; [|done].
    simpl in Hc.
    destruct (mapM (on_str "str.to_uppercase" _) s1) as [s2|] eqn:Hs2; [|done].
    injection Hc as <-. simpl.
    apply mapM_on_str_map in Hs1 as ->. apply mapM_on_str_map in Hs2 as ->.
    rewrite map_map. f_equal. apply map_ext. by intros []. }
  split; [|split].
  - rewrite (with_columns_other _ _ _ "track_clean" H3);
      [done|apply (bool_decide_unpack _); by vm_compute].
  - destruct (with_columns_named _ _ _ "track_type"
                (map_elements _get_track_characteristics_cell (col "track_clean")) H3)
      as (c & Hc & -> & _); [apply (bool_decide_unpack _); by vm_compute|in_list|].
    simpl in Hc. rewrite Hclean in Hc. simpl in Hc.
    rewrite (mapM_total (on_non_null _get_track_characteristics_cell)
               (fun v => match v with
                         | VNull => VNull
                         | _ => _get_track_characteristics_cell v
                         end)) in Hc by by intros [].
    injection Hc as <-. simpl. rewrite map_map. f_equal. apply map_ext. by intros [].
  - destruct (with_columns_named _ _ _ "field_size" len H3)
      as (c & Hc & -> & _); [apply (bool_decide_unpack _); by vm_compute|in_list|].
    injection Hc as <-. simpl.
    apply with_columns_height in H1 as [H1 _], H2 as [H2 _]. by rewrite H2, H1.
Qed.


End Pipeline.

Section PipelineExamples.
Import Pl Transformers Examples.

Lemma transform_leaves_scraped_columns_witness :
  get_column processed_frame "race_number" = get_column good_frame "race_number".
Proof.
  apply (transform_leaves_scraped_columns (K := Ref.kernels) "2024-01-15T10:00:00"
           good_frame processed_frame "race_number").
  - reflexivity.
  - apply (bool_decide_unpack _). by vm_compute.
Defined.

Lemma transform_keeps_rows_witness :
  height processed_frame = height good_frame
  /\ Forall (fun nc => length nc.2 = height good_frame) processed_frame.
Proof.
  apply (transform_keeps_rows (K := Ref.kernels) "2024-01-15T10:00:00"
           good_frame processed_frame).
  - reflexivity.
  - apply (bool_decide_unpack _). by vm_compute.
Defined.

Lemma transform_needs_columns_witness : "race_time" ∈ columns good_frame.
Proof.
  apply (transform_needs_columns (K := Ref.kernels) "2024-01-15T10:00:00"
           good_frame processed_frame "race_time").
  - reflexivity.
  - apply (bool_decide_unpack _). by vm_compute.
Defined.

Lemma transform_track_columns_witness :
  get_column processed_frame "track_clean"
  = Ok (map (fun v => match v with
                      | VStr s => VStr (Py.upper (Py.strip s))
                      | _ => VNull
                      end) [VStr "Ellerslie"])
  /\ get_column processed_frame "track_type"
     = Ok (map (fun v => match v with
                         | VStr s => VStr (_get_track_characteristics (Py.upper (Py.strip s)))
                         | _ => VNull
                         end) [VStr "Ellerslie"])
  /\ get_column processed_frame "field_size"
     = Ok (replicate (height good_frame) (VInt (Z.of_nat (height good_frame)))).
Proof.
  apply (transform_track_columns (K := Ref.kernels) "2024-01-15T10:00:00"
           good_frame processed_frame [VStr "Ellerslie"]).
  - reflexivity.
  - reflexivity.
Defined.

(** A batch without 'race_time' passes validation and then fails in the
    transformation. *)
Example valid_batch_transform_raises :
  Validators.is_valid
    (Validators.validate_scraped_data (H := Ref.kernels) today "2024-01-15T10:00:00"
       one_without_race_number) = true
  /\ DailyScrape.transform_racing_data (H := Ref.kernels) "2024-01-15T10:00:00"
       one_without_race_number
     = Raise "ColumnNotFoundError: race_time".
Proof. split; by vm_compute. Qed.

End PipelineExamples.

(** ** The time parser on hours and minutes *)

Section HoursMinutes.
Import Transformers.

Lemma split_no_sep c s : Py.contains_char c s = false -> Py.split c s = [s].
Proof.
  induction s as [|c' s IH]; simpl; [done|].
  intros [Hc Hs]%orb_false_iff. rewrite Hc. by rewrite (IH Hs).
Qed.

Lemma split_one_sep c a b :
  Py.contains_char c a = false -> Py.contains_char c b = false ->
  Py.split c (a +:+ String c b) = [a; b].
Proof.
  intros Ha Hb. induction a as [|c' a IH].
  - change ("" +:+ String c b) with (String c b). simpl.
    by rewrite Ascii.eqb_refl, (split_no_sep _ _ Hb).
  - change (String c' a +:+ String c b) with (String c' (a +:+ String c b)). simpl.
    simpl in Ha. apply orb_false_iff in Ha as [Hc Ha]. rewrite Hc.
    by rewrite (IH Ha).
Qed.

Lemma contains_char_middle c a b : Py.contains_char c (a +:+ String c b) = true.
Proof.
  induction a as [|c' a IH].
  - change ("" +:+ String c b) with (String c b). simpl. by rewrite Ascii.eqb_refl.
  - change (String c' a +:+ String c b) with (String c' (a +:+ String c b)). simpl.
    rewrite IH. apply orb_true_r.
Qed.

(** X17.  On a text with exactly one colon the parser returns 60 times what
    [int] reads before the colon plus what it reads after it, and 0 when
    [int] rejects either part.  It checks no range: hours beyond 23 and
    minutes beyond 59 are taken as they are. *)
Theorem parse_race_time_hours_minutes (hours minutes : string) :
  Py.contains_char ":"%char hours = false ->
  Py.contains_char ":"%char minutes = false ->
  _parse_race_time (hours +:+ ":" +:+ minutes)
  = match Py.int hours, Py.int minutes with
    | Ok h, Ok m => h * 60 + m
    | _, _ => 0
    end.
Proof.
  intros Hh Hm. unfold _parse_race_time.
  change (":" +:+ minutes) with (String ":"%char minutes).
  rewrite contains_char_middle, (split_one_sep _ _ _ Hh Hm). simpl.
  destruct (Py.int hours) as [h|]; simpl; [|done].
  by destruct (Py.int minutes).
Qed.

Lemma parse_race_time_hours_minutes_witness :
  _parse_race_time ("25" +:+ ":" +:+ "99")
  = match Py.int "25", Py.int "99" with
    | Ok h, Ok m => h * 60 + m
    | _, _ => 0
    end.
Proof.
  apply (parse_race_time_hours_minutes "25" "99").
  - reflexivity.
  - reflexivity.
Defined.

(** The parser takes 25:99 for 1599 minutes after midnight, and reads
    around blanks and a plus sign. *)
Example parse_race_time_out_of_range :
  _parse_race_time "25:99" = 1599 /\ _parse_race_time " 7 :+05" = 425.
Proof. split; reflexivity. Qed.

End HoursMinutes.

(** ** The daily summary report *)

Section SummaryReport.
Import Pl Exporters.
Context `{K : Kernels}.
Variable E : Env.

(** X18.  A daily summary that goes through has written three files, the table as
    Parquet and as CSV and the text report, and nothing else; it returns the
    path of the Parquet file and has read the clock three times. *)
Theorem summary_report_files (s s' : Store) (df : DataFrame) date_str path :
  export_daily_summary_report E s df date_str = (Ok path, s') ->
  let base_filename := "daily_summary_" +:+ date_str in
  exists summary,
    summary_stats df = Ok summary
    /\ path = path_in s (base_filename +:+ ".parquet")
    /\ disk s'
       = <[path_in s (base_filename +:+ "_report.txt")
             := Report date_str summary (clock E (ticks s + 2))]>
           (<[path_in s (base_filename +:+ ".csv") := Csv summary true]>
              (<[path_in s (base_filename +:+ ".parquet") := Parquet summary "snappy"]>
                 (disk s)))
    /\ ticks s' = (ticks s + 3)%nat
    /\ output_dir (self s') = output_dir (self s).
Proof.
  unfold export_daily_summary_report. cbn zeta.
  destruct (summary_stats df) as [summary|]; [|done].
  unfold export_parquet, export_csv, write, path_in. simpl.
  destruct (io E _); [done|]. simpl.
  destruct (io E _); [done|]. simpl.
  destruct (io E _); [done|]. simpl.
  intros [= <- <-]. exists summary. simpl.
  replace (S (S (ticks s))) with (ticks s + 2)%nat by lia.
  repeat split; try done; lia.
Qed.

(** X19.  The daily summary does not undo what it has done when a later step
    fails: if the Parquet file can be written and the CSV file cannot, the
    call raises the error of the CSV write, the Parquet file stays on disk
    and the statistics keep the one export. *)
Theorem summary_report_partial_failure (s : Store) (df summary : DataFrame) date_str e :
  summary_stats df = Ok summary ->
  let base_filename := "daily_summary_" +:+ date_str in
  io E (path_in s (base_filename +:+ ".parquet")) = None ->
  io E (path_in s (base_filename +:+ ".csv")) = Some e ->
  let r := export_daily_summary_report E s df date_str in
  r.1 = Raise e
  /\ disk r.2 = <[path_in s (base_filename +:+ ".parquet") := Parquet summary "snappy"]>
                  (disk s)
  /\ total_exports (export_stats (self r.2))
     = (total_exports (export_stats (self s)) + 1)%nat
  /\ total_records (export_stats (self r.2))
     = (total_records (export_stats (self s)) + height summary)%nat.
Proof.
  intros Hsummary base_filename Hparquet Hcsv. subst base_filename.
  unfold export_daily_summary_report. rewrite Hsummary.
  unfold export_parquet, export_csv, write. rewrite Hparquet.
  unfold path_in in *. simpl. rewrite Hcsv. done.
Qed.

End SummaryReport.

Section SummaryReportExamples.
Import Pl Exporters Examples.

Lemma summary_report_files_witness :
  let r := export_daily_summary_report (H := Ref.kernels) env_fine store0 processed_frame
             "2024-01-15" in
  let base_filename := "daily_summary_" +:+ "2024-01-15" in
  exists summary,
    summary_stats (H := Ref.kernels) processed_frame = Ok summary
    /\ "processed_data/daily_summary_2024-01-15.parquet"
       = path_in store0 (base_filename +:+ ".parquet")
    /\ disk r.2
       = <[path_in store0 (base_filename +:+ "_report.txt")
             := Report "2024-01-15" summary (Exporters.clock env_fine (ticks store0 + 2))]>
           (<[path_in store0 (base_filename +:+ ".csv") := Csv summary true]>
              (<[path_in store0 (base_filename +:+ ".parquet") := Parquet summary "snappy"]>
                 (disk store0)))
    /\ ticks r.2 = (ticks store0 + 3)%nat
    /\ output_dir (self r.2) = output_dir (self store0).
Proof.
  apply (summary_report_files (K := Ref.kernels) env_fine store0 _ processed_frame
           "2024-01-15" "processed_data/daily_summary_2024-01-15.parquet").
  by vm_compute.
Defined.

Lemma summary_report_partial_failure_witness :
  let E := mkEnv (fun path =>
                    if String.eqb path "processed_data/daily_summary_2024-01-15.csv"
                    then Some "No space left on device" else None) clock in
  let r := export_daily_summary_report (H := Ref.kernels) E store0 processed_frame
             "2024-01-15" in
  exists summary,
    summary_stats (H := Ref.kernels) processed_frame = Ok summary
    /\ r.1 = Raise "No space left on device"
    /\ disk r.2
       = <[path_in store0 (("daily_summary_" +:+ "2024-01-15") +:+ ".parquet")
             := Parquet summary "snappy"]> (disk store0)
    /\ total_exports (export_stats (self r.2))
       = (total_exports (export_stats (self store0)) + 1)%nat
    /\ total_records (export_stats (self r.2))
       = (total_records (export_stats (self store0)) + height summary)%nat.
Proof.
  cbn zeta.
  destruct (summary_stats (H := Ref.kernels) processed_frame) as [summary|] eqn:Hsummary;
    [|by vm_compute in Hsummary].
  exists summary. split; [done|].
  apply (summary_report_partial_failure (K := Ref.kernels) _ store0 processed_frame summary
           "2024-01-15" "No space left on device" Hsummary).
  - reflexivity.
  - reflexivity.
Defined.

End SummaryReportExamples.

(** ** The flow as a whole *)

Section FlowOutcome.
Import Pl DailyScrape.
Context `{K : Kernels}.

Lemma conclude_outcome (W : World) date_str scraper processed_df r :
  let f := conclude W (initial_stats W date_str) scraper processed_df r in
  (status f = Some (PStr "success") \/ status f = Some (PStr "failed"))
  /\ (status f = Some (PStr "failed") <-> raised f <> None)
  /\ (status f = Some (PStr "failed")
      <-> exists e, raised f = Some e /\ pipeline_stats f !! "error" = Some (PStr e))
  /\ (status f = Some (PStr "success") <-> pipeline_stats f !! "error" = None)
  /\ is_Some (pipeline_stats f !! "end_time")
  /\ pipeline_stats f !! "start_time" = Some (PStr (clock W 0))
  /\ pipeline_stats f !! "target_date" = Some (PStr date_str)
  /\ pipeline_stats f !! "flow_run_id" = Some (PStr (flow_run_id W)).
Proof.
  destruct r as [[[paths m]|e] s]; unfold status; simpl.
  - rewrite !lookup_insert_ne by done. rewrite !lookup_insert_eq.
    repeat split; try done; try (by left); try (by intros (? & ? & ?)); by eexists.
  - rewrite !lookup_insert_ne by done. rewrite !lookup_insert_eq.
    repeat split; try done; try (by right); try (by eexists).
Qed.

Lemma flow_outcome (W : World) (disk0 : gmap string Exporters.file)
    (target_date : option string) (export_formats : list string) :
  let r := daily_race_scraping_flow W disk0 target_date export_formats in
  status r ∈ [Some (PStr "no_data"); Some (PStr "validation_failed");
              Some (PStr "success"); Some (PStr "failed")]
  /\ (status r = Some (PStr "failed") <-> raised r <> None)
  /\ (status r = Some (PStr "failed")
      <-> exists e, raised r = Some e /\ pipeline_stats r !! "error" = Some (PStr e))
  /\ is_Some (pipeline_stats r !! "end_time")
  /\ pipeline_stats r !! "start_time" = Some (PStr (clock W 0))
  /\ pipeline_stats r !! "target_date" = Some (PStr (default (today_iso W) target_date))
  /\ pipeline_stats r !! "flow_run_id" = Some (PStr (flow_run_id W)).
Proof.
  cbn zeta. unfold daily_race_scraping_flow.
  destruct (scrape_tab_racing_data _ _ _) as [raw_data scraper].
  destruct raw_data as [|rec raw].
  { unfold status. simpl. rewrite !lookup_insert_ne by done. rewrite !lookup_insert_eq.
    repeat split; try done; try (by intros (? & ? & ?)); try (by eexists).
    apply list_elem_of_here. }
  destruct (negb _).
  { unfold status. simpl. rewrite !lookup_insert_ne by done. rewrite !lookup_insert_eq.
    repeat split; try done; try (by intros (? & ? & ?)); try (by eexists).
    apply list_elem_of_further, list_elem_of_here. }
  assert (forall processed_df r,
             let f := conclude W (initial_stats W (default (today_iso W) target_date))
                               scraper processed_df r in
             status f ∈ [Some (PStr "no_data"); Some (PStr "validation_failed");
                         Some (PStr "success"); Some (PStr "failed")]
             /\ (status f = Some (PStr "failed") <-> raised f <> None)
             /\ (status f = Some (PStr "failed")
                 <-> exists e, raised f = Some e
                               /\ pipeline_stats f !! "error" = Some (PStr e))
             /\ is_Some (pipeline_stats f !! "end_time")
             /\ pipeline_stats f !! "start_time" = Some (PStr (clock W 0))
             /\ pipeline_stats f !! "target_date"
                = Some (PStr (default (today_iso W) target_date))
             /\ pipeline_stats f !! "flow_run_id" = Some (PStr (flow_run_id W))) as Hc.
  { intros processed_df r.
    destruct (conclude_outcome W (default (today_iso W) target_date) scraper processed_df r)
      as (Hcases & H1 & H2 & _ & H3 & H4 & H5 & H6).
    repeat split; try done; try apply H1; try apply H2.
    destruct Hcases as [-> | ->]; rewrite !elem_of_cons; tauto. }
  destruct (transform_racing_data _ _); [apply Hc|apply Hc].
Qed.

(** X20.  Every run of the daily flow ends with one of four statuses, and with an
    exception exactly when the status is 'failed'; the summary then holds the
    error, and only then.  Whatever the status, the summary has an end time
    and keeps its start time, target date and run id. *)
Theorem flow_status_cases (W : World) (disk0 : gmap string Exporters.file)
    (target_date : option string) (export_formats : list string) :
  let r := daily_race_scraping_flow W disk0 target_date export_formats in
  status r ∈ [Some (PStr "no_data"); Some (PStr "validation_failed");
              Some (PStr "success"); Some (PStr "failed")]
  /\ (status r = Some (PStr "failed") <-> raised r <> None)
  /\ (status r = Some (PStr "failed")
      <-> exists e, raised r = Some e /\ pipeline_stats r !! "error" = Some (PStr e))
  /\ is_Some (pipeline_stats r !! "end_time")
  /\ pipeline_stats r !! "start_time" = Some (PStr (clock W 0))
  /\ pipeline_stats r !! "target_date" = Some (PStr (default (today_iso W) target_date))
  /\ pipeline_stats r !! "flow_run_id" = Some (PStr (flow_run_id W)).
Proof. apply flow_outcome. Qed.

End FlowOutcome.

Section FlowFiles.
Import Pl DailyScrape.
Context `{K : Kernels}.

Ltac export_cases E df export_formats :=
  unfold export_processed_data, requested_paths, requested, known_formats, export_if,
    path_of, exported_file, export_files,
    Exporters.export_daily_summary_report,
    Exporters.export_parquet, Exporters.export_csv, Exporters.write, Exporters.path_in;
  cbn [List.filter];
  destruct (Py.mem "parquet" export_formats), (Py.mem "csv" export_formats),
    (Py.mem "summary" export_formats); simpl;
  repeat match goal with
    | |- context [Exporters.io E ?p] =>
        let H := fresh "Hio" in destruct (Exporters.io E p) eqn:H; simpl
    | |- context [Exporters.summary_stats df] =>
        destruct (Exporters.summary_stats df); simpl
    end.

(** One execution of the export task changes the disk at the five export
    files of the date at most. *)
Lemma export_processed_data_outside (E : Exporters.Env) (st : State) (df : DataFrame)
    (date_str : string) (export_formats : list string) q :
  q ∉ export_files date_str ->
  disk (export_processed_data E st df date_str export_formats).2 !! q = disk st !! q.
Proof.
  unfold export_files, exported_file. rewrite !not_elem_of_cons.
  intros (H1 & H2 & H3 & H4 & H5 & _).
  export_cases E df export_formats; rewrite ?lookup_insert_ne by done; done.
Qed.

(** The files an execution of the export task lists are on the disk it
    leaves. *)
Lemma export_processed_data_files (E : Exporters.Env) (st st' : State) (df : DataFrame)
    (date_str : string) (export_formats : list string) export_paths :
  export_processed_data E st df date_str export_formats = (Ok export_paths, st') ->
  export_paths = requested_paths date_str export_formats
  /\ forall fmt path, (fmt, path) ∈ export_paths -> is_Some (disk st' !! path).
Proof.
  export_cases E df export_formats; intros [= <- <-]; (split; [done|]);
    intros fmt path Hin; simpl;
    repeat (apply elem_of_cons in Hin as [[= -> ->]|Hin]);
    try (by apply elem_of_nil in Hin);
    repeat (rewrite lookup_insert_is_Some'; first [by left | right]).
Qed.

Lemma run_task_returns {St A} (retries attempt : nat) (body : nat -> St -> result A * St)
    (s s' : St) a :
  run_task retries attempt body s = (Ok a, s') ->
  exists k s0, body k s0 = (Ok a, s').
Proof.
  revert attempt s. induction retries as [|retries IH]; intros attempt s; simpl.
  - destruct (body attempt s) as [[a'|e] s1] eqn:Hbody; [|done].
    intros [= <- <-]. by exists attempt, s.
  - destruct (body attempt s) as [[a'|e] s1] eqn:Hbody.
    + intros [= <- <-]. by exists attempt, s.
    + apply IH.
Qed.

Lemma run_task_keeps {St A} (R : St -> St -> Prop) (retries attempt : nat)
    (body : nat -> St -> result A * St) (s : St) :
  (forall s, R s s) -> (forall s1 s2 s3, R s1 s2 -> R s2 s3 -> R s1 s3) ->
  (forall k s, R s (body k s).2) ->
  R s (run_task retries attempt body s).2.
Proof.
  intros Hrefl Htrans Hbody. revert attempt s.
  induction retries as [|retries IH]; intros attempt s; simpl.
  - pose proof (Hbody attempt s) as H. by destruct (body attempt s) as [[a|e] s1].
  - pose proof (Hbody attempt s) as H. destruct (body attempt s) as [[a|e] s1]; [done|].
    eapply Htrans; [exact H|apply IH].
Qed.

Variables (W : World) (disk0 : gmap string Exporters.file) (target_date : option string)
          (export_formats : list string).

(** X21.  Whatever happens in a run, retries of the export task included, the
    only files it creates or changes are the five export files of its date;
    and a run that ends as 'no_data' or 'validation_failed' leaves the disk
    exactly as it found it. *)
Theorem flow_touches_only_export_files :
  let r := daily_race_scraping_flow W disk0 target_date export_formats in
  let date_str := default (today_iso W) target_date in
  (forall q, q ∉ export_files date_str -> disk_after r !! q = disk0 !! q)
  /\ (status r = Some (PStr "no_data") \/ status r = Some (PStr "validation_failed") ->
      disk_after r = disk0
      /\ pipeline_stats r !! "export_paths" = None
      /\ pipeline_stats r !! "records_processed" = None).
Proof.
  cbn zeta. unfold daily_race_scraping_flow.
  destruct (scrape_tab_racing_data _ _ _) as [raw_data scraper].
  destruct raw_data as [|rec raw]; [done|].
  destruct (negb _); [done|].
  destruct (transform_racing_data _ _) as [processed_df|e].
  - unfold run_from_export, export_and_measure.
    set (body := fun attempt s => export_processed_data _ s processed_df _ export_formats).
    assert (forall q, q ∉ export_files (default (today_iso W) target_date) ->
                      disk (run_task 2 0 body (mkState disk0 4)).2 !! q = disk0 !! q)
      as Hkeep.
    { apply (run_task_keeps
               (fun s s' => forall q, q ∉ export_files (default (today_iso W) target_date)
                                      -> disk s' !! q = disk s !! q)).
      - done.
      - intros s1 s2 s3 H12 H23 q Hq. by rewrite H23, H12.
      - intros k s0 q Hq. by apply export_processed_data_outside. }
    destruct (run_task 2 0 body (mkState disk0 4)) as [[paths|e] s] eqn:Hrun.
    + destruct (create_data_quality_metrics _ _); unfold status; simpl;
        rewrite !lookup_insert_ne by done; rewrite lookup_insert_eq;
        (split; [done|by intros [?|?]]).
    + unfold status; simpl.
      rewrite !lookup_insert_ne by done; rewrite lookup_insert_eq.
      split; [done|by intros [?|?]].
  - unfold status. simpl. rewrite !lookup_insert_ne by done. rewrite lookup_insert_eq.
    split; [done|]. by intros [?|?].
Qed.

(** X22.  A run that has reached the export stage and ends with 'success' lists
    in its summary the files of all requested formats, in the order parquet,
    csv, summary; each listed file is one of the export files of the date
    and is on the disk the run leaves; and the number of records it reports
    is the height of the processed frame. *)
Theorem successful_run_files (scraper : Base.BaseScraper) (st : State)
    (processed_df : DataFrame) (date_str : string) :
  let r := run_from_export W (initial_stats W date_str) scraper st processed_df date_str
                           export_formats in
  status r = Some (PStr "success") ->
  raised r = None
  /\ pipeline_stats r !! "export_paths"
     = Some (PPaths (requested_paths date_str export_formats))
  /\ (forall fmt path, (fmt, path) ∈ requested_paths date_str export_formats ->
                       path ∈ export_files date_str /\ is_Some (disk_after r !! path))
  /\ pipeline_stats r !! "records_processed"
     = Some (PInt (Z.of_nat (height processed_df))).
Proof.
  cbn zeta. unfold run_from_export, export_and_measure.
  destruct (run_task 2 0 _ st) as [[paths|e] s] eqn:Hrun;
    [|by unfold status; simpl].
  apply run_task_returns in Hrun as (k & s0 & Hbody).
  apply export_processed_data_files in Hbody as [-> Hfiles].
  destruct (create_data_quality_metrics _ _); [|by unfold status; simpl].
  intros _. simpl. rewrite !lookup_insert_ne by done. rewrite !lookup_insert_eq.
  split; [done|]. split; [done|]. split; [|done].
  intros fmt path Hin. split; [|by apply (Hfiles fmt)].
  clear -Hin. unfold requested_paths, requested, known_formats, export_files in *.
  cbn [List.filter] in Hin.
  destruct (Py.mem "parquet" export_formats), (Py.mem "csv" export_formats),
    (Py.mem "summary" export_formats); simpl in Hin;
    repeat (apply elem_of_cons in Hin as [[= -> ->]|Hin]);
    try (by apply elem_of_nil in Hin); unfold path_of; simpl;
    rewrite !elem_of_cons; tauto.
Qed.

End FlowFiles.

Section RequestedFormats.
Import Pl DailyScrape.
Context `{K : Kernels}.

(** X23.  Of the list of formats a run is asked for, only the presence of
    'parquet', 'csv' and 'summary' counts: order and repetitions make no
    difference, and any other name (such as 'json') is passed over without
    a word, for the export task and so for the whole flow. *)
Theorem export_formats_as_a_set (formats1 formats2 : list string) :
  (forall fmt, fmt ∈ known_formats -> fmt ∈ formats1 <-> fmt ∈ formats2) ->
  (forall E st df date_str,
      export_processed_data E st df date_str formats1
      = export_processed_data E st df date_str formats2)
  /\ (forall W disk0 target_date,
        daily_race_scraping_flow W disk0 target_date formats1
        = daily_race_scraping_flow W disk0 target_date formats2).
Proof.
  intros Hsame.
  assert (forall fmt, fmt ∈ known_formats -> Py.mem fmt formats1 = Py.mem fmt formats2)
    as Hmem.
  { intros fmt Hfmt. unfold Py.mem. apply bool_decide_ext. by apply Hsame. }
  assert (Py.mem "parquet" formats1 = Py.mem "parquet" formats2) as Hp.
  { apply Hmem. apply list_elem_of_here. }
  assert (Py.mem "csv" formats1 = Py.mem "csv" formats2) as Hc.
  { apply Hmem. apply list_elem_of_further, list_elem_of_here. }
  assert (Py.mem "summary" formats1 = Py.mem "summary" formats2) as Hs.
  { apply Hmem. do 2 apply list_elem_of_further. apply list_elem_of_here. }
  split.
  - intros E st df date_str. unfold export_processed_data. by rewrite Hp, Hc, Hs.
  - intros W disk0 target_date.
    unfold daily_race_scraping_flow, run_from_export, export_and_measure,
      export_processed_data.
    by rewrite Hp, Hc, Hs.
Qed.

End RequestedFormats.

(** ** Backfill *)

Section Backfill.
Import Pl DailyScrape.
Variables (call : subflow) (isoformat : Z -> string).

Lemma backfill_loop_spec (days : nat) :
  forall (current_date : Z) (disk : gmap string Exporters.file),
    let r := backfill_loop call isoformat days current_date disk in
    length r.1 = days
    /\ forall (i : nat) result,
         r.1 !! i = Some result ->
         exists disk_i,
           match (call (current_date + Z.of_nat i) disk_i).1 with
           | Ok summary => result = summary
           | Raise e =>
               result = backfill_failure isoformat (current_date + Z.of_nat i) e
           end.
Proof.
  induction days as [|days IH]; intros current_date disk; cbn zeta; [done|].
  simpl. destruct (call current_date disk) as [r disk1] eqn:Hcall.
  specialize (IH (current_date + 1) disk1). cbn zeta in IH.
  destruct (backfill_loop call isoformat days (current_date + 1) disk1) as [results disk2].
  simpl in *. destruct IH as [IHlen IHres]. split; [by rewrite IHlen|].
  intros [|i] result Hi; simpl in Hi.
  - injection Hi as <-. exists disk. rewrite Z.add_0_r, Hcall. simpl. by destruct r.
  - destruct (IHres i result Hi) as [disk_i Hres]. exists disk_i.
    by replace (current_date + Z.of_nat (S i)) with (current_date + 1 + Z.of_nat i) by lia.
Qed.

(** X24.  A backfill returns one entry for every date from the first to the last,
    in order, and none when the last date lies before the first.  A date
    whose run raises does not end the backfill: it gets an entry with just
    the date, status 'failed' and the error, and the dates after it are
    still run. *)
Theorem backfill_covers_every_date (start_date end_date : Z)
    (disk : gmap string Exporters.file) :
  let r := backfill_racing_data_flow call isoformat start_date end_date disk in
  length r.1 = Z.to_nat (end_date - start_date + 1)
  /\ (end_date < start_date -> r = ([], disk))
  /\ forall (i : nat) result,
       r.1 !! i = Some result ->
       start_date + Z.of_nat i <= end_date
       /\ exists disk_i,
            match (call (start_date + Z.of_nat i) disk_i).1 with
            | Ok summary => result = summary
            | Raise e =>
                result = {[ "target_date" := PStr (isoformat (start_date + Z.of_nat i));
                            "status" := PStr "failed";
                            "error" := PStr e ]}
            end.
Proof.
  cbn zeta. unfold backfill_racing_data_flow.
  destruct (backfill_loop_spec (Z.to_nat (end_date - start_date + 1)) start_date disk)
    as [Hlen Hres].
  split; [done|]. split.
  - intros Hlt. by replace (Z.to_nat (end_date - start_date + 1)) with 0%nat by lia.
  - intros i result Hi. split.
    + apply lookup_lt_Some in Hi. rewrite Hlen in Hi. lia.
    + by apply Hres.
Qed.

End Backfill.

Section BackfillDaily.
Import Pl DailyScrape.
Context `{K : Kernels}.
Variables (worlds : Z -> World) (isoformat : Z -> string).

(** X25.  In a backfill over the daily flow every entry names its own date and has
    one of the four statuses.  The entries of runs that raised have three
    keys only: unlike all others they carry no start time, end time or run
    id. *)
Theorem backfill_entries (start_date end_date : Z) (disk : gmap string Exporters.file)
    (i : nat) result :
  (backfill_racing_data_flow (daily_subflow worlds isoformat) isoformat
     start_date end_date disk).1 !! i = Some result ->
  result !! "target_date" = Some (PStr (isoformat (start_date + Z.of_nat i)))
  /\ result !! "status" ∈ [Some (PStr "no_data"); Some (PStr "validation_failed");
                           Some (PStr "success"); Some (PStr "failed")]
  /\ (result !! "status" = Some (PStr "failed")
      <-> is_Some (result !! "error"))
  /\ (result !! "status" = Some (PStr "failed")
      <-> result !! "start_time" = None)
  /\ (result !! "status" = Some (PStr "failed")
      <-> result !! "end_time" = None).
Proof.
  intros Hi. unfold backfill_racing_data_flow in Hi.
  destruct (backfill_loop_spec (daily_subflow worlds isoformat) isoformat
              (Z.to_nat (end_date - start_date + 1)) start_date disk) as [_ Hres].
  destruct (Hres i result Hi) as (disk_i & Hcall). clear Hres Hi.
  unfold daily_subflow in Hcall. cbn [fst] in Hcall.
  set (d := start_date + Z.of_nat i) in *.
  destruct (flow_outcome (worlds d) disk_i (Some (isoformat d))
              ["parquet"; "csv"; "summary"])
    as (Hcases & Hraised & Herror & Hend & Hstart & Hdate & _).
  set (r := daily_race_scraping_flow _ _ _ _) in *.
  destruct (raised r) as [e|] eqn:Hr.
  - subst result. unfold backfill_failure.
    split; [by vm_compute|]. split.
    { rewrite !elem_of_cons. do 3 right. left. by vm_compute. }
    split; [split; [by eexists|by vm_compute]|].
    split; (split; by vm_compute).
  - subst result. simpl in Hdate.
    assert (status r <> Some (PStr "failed")) as Hnot.
    { intros Hf. by apply Hraised in Hf. }
    unfold status in *.
    split; [done|]. split; [done|]. split; [|split].
    + split; [done|]. intros [v Hv]. exfalso.
      assert (pipeline_stats r !! "error" = None) as Hnone; [|by rewrite Hnone in Hv].
      destruct (pipeline_stats r !! "error") as [v'|] eqn:Hv'; [|done].
      exfalso. clear Hv. subst r. revert Hr Hv'. clear.
      unfold daily_race_scraping_flow.
      destruct (scrape_tab_racing_data _ _ _) as [raw_data scraper].
      destruct raw_data as [|rec raw]; [by simpl|].
      destruct (negb _); [by simpl|].
      destruct (transform_racing_data _ _); [|by simpl].
      unfold run_from_export. destruct (export_and_measure _ _ _ _ _) as [[[p m]|e] s];
        by simpl.
    + split; [done|]. by rewrite Hstart.
    + split; [done|]. intros Hnone. rewrite Hnone in Hend. by destruct Hend.
Qed.

End BackfillDaily.

Section FlowExamples.
Import Pl Base DailyScrape Examples.

Lemma successful_run_files_witness :
  let W := world refused io_fine in
  let export_formats := ["parquet"; "csv"; "summary"] in
  let r := run_from_export (H := Ref.kernels) W (initial_stats W "2024-01-15") Tab.init
             (mkState ∅ 4) processed_frame "2024-01-15" export_formats in
  raised r = None
  /\ pipeline_stats r !! "export_paths"
     = Some (PPaths (requested_paths "2024-01-15" export_formats))
  /\ (forall fmt path, (fmt, path) ∈ requested_paths "2024-01-15" export_formats ->
                       path ∈ export_files "2024-01-15" /\ is_Some (disk_after r !! path))
  /\ pipeline_stats r !! "records_processed"
     = Some (PInt (Z.of_nat (height processed_frame))).
Proof.
  apply (successful_run_files (K := Ref.kernels) (world refused io_fine)
           ["parquet"; "csv"; "summary"] Tab.init (mkState ∅ 4) processed_frame
           "2024-01-15").
  by vm_compute.
Defined.

Lemma export_formats_as_a_set_witness :
  let formats1 := ["summary"; "csv"; "json"; "parquet"; "csv"] in
  let formats2 := ["parquet"; "csv"; "summary"] in
  (forall E st df date_str,
      export_processed_data (H := Ref.kernels) E st df date_str formats1
      = export_processed_data (H := Ref.kernels) E st df date_str formats2)
  /\ (forall W disk0 target_date,
        daily_race_scraping_flow (H := Ref.kernels) W disk0 target_date formats1
        = daily_race_scraping_flow (H := Ref.kernels) W disk0 target_date formats2).
Proof.
  apply (export_formats_as_a_set (K := Ref.kernels)
           ["summary"; "csv"; "json"; "parquet"; "csv"] ["parquet"; "csv"; "summary"]).
  intros fmt Hfmt. split; intros _.
  - repeat (apply elem_of_cons in Hfmt as [->|Hfmt]);
      try (apply (bool_decide_unpack _); by vm_compute).
    by apply elem_of_nil in Hfmt.
  - repeat (apply elem_of_cons in Hfmt as [->|Hfmt]);
      try (apply (bool_decide_unpack _); by vm_compute).
    by apply elem_of_nil in Hfmt.
Defined.

Lemma backfill_entries_witness :
  let result := no_data_summary (world refused io_fine) "2024-01-16" in
  result !! "target_date" = Some (PStr (january (today + Z.of_nat 1)))
  /\ result !! "status" ∈ [Some (PStr "no_data"); Some (PStr "validation_failed");
                           Some (PStr "success"); Some (PStr "failed")]
  /\ (result !! "status" = Some (PStr "failed") <-> is_Some (result !! "error"))
  /\ (result !! "status" = Some (PStr "failed") <-> result !! "start_time" = None)
  /\ (result !! "status" = Some (PStr "failed") <-> result !! "end_time" = None).
Proof.
  apply (backfill_entries (K := Ref.kernels) (fun _ => world refused io_fine) january
           today (today + 2) ∅ 1 (no_data_summary (world refused io_fine) "2024-01-16")).
  by vm_compute.
Defined.

(** A backfill of three days against a source that refuses every request:
    three entries, all 'no_data'. *)
Example backfill_three_days :
  let r := backfill_racing_data_flow
             (daily_subflow (H := Ref.kernels) (fun _ => world refused io_fine) january)
             january today (today + 2) ∅ in
  map (fun result => (result !! "target_date", result !! "status")) r.1
  = [ (Some (PStr "2024-01-15"), Some (PStr "no_data"));
      (Some (PStr "2024-01-16"), Some (PStr "no_data"));
      (Some (PStr "2024-01-17"), Some (PStr "no_data")) ]
  /\ r.2 = ∅.
Proof. split; by vm_compute. Qed.

(** A subflow that raises on the second day does not stop the third. *)
Example backfill_goes_on_after_failure :
  let call : subflow :=
    fun d disk =>
      if (d =? today + 1)%Z then (Raise "boom", disk)
      else (Ok {[ "target_date" := PStr (january d); "status" := PStr "success" ]}, disk) in
  map (fun result => (result !! "target_date", result !! "status", result !! "error"))
      (backfill_racing_data_flow call january today (today + 2) ∅).1
  = [ (Some (PStr "2024-01-15"), Some (PStr "success"), None);
      (Some (PStr "2024-01-16"), Some (PStr "failed"), Some (PStr "boom"));
      (Some (PStr "2024-01-17"), Some (PStr "success"), None) ].
Proof. by vm_compute. Qed.

End FlowExamples.

(** ** The monitoring report *)

Section Report.
Import Pl Monitoring.
Variables (now : string) (freshness_metrics : FreshnessResult)
          (anomaly_results : AnomalyResult).

Ltac report_cases :=
  unfold generate_monitoring_report, Py.mem; cbn zeta;
  destruct (bool_decide_reflect (freshness_status freshness_metrics = Some "error"))
    as [Hf|Hf];
  destruct (bool_decide_reflect (data_freshness_status freshness_metrics = Some "stale"))
    as [Hs|Hs];
  destruct (String.eqb_spec (status anomaly_results) "error") as [Ha|Ha];
  destruct (Nat.ltb_spec 0 (length (anomalies anomaly_results))) as [Hn|Hn];
  cbn.

(** X26.  The overall status counts the issues: 'healthy' without any, 'warning'
    with one, 'critical' with two, and there are never more, one from the
    freshness side and one from the anomaly side.  A failed check hides what
    the check would have said: a freshness error is never 'stale_data', a
    failed anomaly detection never 'anomalies_detected'. *)
Theorem report_status_counts_issues :
  let r := generate_monitoring_report now freshness_metrics anomaly_results in
  let found := default [] (issues r) in
  (overall_status r = "healthy" <-> issues r = None)
  /\ (overall_status r = "warning" <-> length found = 1%nat)
  /\ (overall_status r = "critical" <-> length found = 2%nat)
  /\ (length found <= 2)%nat
  /\ ("freshness_check_failed" ∈ found <-> freshness_status freshness_metrics = Some "error")
  /\ ("stale_data" ∈ found
      <-> freshness_status freshness_metrics <> Some "error"
          /\ data_freshness_status freshness_metrics = Some "stale")
  /\ ("anomaly_detection_failed" ∈ found <-> status anomaly_results = "error")
  /\ ("anomalies_detected" ∈ found
      <-> status anomaly_results <> "error" /\ anomalies anomaly_results <> []).
Proof.
  assert (forall l : list anomaly, (0 < length l)%nat -> l <> []) as Hpos
    by (intros [|? ?]; simpl; [lia|done]).
  assert (forall l : list anomaly, (length l <= 0)%nat -> l = []) as Hzero
    by (intros [|? ?]; simpl; [done|lia]).
  report_cases; try apply Hpos in Hn; try apply Hzero in Hn;
    rewrite ?elem_of_cons, ?elem_of_nil;
    repeat split; try done; try lia;
    try solve [intuition (try discriminate; try congruence)].
Qed.

(** X27.  The recommendations follow the issues, not the status: a report whose
    only issues are failed checks is 'warning' or 'critical' and recommends
    nothing, and "no action required" is said exactly when the report is
    'healthy'. *)
Theorem report_recommendations :
  let r := generate_monitoring_report now freshness_metrics anomaly_results in
  let found := default [] (issues r) in
  (recommendations r = []
   <-> overall_status r <> "healthy"
       /\ forall issue, issue ∈ found ->
            issue ∈ ["freshness_check_failed"; "anomaly_detection_failed"])
  /\ ("All systems healthy - no action required" ∈ recommendations r
      <-> overall_status r = "healthy")
  /\ (overall_status r = "healthy" ->
      recommendations r = ["All systems healthy - no action required"])
  /\ send_alert_notification r = negb (bool_decide (issues r = None)).
Proof.
  report_cases; (split; [|split; [|split]]); try done.
  all: try (split; [by intros ?%elem_of_nil
                   |intros; exfalso; by auto]).
  all: try (split; [by intros [?|?%elem_of_nil]%elem_of_cons
                   |intros; exfalso; by auto]).
  all: try (split; [by intros [?|[?|?%elem_of_nil]%elem_of_cons]%elem_of_cons
                   |intros; exfalso; by auto]).
  all: try (split; [done|intros; apply list_elem_of_here]).
  all: split;
    [ try discriminate; intros _; (split; [done|]);
      intros issue; rewrite !elem_of_cons, !elem_of_nil; tauto
    | intros [Hne Hall]; try done; exfalso;
      first [ pose proof (Hall "stale_data" ltac:(rewrite !elem_of_cons; auto)) as Hbad
            | pose proof (Hall "anomalies_detected" ltac:(rewrite !elem_of_cons; auto))
                as Hbad ];
      rewrite !elem_of_cons, elem_of_nil in Hbad;
      destruct Hbad as [?|[?|?]]; done ].
Qed.

End Report.

(** ** Missing tracks and the report on no data *)

Section MissingTracks.
Import Pl Monitoring.
Context `{K : Kernels}.

Lemma missing_track_check_count (df : DataFrame) (tracks : Series) track :
  get_column df "track_clean" = Ok tracks ->
  forallb is_text tracks = true ->
  missing_track_check df track
  = Ok (if bool_decide (VStr track ∈ tracks) then []
        else [missing_track ("Major track " +:+ track +:+ " not found in recent data")
                            track]).
Proof.
  intros Htracks Htext. unfold missing_track_check, filter_height. simpl.
  rewrite Htracks. simpl. rewrite (mapM_on_str _ _ _ Htext). simpl.
  rewrite (count_true_map _ (fun v => v = VStr track)).
  - case_bool_decide as Hin.
    + assert (VStr track ∈ filter (fun v => v = VStr track) tracks) as Hin'
        by by apply list_elem_of_filter.
      by destruct (filter _ tracks); [apply elem_of_nil in Hin'|].
    + destruct (filter (fun v => v = VStr track) tracks) as [|v l] eqn:Hfilter; [done|].
      exfalso. apply Hin.
      assert (v ∈ filter (fun v => v = VStr track) tracks) as Hv
        by (rewrite Hfilter; apply list_elem_of_here).
      apply list_elem_of_filter in Hv as [-> Hv]. done.
  - intros v _. destruct v as [| | |x| | |]; try done. split.
    + intros [= Hx%String.eqb_eq]. by subst.
    + intros [= ->]. by rewrite String.eqb_refl.
Qed.

(** X28.  On a window with dates and a column of track names, the anomaly
    detection succeeds and reports as missing exactly those of the three
    major tracks whose name, in capitals and letter for letter, is in no row;
    each gets one entry, with the track named in its description. *)
Theorem missing_tracks_reported (df : DataFrame) (dates tracks : Series) :
  height df <> 0%nat ->
  get_column df "race_date" = Ok dates ->
  get_column df "track_clean" = Ok tracks ->
  forallb is_text tracks = true ->
  let r := detect_data_anomalies df in
  status r = "success"
  /\ forall description track,
       missing_track description track ∈ anomalies r
       <-> track ∈ expected_major_tracks
           /\ (VStr track ∉ tracks)
           /\ description = "Major track " +:+ track +:+ " not found in recent data".
Proof.
  intros Hheight Hdates Htracks Htext. cbn zeta. unfold detect_data_anomalies.
  rewrite bool_decide_eq_false_2 by done.
  rewrite Hdates, Htracks. cbn [mbind result_bind].
  unfold expected_major_tracks. cbn [mapM].
  rewrite !(missing_track_check_count _ _ _ Htracks Htext). cbn [mbind result_bind].
  assert (exists n, filter_height df (is_in (col "track_clean")
                                            [VStr "UNKNOWN"; VStr ""; VNull]) = Ok n)
    as [n ->].
  { unfold filter_height. simpl. rewrite Htracks. simpl.
    rewrite (mapM_total _ (fun v => if bool_decide (v = VNull) then VNull
                                    else VBool (bool_decide
                                                  (v ∈ [VStr "UNKNOWN"; VStr ""; VNull]))))
      by done.
    by eexists. }
  cbn [mbind result_bind status anomalies]. split; [done|].
  intros description track.
  rewrite !elem_of_app.
  assert (missing_track description track ∉ low_volume_check (daily_counts dates)) as Hlow.
  { unfold low_volume_check. destruct (variance _); [|by intros ?%elem_of_nil].
    destruct (Qlt_bool 0 _); [|by intros ?%elem_of_nil].
    destruct (0 <? _)%nat; [|by intros ?%elem_of_nil].
    by intros [?|?%elem_of_nil]%elem_of_cons. }
  assert (missing_track description track
          ∉ (if (0 <? n)%nat && Qlt_bool 5 (of_nat n / of_nat (height df) * 100)
             then [data_quality (of_nat n / of_nat (height df) * 100)%Q] else []))
    as Hquality.
  { destruct (_ && _); [by intros [?|?%elem_of_nil]%elem_of_cons|by intros ?%elem_of_nil]. }
  cbn [concat]. rewrite !elem_of_app, !elem_of_cons, !elem_of_nil.
  repeat case_bool_decide; rewrite ?elem_of_cons, ?elem_of_nil;
    split;
    try (intros [?|[[?|[?|[?|?]]]|?]]; try done);
    try (intros (Hexp & Hnot & ->));
    repeat match goal with
      | H : missing_track _ _ = missing_track _ _ |- _ => injection H as -> ->
      | H : _ \/ _ |- _ => destruct H as [H|H]
      | H : False |- _ => destruct H
      | H : ?t = _ |- _ => is_var t; subst t
      end;
    try done; try tauto;
    try (repeat split; try done; tauto);
    try (right; left; tauto).
Qed.

(** X29.  Monitoring a window without any row: the freshness check and the
    anomaly detection both answer 'no_data', and the report calls that
    'healthy', with no issue, no alert and "no action required". *)
Theorem no_data_is_reported_healthy (now : string) (df : DataFrame) :
  height df = 0%nat ->
  let anomaly_results := detect_data_anomalies df in
  let r := generate_monitoring_report now freshness_no_data anomaly_results in
  status anomaly_results = "no_data"
  /\ anomalies anomaly_results = []
  /\ overall_status r = "healthy"
  /\ issues r = None
  /\ recommendations r = ["All systems healthy - no action required"]
  /\ send_alert_notification r = false.
Proof.
  intros Hheight. cbn zeta. unfold detect_data_anomalies.
  by rewrite bool_decide_eq_true_2 by done.
Qed.


End MissingTracks.

Section MonitoringExamples.
Import Pl Monitoring Examples.

Lemma missing_tracks_reported_witness :
  let r := detect_data_anomalies (H := Ref.kernels) week in
  status r = "success"
  /\ forall description track,
       missing_track description track ∈ anomalies r
       <-> track ∈ expected_major_tracks
           /\ (VStr track ∉ replicate 70 (VStr "ELLERSLIE"))
           /\ description = "Major track " +:+ track +:+ " not found in recent data".
Proof.
  apply (missing_tracks_reported (K := Ref.kernels) week
           (concat (map (fun dc : nat * nat => replicate dc.2 (VDate (today + Z.of_nat dc.1)))
                        [(1, 10); (2, 10); (3, 10); (4, 10); (5, 9); (6, 10); (7, 11)]%nat))
           (replicate 70 (VStr "ELLERSLIE"))).
  - by vm_compute.
  - reflexivity.
  - reflexivity.
  - reflexivity.
Defined.

(** The week of the examples has Ellerslie only: the two other major tracks
    are reported, in the order of the list. *)
Example week_misses_two_tracks :
  anomalies (detect_data_anomalies (H := Ref.kernels) week)
  = [ missing_track "Major track TRENTHAM not found in recent data" "TRENTHAM";
      missing_track "Major track RICCARTON not found in recent data" "RICCARTON" ].
Proof. by vm_compute. Qed.

Lemma no_data_is_reported_healthy_witness :
  let anomaly_results := detect_data_anomalies (H := Ref.kernels) [] in
  let r := generate_monitoring_report "2024-01-15T10:00:00" freshness_no_data
             anomaly_results in
  status anomaly_results = "no_data"
  /\ anomalies anomaly_results = []
  /\ overall_status r = "healthy"
  /\ issues r = None
  /\ recommendations r = ["All systems healthy - no action required"]
  /\ send_alert_notification r = false.
Proof.
  apply (no_data_is_reported_healthy (K := Ref.kernels) "2024-01-15T10:00:00" []).
  reflexivity.
Defined.

(** A stale window in which the anomaly detection failed: two issues,
    'critical', and one recommendation. *)
Example stale_and_failed_detection :
  let r := generate_monitoring_report "2024-01-15T10:00:00"
             (mkFreshnessResult (Some "success") (Some "stale"))
             (mkAnomalyResult "error" [] (Some "ColumnNotFoundError: race_date")) in
  overall_status r = "critical"
  /\ issues r = Some ["stale_data"; "anomaly_detection_failed"]
  /\ recommendations r = ["Data is stale - check scraping pipeline status"].
Proof. by vm_compute. Qed.

End MonitoringExamples.

Section FurtherExamples.
Import Pl DailyScrape Examples.

Lemma validation_errors_bounded_witness :
  let r := Validators.validate_scraped_data (H := Ref.kernels) today "2024-01-15T10:00:00"
             bad_data in
  (length (Validators.errors r) <= 5)%nat
  /\ forall s, Validators.stats r !! "data_quality_score" = Some s ->
       exists q, s = Validators.SNum q
         /\ (q == inject_Z (16 - Z.of_nat (length (Validators.errors r))) / inject_Z 16)%Q
         /\ (11 # 16 <= q)%Q.
Proof.
  apply (validation_errors_bounded (K := Ref.kernels) today "2024-01-15T10:00:00" bad_data).
Defined.

Lemma flow_touches_only_export_files_witness :
  let W := world empty_page io_fine in
  let r := daily_race_scraping_flow (H := Ref.kernels) W ∅ None ["parquet"; "csv"] in
  (forall q, q ∉ export_files (default (today_iso W) None) ->
             disk_after r !! q = (∅ : gmap string Exporters.file) !! q)
  /\ (status r = Some (PStr "no_data") \/ status r = Some (PStr "validation_failed") ->
      disk_after r = ∅
      /\ pipeline_stats r !! "export_paths" = None
      /\ pipeline_stats r !! "records_processed" = None).
Proof.
  apply (flow_touches_only_export_files (K := Ref.kernels) (world empty_page io_fine) ∅ None
           ["parquet"; "csv"]).
Defined.

Lemma backfill_covers_every_date_witness :
  let call := daily_subflow (H := Ref.kernels) (fun _ => world refused io_fine) january in
  let r := backfill_racing_data_flow call january today (today + 2) ∅ in
  length r.1 = Z.to_nat (today + 2 - today + 1)
  /\ (today + 2 < today -> r = ([], ∅))
  /\ forall (i : nat) result,
       r.1 !! i = Some result ->
       today + Z.of_nat i <= today + 2
       /\ exists disk_i,
            match (call (today + Z.of_nat i) disk_i).1 with
            | Ok summary => result = summary
            | Raise e =>
                result = {[ "target_date" := PStr (january (today + Z.of_nat i));
                            "status" := PStr "failed";
                            "error" := PStr e ]}
            end.
Proof.
  apply (backfill_covers_every_date
           (daily_subflow (H := Ref.kernels) (fun _ => world refused io_fine) january)
           january today (today + 2) ∅).
Defined.

End FurtherExamples.
